(** * Content validation and normalization pipeline

    A shallow embedding of the validation services of the optimizer
    (services/validation.ts, services/validation/index.ts,
    services/validation/validator.ts with its schema, services/socialContent.ts
    and services/instagramContent.ts), of the error handler, the logger, the
    Instagram service and the request and tag processing of
    services/openai.ts, followed by the properties of the specification that
    concern them and by further properties of the same code. *)

From Stdlib Require Import List NArith ZArith Arith Lia Bool.
From Stdlib Require String Ascii.
Import ListNotations String.StringSyntax.
Delimit Scope string_scope with string.

Set Implicit Arguments.
Set Warnings "-register-all".

(** ** JavaScript strings *)

Module JS.

(** A JavaScript string is a finite sequence of UTF-16 code units; [length],
    [substring] and the other string methods count code units. *)
Definition jsstring := list N.

(** The code units of a literal written with ASCII characters only. *)
Definition js (s : String.string) : jsstring :=
  map Ascii.N_of_ascii (String.list_ascii_of_string s).
Arguments js s%_string.

(** The code units of a JSON text written with the apostrophe in place of
    the double quote, so that texts can be written as literals. *)
Definition jsq (s : String.string) : jsstring :=
  map (fun c => if (c =? 39)%N then 34%N else c) (js s).
Arguments jsq s%_string.

Fixpoint eqb (a b : jsstring) : bool :=
  match a, b with
  | [], [] => true
  | x :: a', y :: b' => (x =? y)%N && eqb a' b'
  | _, _ => false
  end.

(** [Boolean(s)] on a string: only the empty string is falsy. *)
Definition truthy (s : jsstring) : bool :=
  match s with [] => false | _ :: _ => true end.

(** WhiteSpace and LineTerminator code points of ECMAScript, the set that
    [String.prototype.trim] strips and that the regular expression class
    [\s] matches. *)
Definition isWhiteSpace (c : N) : bool :=
  ((9 <=? c) && (c <=? 13) || (c =? 32) || (c =? 160) || (c =? 0x1680)
   || (0x2000 <=? c) && (c <=? 0x200A) || (c =? 0x2028) || (c =? 0x2029)
   || (c =? 0x202F) || (c =? 0x205F) || (c =? 0x3000) || (c =? 0xFEFF))%N.

(** The regular expression class [\w]: [A-Za-z0-9_]. *)
Definition isWordChar (c : N) : bool :=
  ((65 <=? c) && (c <=? 90) || (97 <=? c) && (c <=? 122)
   || (48 <=? c) && (c <=? 57) || (c =? 95))%N.

Fixpoint trimStart (s : jsstring) : jsstring :=
  match s with
  | [] => []
  | c :: r => if isWhiteSpace c then trimStart r else s
  end.

Definition trimEnd (s : jsstring) : jsstring := rev (trimStart (rev s)).

Definition trim (s : jsstring) : jsstring := trimEnd (trimStart s).

Fixpoint startsWith (s p : jsstring) {struct p} : bool :=
  match p, s with
  | [], _ => true
  | _ :: _, [] => false
  | x :: p', y :: s' => (x =? y)%N && startsWith s' p'
  end.

Definition endsWith (s p : jsstring) : bool := startsWith (rev s) (rev p).

Fixpoint includes (s p : jsstring) : bool :=
  startsWith s p || match s with [] => false | _ :: r => includes r p end.

(** [s.substring(a, b)]: the arguments are clamped to the length and swapped
    when [a > b]. *)
Definition substring (s : jsstring) (a b : nat) : jsstring :=
  firstn (Nat.max a b - Nat.min a b) (skipn (Nat.min a b) s).

(** [s.split(sep)] for a separator of one code unit. *)
Fixpoint split (sep : N) (s : jsstring) : list jsstring :=
  match s with
  | [] => [[]]
  | c :: r =>
      if (c =? sep)%N then [] :: split sep r
      else match split sep r with
           | p :: ps => (c :: p) :: ps
           | [] => [[c]]
           end
  end.

(** [s.split(/\s+/)]: the pieces between maximal runs of white space;
    [inrun] records that the previous code unit was white space. *)
Fixpoint splitWhitespaceFrom (inrun : bool) (s : jsstring) : list jsstring :=
  match s with
  | [] => [[]]
  | c :: r =>
      if isWhiteSpace c then
        if inrun then splitWhitespaceFrom true r
        else [] :: splitWhitespaceFrom true r
      else match splitWhitespaceFrom false r with
           | p :: ps => (c :: p) :: ps
           | [] => [[c]]
           end
  end.

Definition splitWhitespace (s : jsstring) : list jsstring :=
  splitWhitespaceFrom false s.

(** [l.join(sep)] *)
Fixpoint join (sep : jsstring) (l : list jsstring) : jsstring :=
  match l with
  | [] => []
  | x :: r => match r with [] => x | _ :: _ => x ++ sep ++ join sep r end
  end.

(** Case folding of one code unit: [A-Z] to [a-z], every other code unit
    kept. This is what a case-insensitive regular expression without the
    unicode flag does to a text when its pattern is ASCII: its
    canonicalization never takes a code unit from 128 on to one below. *)
Definition lowerUnit (c : N) : N :=
  if ((65 <=? c) && (c <=? 90))%N then (c + 32)%N else c.

Definition foldCase (s : jsstring) : jsstring := map lowerUnit s.

(** [String.prototype.toLowerCase], one code unit at a time. Besides [A-Z],
    two characters have ASCII letters in their lower case: the Kelvin sign
    U+212A becomes [k], and the capital I with dot above U+0130 becomes [i]
    followed by the combining dot U+0307. The lower case of every other
    character lies outside ASCII; such code units are kept as they are,
    which the sources cannot tell from their lower case, since they only
    look for ASCII words in the result or compare it with ASCII words. *)
Definition lowerUnits (c : N) : jsstring :=
  if (c =? 0x212A)%N then [107%N]
  else if (c =? 0x130)%N then [105%N; 0x307%N]
  else [lowerUnit c].

Definition toLowerCase (s : jsstring) : jsstring := flat_map lowerUnits s.

(** [words.some(w => s.includes(w))] *)
Definition includesAny (s : jsstring) (words : list jsstring) : bool :=
  existsb (fun w => includes s w) words.

(** [/w1|w2|.../i.test(s)] for alternatives that are plain ASCII words. *)
Definition testAnyCI (words : list jsstring) (s : jsstring) : bool :=
  includesAny (foldCase s) (map foldCase words).

(** A text has no white space at its start, or at its end. *)
Definition headOk (t : jsstring) : Prop :=
  match t with [] => True | c :: _ => isWhiteSpace c = false end.

Definition lastOk (t : jsstring) : Prop := headOk (rev t).

(** [s.split(/[,\s]+/)]: the pieces between maximal runs of commas and
    white space. *)
Fixpoint splitCommaWhitespaceFrom (inrun : bool) (s : jsstring)
  : list jsstring :=
  match s with
  | [] => [[]]
  | c :: r =>
      if (c =? 44)%N || isWhiteSpace c then
        if inrun then splitCommaWhitespaceFrom true r
        else [] :: splitCommaWhitespaceFrom true r
      else match splitCommaWhitespaceFrom false r with
           | p :: ps => (c :: p) :: ps
           | [] => [[c]]
           end
  end.

Definition splitCommaWhitespace (s : jsstring) : list jsstring :=
  splitCommaWhitespaceFrom false s.

(** [l.slice(start)] for an integer [start]: a negative one counts from the
    end, and both are clamped to the list. *)
Definition slice {A : Type} (start : Z) (l : list A) : list A :=
  let len := Z.of_nat (length l) in
  let k := if (start <? 0)%Z then Z.max (len + start) 0 else Z.min start len in
  skipn (Z.to_nat k) l.

End JS.

(** ** JSON values and [JSON.parse] *)

Module JSON.
Import JS.

(** The values [JSON.parse] can return. A number keeps the text it was
    written with; an object keeps its members in the order of the text. *)
Inductive json : Type :=
| JNull
| JBool (b : bool)
| JNumber (lexeme : jsstring)
| JString (s : jsstring)
| JArray (items : list json)
| JObject (members : list (jsstring * json)).

(** What the sources observe of the engine beyond the JSON grammar: the
    truth value and the decimal rendering of a parsed number (both go through
    the binary64 value), and the message of the [SyntaxError] that
    [JSON.parse] throws on a text it rejects. *)
Class Engine : Type := {
  numberToBoolean : jsstring -> bool;
  numberToString : jsstring -> jsstring;
  syntaxErrorMessage : jsstring -> jsstring
}.

(** Property read [o[k]]: with duplicate names the last member wins. *)
Fixpoint get (members : list (jsstring * json)) (k : jsstring) : option json :=
  match members with
  | [] => None
  | (k', v) :: r =>
      match get r k with
      | Some v' => Some v'
      | None => if eqb k' k then Some v else None
      end
  end.

(** [k in o] for an object made by [JSON.parse]. *)
Definition has (members : list (jsstring * json)) (k : jsstring) : bool :=
  match get members k with Some _ => true | None => false end.

Definition isJsonSpace (c : N) : bool :=
  ((c =? 32) || (c =? 9) || (c =? 10) || (c =? 13))%N.

Fixpoint skipWs (s : jsstring) : jsstring :=
  match s with
  | [] => []
  | c :: r => if isJsonSpace c then skipWs r else s
  end.

Definition isDigit (c : N) : bool := ((48 <=? c) && (c <=? 57))%N.

Definition hexValue (c : N) : option N :=
  if isDigit c then Some (c - 48)%N
  else if ((65 <=? c) && (c <=? 70))%N then Some (c - 55)%N
  else if ((97 <=? c) && (c <=? 102))%N then Some (c - 87)%N
  else None.

Definition hex4 (a b c d : N) : option N :=
  match hexValue a, hexValue b, hexValue c, hexValue d with
  | Some x, Some y, Some z, Some w => Some (((x * 16 + y) * 16 + z) * 16 + w)%N
  | _, _, _, _ => None
  end.

(** The characters of a string literal after its opening quote, up to the
    closing quote; [acc] holds the decoded code units in reverse. *)
Fixpoint parseStringBody (s acc : jsstring) : option (jsstring * jsstring) :=
  match s with
  | [] => None
  | c :: r =>
      if (c =? 34)%N then Some (rev acc, r)
      else if (c =? 92)%N then
        match r with
        | [] => None
        | e :: r' =>
            if (e =? 34)%N then parseStringBody r' (34%N :: acc)
            else if (e =? 92)%N then parseStringBody r' (92%N :: acc)
            else if (e =? 47)%N then parseStringBody r' (47%N :: acc)
            else if (e =? 98)%N then parseStringBody r' (8%N :: acc)
            else if (e =? 102)%N then parseStringBody r' (12%N :: acc)
            else if (e =? 110)%N then parseStringBody r' (10%N :: acc)
            else if (e =? 114)%N then parseStringBody r' (13%N :: acc)
            else if (e =? 116)%N then parseStringBody r' (9%N :: acc)
            else if (e =? 117)%N then
              match r' with
              | h1 :: h2 :: h3 :: h4 :: r'' =>
                  match hex4 h1 h2 h3 h4 with
                  | Some u => parseStringBody r'' (u :: acc)
                  | None => None
                  end
              | _ => None
              end
            else None
        end
      else if (c <? 32)%N then None
      else parseStringBody r (c :: acc)
  end.

Fixpoint takeDigits (s : jsstring) : jsstring * jsstring :=
  match s with
  | [] => ([], [])
  | c :: r =>
      if isDigit c then let (ds, r') := takeDigits r in (c :: ds, r')
      else ([], s)
  end.

(** A number of the JSON grammar: an optional minus sign, then a single
    zero or a digit from 1 to 9 followed by digits, then optionally a point
    with at least one digit, then optionally [e] or [E], a sign and at least
    one digit. Returns the text of the number and the rest. *)
Definition parseNumber (s : jsstring) : option (jsstring * jsstring) :=
  let (sign, s1) :=
    match s with
    | c :: r => if (c =? 45)%N then ([c], r) else ([], s)
    | [] => ([], s)
    end in
  match s1 with
  | [] => None
  | d :: r =>
      if negb (isDigit d) then None
      else
        let (int, s2) :=
          if (d =? 48)%N then ([d], r)
          else let (ds, r') := takeDigits r in (d :: ds, r') in
        let frac :=
          match s2 with
          | p :: r2 =>
              if (p =? 46)%N then
                let (ds, r3) := takeDigits r2 in
                match ds with [] => None | _ :: _ => Some (p :: ds, r3) end
              else Some ([], s2)
          | [] => Some ([], s2)
          end in
        match frac with
        | None => None
        | Some (fr, s3) =>
            match s3 with
            | e :: r4 =>
                if ((e =? 101) || (e =? 69))%N then
                  let (esign, s4) :=
                    match r4 with
                    | g :: r5 =>
                        if ((g =? 43) || (g =? 45))%N then ([g], r5)
                        else ([], r4)
                    | [] => ([], r4)
                    end in
                  let (ds, s5) := takeDigits s4 in
                  match ds with
                  | [] => None
                  | _ :: _ => Some (sign ++ int ++ fr ++ e :: esign ++ ds, s5)
                  end
                else Some (sign ++ int ++ fr, s3)
            | [] => Some (sign ++ int ++ fr, s3)
            end
        end
  end.

Definition parseLiteral (s : jsstring) : option (json * jsstring) :=
  if startsWith s (js "true") then Some (JBool true, skipn 4 s)
  else if startsWith s (js "false") then Some (JBool false, skipn 5 s)
  else if startsWith s (js "null") then Some (JNull, skipn 4 s)
  else match parseNumber s with
       | Some (lexeme, r) => Some (JNumber lexeme, r)
       | None => None
       end.

(** Recursive descent over the JSON grammar. A value and a member list are
    entered with one unit of fuel less on a shorter text, an element list
    hands its own text to the value parser: fuel above twice the length of
    the text is never used up (lemma [parseValue_fuel]). *)
Fixpoint parseValue (fuel : nat) (s : jsstring) : option (json * jsstring) :=
  match fuel with
  | O => None
  | S f =>
      match skipWs s with
      | [] => None
      | c :: r =>
          if (c =? 123)%N then
            match skipWs r with
            | [] => None
            | c' :: r' =>
                if (c' =? 125)%N then Some (JObject [], r')
                else match parseMembers f (c' :: r') with
                     | Some (ms, r'') => Some (JObject ms, r'')
                     | None => None
                     end
            end
          else if (c =? 91)%N then
            match skipWs r with
            | [] => None
            | c' :: r' =>
                if (c' =? 93)%N then Some (JArray [], r')
                else match parseElements f (c' :: r') with
                     | Some (vs, r'') => Some (JArray vs, r'')
                     | None => None
                     end
            end
          else if (c =? 34)%N then
            match parseStringBody r [] with
            | Some (str, r') => Some (JString str, r')
            | None => None
            end
          else parseLiteral (c :: r)
      end
  end
with parseMembers (fuel : nat) (s : jsstring)
  : option (list (jsstring * json) * jsstring) :=
  match fuel with
  | O => None
  | S f =>
      match skipWs s with
      | [] => None
      | q :: r =>
          if negb (q =? 34)%N then None
          else
            match parseStringBody r [] with
            | None => None
            | Some (k, r1) =>
                match skipWs r1 with
                | [] => None
                | colon :: r2 =>
                    if negb (colon =? 58)%N then None
                    else
                      match parseValue f r2 with
                      | None => None
                      | Some (v, r3) =>
                          match skipWs r3 with
                          | [] => None
                          | d :: r4 =>
                              if (d =? 125)%N then Some ([(k, v)], r4)
                              else if (d =? 44)%N then
                                match parseMembers f r4 with
                                | Some (ms, r5) => Some ((k, v) :: ms, r5)
                                | None => None
                                end
                              else None
                          end
                      end
                end
            end
      end
  end
with parseElements (fuel : nat) (s : jsstring)
  : option (list json * jsstring) :=
  match fuel with
  | O => None
  | S f =>
      match parseValue f s with
      | None => None
      | Some (v, r) =>
          match skipWs r with
          | [] => None
          | d :: r' =>
              if (d =? 93)%N then Some ([v], r')
              else if (d =? 44)%N then
                match parseElements f r' with
                | Some (vs, r'') => Some (v :: vs, r'')
                | None => None
                end
              else None
          end
      end
  end.

(** [JSON.parse(text)]; [None] stands for the thrown [SyntaxError]. *)
Definition parse (text : jsstring) : option json :=
  match parseValue (S (2 * length text)) text with
  | Some (v, r) => match skipWs r with [] => Some v | _ :: _ => None end
  | None => None
  end.

(** [suffix r s]: [r] is what is left of [s] after some prefix; [rest r s]:
    after a prefix that is not empty; [closes r s]: after a prefix that ends
    with a closing brace. *)
Definition suffix (r s : jsstring) : Prop := exists c, s = c ++ r.

Definition rest (r s : jsstring) : Prop := exists c, c <> [] /\ s = c ++ r.

Definition closes (r s : jsstring) : Prop := exists c, s = c ++ 125%N :: r.

(** [typeof v === 'object' && v !== null && !Array.isArray(v)] *)
Definition isPlainObject (v : json) : bool :=
  match v with JObject _ => true | _ => false end.

Section Conversions.
Context {E : Engine}.

(** [ToBoolean] *)
Definition toBoolean (v : option json) : bool :=
  match v with
  | None | Some JNull => false
  | Some (JBool b) => b
  | Some (JNumber n) => numberToBoolean n
  | Some (JString s) => truthy s
  | Some (JArray _) | Some (JObject _) => true
  end.

(** [String(v)]. An array joins the strings of its elements with commas,
    [null] elements giving the empty string. An object made by [JSON.parse]
    becomes ["[object Object]"], unless it carries a member named [toString]:
    that member is not callable, [valueOf] returns the object, and the
    conversion throws a [TypeError], here [None]. *)
Fixpoint toString (v : json) : option jsstring :=
  match v with
  | JNull => Some (js "null")
  | JBool true => Some (js "true")
  | JBool false => Some (js "false")
  | JNumber n => Some (numberToString n)
  | JString s => Some s
  | JArray items =>
      (fix elems (l : list json) : option jsstring :=
         match l with
         | [] => Some []
         | x :: r =>
             match (match x with JNull => Some [] | _ => toString x end) with
             | None => None
             | Some sx =>
                 match r with
                 | [] => Some sx
                 | _ :: _ =>
                     match elems r with
                     | Some sr => Some (sx ++ js "," ++ sr)
                     | None => None
                     end
                 end
             end
         end) items
  | JObject ms =>
      if has ms (js "toString") then None else Some (js "[object Object]")
  end.

End Conversions.

End JSON.

(** ** The schema combinators of the zod library, as the sources use them *)

Module Zod.
Import JS JSON.

(** The outcome of parsing one value: [value] is [None] when parsing was
    aborted; a value together with issues is zod's dirty status, after which
    later checks and refinements still run and add their own issues. *)
Record ParseReturn (A : Type) : Type := {
  value : option A;
  issues : list jsstring
}.

(** A schema reads a value, [None] standing for [undefined]. *)
Definition Schema (A : Type) : Type := option json -> ParseReturn A.

Definition OK {A : Type} (x : A) : ParseReturn A :=
  {| value := Some x; issues := [] |}.

Definition INVALID {A : Type} (message : jsstring) : ParseReturn A :=
  {| value := None; issues := [message] |}.

Definition parsedType (v : option json) : jsstring :=
  match v with
  | None => js "undefined"
  | Some JNull => js "null"
  | Some (JBool _) => js "boolean"
  | Some (JNumber _) => js "number"
  | Some (JString _) => js "string"
  | Some (JArray _) => js "array"
  | Some (JObject _) => js "object"
  end.

(** The message of the default error map for a value of the wrong type. *)
Definition invalidType (expected : jsstring) (v : option json) : jsstring :=
  match v with
  | None => js "Required"
  | Some _ => js "Expected " ++ expected ++ js ", received " ++ parsedType v
  end.

(** [z.string()] *)
Definition string : Schema jsstring :=
  fun v =>
    match v with
    | Some (JString s) => OK s
    | _ => INVALID (invalidType (js "string") v)
    end.

(** A check or refinement: it runs unless parsing was aborted, and a
    failure adds its message without stopping what follows. *)
Definition refine {A : Type} (ok : A -> bool) (message : jsstring)
  (s : Schema A) : Schema A :=
  fun v =>
    let r := s v in
    match value r with
    | Some x =>
        if ok x then r
        else {| value := Some x; issues := issues r ++ [message] |}
    | None => r
    end.

(** [.min(n, message)] and [.max(n, message)] on a string or an array *)
Definition min {T : Type} (n : nat) (message : jsstring)
  (s : Schema (list T)) : Schema (list T) :=
  refine (fun x => n <=? length x) message s.

Definition max {T : Type} (n : nat) (message : jsstring)
  (s : Schema (list T)) : Schema (list T) :=
  refine (fun x => length x <=? n) message s.

(** [.transform(f)]; the sources apply it to schemas without checks, whose
    outcome is valid or aborted. *)
Definition transform {A B : Type} (f : A -> B) (s : Schema A) : Schema B :=
  fun v =>
    let r := s v in
    {| value := option_map f (value r); issues := issues r |}.

(** [z.array(z.string())] *)
Definition arrayOfString : Schema (list jsstring) :=
  fun v =>
    match v with
    | Some (JArray items) =>
        let results := map (fun x => string (Some x)) items in
        {| value :=
             fold_right
               (fun r acc =>
                  match value r, acc with
                  | Some x, Some l => Some (x :: l)
                  | _, _ => None
                  end) (Some []) results;
           issues := flat_map (fun r => issues r) results |}
    | _ => INVALID (invalidType (js "array") v)
    end.

Definition isValid {A : Type} (r : ParseReturn A) : bool :=
  match value r, issues r with
  | Some _, [] => true
  | _, _ => false
  end.

Definition isDirty {A : Type} (r : ParseReturn A) : bool :=
  match value r, issues r with
  | Some _, _ :: _ => true
  | _, _ => false
  end.

(** [z.union([a, b])]: the first valid option, else the first dirty one,
    else a single issue. *)
Definition union {A B : Type} (a : Schema A) (b : Schema B) : Schema (A + B) :=
  fun v =>
    let ra := a v in
    let rb := b v in
    if isValid ra then {| value := option_map inl (value ra); issues := [] |}
    else if isValid rb then {| value := option_map inr (value rb); issues := [] |}
    else if isDirty ra then
      {| value := option_map inl (value ra); issues := issues ra |}
    else if isDirty rb then
      {| value := option_map inr (value rb); issues := issues rb |}
    else INVALID (js "Invalid input").

(** [z.object(shape)]: the shape parses the members, in its own order. *)
Definition object {A : Type} (shape : list (jsstring * json) -> ParseReturn A)
  : Schema A :=
  fun v =>
    match v with
    | Some (JObject members) => shape members
    | _ => INVALID (invalidType (js "object") v)
    end.

Definition field {A : Type} (members : list (jsstring * json))
  (k : jsstring) (s : Schema A) : ParseReturn A :=
  s (get members k).

Definition merge3 {A B C R : Type} (build : A -> B -> C -> R)
  (ra : ParseReturn A) (rb : ParseReturn B) (rc : ParseReturn C)
  : ParseReturn R :=
  {| value :=
       match value ra, value rb, value rc with
       | Some a, Some b, Some c => Some (build a b c)
       | _, _, _ => None
       end;
     issues := issues ra ++ issues rb ++ issues rc |}.

(** [schema.parse(data)]: the parsed value, or the issues of the thrown
    [ZodError]. *)
Definition parse {A : Type} (s : Schema A) (data : option json)
  : A + list jsstring :=
  let r := s data in
  match value r, issues r with
  | Some x, [] => inl x
  | _, errs => inr errs
  end.

End Zod.

(** ** services/errorHandler: error codes and [ContentError] *)

Module ErrorHandler.
Import JS.

Inductive ErrorCode : Type :=
| INVALID_JSON
| MISSING_INPUT
| IMAGE_ERROR
| CONTENT_ERROR
| MODEL_ERROR
| VALIDATION_ERROR
| API_ERROR
| UNKNOWN_ERROR.

(** The context data a caller may pass to the constructor; every field is
    optional. The request identifier and the time stamp, which the
    constructor generates, are left out, as are the image fields. *)
Record ErrorContext : Type := {
  validationErrors : option (list jsstring);
  missingFields : option (list jsstring);
  attemptedModel : option jsstring
}.

(** The context stored in the error: [contextData?.field || default]. *)
Record RequiredContext : Type := {
  ctxValidationErrors : list jsstring;
  ctxMissingFields : list jsstring;
  ctxAttemptedModel : jsstring
}.

Record ContentError : Type := {
  message : jsstring;
  code : ErrorCode;
  context : RequiredContext
}.

Definition orElse {A : Type} (o : option A) (d : A) : A :=
  match o with Some x => x | None => d end.

(** [new ContentError(message, code, contextData)] *)
Definition newContentError (msg : jsstring) (c : ErrorCode)
  (contextData : option ErrorContext) : ContentError :=
  {| message := msg;
     code := c;
     context :=
       match contextData with
       | None =>
           {| ctxValidationErrors := []; ctxMissingFields := [];
              ctxAttemptedModel := [] |}
       | Some d =>
           {| ctxValidationErrors := orElse (validationErrors d) [];
              ctxMissingFields := orElse (missingFields d) [];
              ctxAttemptedModel :=
                match attemptedModel d with
                | Some (c' :: m) => c' :: m
                | _ => []
                end |}
       end |}.

(** What a [catch] clause can hold, as far as [handleContentError] tells
    values apart: a [ContentError], another [Error] with its message, or a
    value that is no [Error]. *)
Inductive Thrown : Type :=
| ThrownContentError (error : ContentError)
| ThrownError (msg : jsstring)
| ThrownValue.

(** [handleContentError]: it never returns; the result is the error it
    throws. The original error, which it stores in the context, is not
    represented. *)
Definition handleContentError (error : Thrown) : ContentError :=
  match error with
  | ThrownContentError e => e
  | ThrownError msg =>
      if includes msg (js "JSON") then
        newContentError (js "Invalid JSON structure detected") INVALID_JSON
          None
      else if includes msg (js "missing") || includes msg (js "required") then
        newContentError (js "Missing required fields in the generated content")
          MISSING_INPUT None
      else if includes msg (js "image") then
        newContentError (js "Failed to process image") IMAGE_ERROR None
      else if includes msg (js "model") then
        newContentError (js "Unauthorized model change attempt detected")
          MODEL_ERROR None
      else newContentError msg UNKNOWN_ERROR None
  | ThrownValue =>
      newContentError (js "An unknown error occurred") UNKNOWN_ERROR None
  end.

End ErrorHandler.

(** ** services/validation.ts *)

Module Validation.
Import JS JSON ErrorHandler.

(** Decimal rendering of a number inside a template literal. *)
Fixpoint digits (d : Decimal.uint) : jsstring :=
  match d with
  | Decimal.Nil => []
  | Decimal.D0 r => 48%N :: digits r
  | Decimal.D1 r => 49%N :: digits r
  | Decimal.D2 r => 50%N :: digits r
  | Decimal.D3 r => 51%N :: digits r
  | Decimal.D4 r => 52%N :: digits r
  | Decimal.D5 r => 53%N :: digits r
  | Decimal.D6 r => 54%N :: digits r
  | Decimal.D7 r => 55%N :: digits r
  | Decimal.D8 r => 56%N :: digits r
  | Decimal.D9 r => 57%N :: digits r
  end.

Definition numeral (n : nat) : jsstring := digits (Nat.to_uint n).

Module VALIDATION_RULES.
Module title.
Definition maxLength : nat := 50.
Definition minLength : nat := 1.
End title.
Module description.
Definition maxLength : nat := 200.
Definition minLength : nat := 150.
End description.
Module tags.
Definition min : nat := 4.
Definition max : nat := 12.
End tags.
End VALIDATION_RULES.

(** [z.infer<typeof ContentSchema>] *)
Record ValidatedContent : Type := {
  title : jsstring;
  description : jsstring;
  tags : list jsstring
}.

Definition noJsonSyntax (val : jsstring) : bool :=
  negb (includes val (js "{")) && negb (includes val (js "}")).

Definition titleSchema : Zod.Schema jsstring :=
  Zod.refine noJsonSyntax (js "Title cannot contain JSON syntax")
    (Zod.max VALIDATION_RULES.title.maxLength
       (js "Title must be " ++ numeral VALIDATION_RULES.title.maxLength
          ++ js " characters or less")
       (Zod.min VALIDATION_RULES.title.minLength (js "Title is required")
          Zod.string)).

Definition descriptionSchema : Zod.Schema jsstring :=
  Zod.refine noJsonSyntax (js "Description cannot contain JSON syntax")
    (Zod.max VALIDATION_RULES.description.maxLength
       (js "Description must be "
          ++ numeral VALIDATION_RULES.description.maxLength
          ++ js " characters or less")
       (Zod.min VALIDATION_RULES.description.minLength
          (js "Description must be at least "
             ++ numeral VALIDATION_RULES.description.minLength
             ++ js " characters")
          Zod.string)).

(** [val.split(',').map(tag => tag.trim()).filter(Boolean)] *)
Definition splitTags (val : jsstring) : list jsstring :=
  filter truthy (map trim (split 44 val)).

Definition tagsSchema : Zod.Schema (list jsstring) :=
  Zod.refine
    (fun tags => forallb (fun tag => 0 <? length (trim tag)) tags)
    (js "Tags cannot be empty")
    (Zod.refine
       (fun tags =>
          (VALIDATION_RULES.tags.min <=? length tags)
          && (length tags <=? VALIDATION_RULES.tags.max))
       (js "Must have between " ++ numeral VALIDATION_RULES.tags.min
          ++ js " and " ++ numeral VALIDATION_RULES.tags.max ++ js " tags")
       (Zod.transform
          (fun val => match val with inl s => splitTags s | inr l => l end)
          (Zod.union Zod.string Zod.arrayOfString))).

Definition ContentSchema : Zod.Schema ValidatedContent :=
  Zod.object (fun members =>
    Zod.merge3 Build_ValidatedContent
      (Zod.field members (js "title") titleSchema)
      (Zod.field members (js "description") descriptionSchema)
      (Zod.field members (js "tags") tagsSchema)).

(** The object literals the validator returns: [{ isValid: true, data }] or
    [{ isValid: false, error }]. *)
Inductive Result (A : Type) : Type :=
| valid (data : A)
| invalid (error : jsstring).
Arguments valid {A} data.
Arguments invalid {A} error.

Definition isValid {A : Type} (r : Result A) : bool :=
  match r with valid _ => true | invalid _ => false end.

(** [text || fallback] *)
Definition orText (text fallback : jsstring) : jsstring :=
  match text with [] => fallback | _ :: _ => text end.

Definition requiredFields : list jsstring :=
  [js "title"; js "description"; js "tags"].

Section WithEngine.
Context {E : Engine}.

(** [Validator.validateJSON]. Every [throw] of the body is caught by its own
    [catch], which returns the message behind a fixed prefix. *)
Definition validateJSON (input : jsstring) : Result json :=
  let caught (msg : jsstring) : Result json :=
    invalid
      (js "Content generation failed due to invalid JSON structure: " ++ msg) in
  let trimmedInput := trim input in
  if negb (startsWith trimmedInput (js "{"))
     || negb (endsWith trimmedInput (js "}"))
  then caught (js "Input must be a JSON object")
  else
    match JSON.parse trimmedInput with
    | None => caught (syntaxErrorMessage trimmedInput)
    | Some d =>
        match d with
        | JObject members =>
            let missing :=
              filter (fun field => negb (has members field)) requiredFields in
            if 0 <? length missing
            then caught (js "Missing required fields: "
                           ++ join (js ", ") missing)
            else valid d
        | _ => caught (js "Input must be a JSON object")
        end
    end.

(** [Validator.validateContent]; a string is parsed first, [None] is
    [undefined]. *)
Definition validateContent (content : option json) : Result ValidatedContent :=
  let parsed :=
    match content with
    | Some (JString s) =>
        match JSON.parse s with
        | Some d => inl (Some d)
        | None => inr (syntaxErrorMessage s)
        end
    | _ => inl content
    end in
  match parsed with
  | inr msg => invalid (js "Content validation failed: " ++ msg)
  | inl d =>
      match Zod.parse ContentSchema d with
      | inl validated => valid validated
      | inr issues =>
          invalid (js "Content validation failed: " ++ join (js ", ") issues)
      end
  end.

(** [Validator.validateAndTransform]: the validated content, or the thrown
    [ContentError]. *)
Definition validateAndTransform (input : jsstring)
  : ValidatedContent + ContentError :=
  match validateJSON input with
  | invalid e =>
      inr (newContentError (orText e (js "Invalid JSON structure"))
             INVALID_JSON None)
  | valid d =>
      match validateContent (Some d) with
      | invalid e =>
          inr (newContentError (orText e (js "Invalid content structure"))
                 VALIDATION_ERROR None)
      | valid validated => inl validated
      end
  end.

(** [Validator.validateOutput] of this file: the same schema, no data
    returned. *)
Definition validateOutput (content : option json) : Result unit :=
  let parsed :=
    match content with
    | Some (JString s) =>
        match JSON.parse s with
        | Some d => Some (Some d)
        | None => None
        end
    | _ => Some content
    end in
  match parsed with
  | None =>
      invalid (js "Content validation failed due to invalid JSON structure")
  | Some d =>
      match Zod.parse ContentSchema d with
      | inl _ => valid tt
      | inr issues =>
          invalid (js "Content validation failed: " ++ join (js ", ") issues)
      end
  end.

(** Property read [v.k] on a value that is neither [null] nor [undefined],
    for the names that [validateMessages] reads: [role], [content], [type],
    [text], [image_url] and [url], which only an object can carry. *)
Definition read (v : json) (k : jsstring) : option json :=
  match v with
  | JObject members => get members k
  | _ => None
  end.

(** [v === s] for a string [s] *)
Definition strictEquals (v : option json) (s : jsstring) : bool :=
  match v with
  | Some (JString x) => eqb x s
  | _ => false
  end.

(** [typeof v === 'string'] *)
Definition isStringValue (v : option json) : bool :=
  match v with Some (JString _) => true | _ => false end.

(** [Array.isArray(v)] *)
Definition isArray (v : option json) : bool :=
  match v with Some (JArray _) => true | _ => false end.

(** A loop whose body may return an error message or throw: [None] is the
    thrown [TypeError], [Some None] the end of the loop, [Some (Some e)] the
    message returned from inside it. *)
Fixpoint forEach {A : Type} (body : A -> option (option jsstring))
  (l : list A) : option (option jsstring) :=
  match l with
  | [] => Some None
  | x :: r =>
      match body x with
      | None => None
      | Some (Some e) => Some (Some e)
      | Some None => forEach body r
      end
  end.

(** The body of the inner loop of [validateMessages]; reading [item.type]
    throws on [null]. *)
Definition checkItem (item : json) : option (option jsstring) :=
  match item with
  | JNull => None
  | _ =>
      if strictEquals (read item (js "type")) (js "text")
         && negb (isStringValue (read item (js "text")))
      then Some (Some (js "Text type content must have a string text field."))
      else if strictEquals (read item (js "type")) (js "image_url")
              && (negb (toBoolean (read item (js "image_url")))
                  || negb (isStringValue
                             match read item (js "image_url") with
                             | Some image_url => read image_url (js "url")
                             | None => None
                             end))
      then Some (Some (js "Image URL type content must have a valid url."))
      else Some None
  end.

(** The body of the outer loop; reading [message.role] throws on [null]. *)
Definition checkMessage (message : json) : option (option jsstring) :=
  match message with
  | JNull => None
  | _ =>
      if negb (toBoolean (read message (js "role")))
         || negb (existsb (strictEquals (read message (js "role")))
                    [js "system"; js "user"; js "assistant"])
      then Some (Some (js "Each message must have a valid role."))
      else if negb (toBoolean (read message (js "content")))
              || negb (isArray (read message (js "content")))
      then Some (Some (js "Each message must have a valid content array."))
      else
        match read message (js "content") with
        | Some (JArray items) => forEach checkItem items
        | _ => Some None
        end
  end.

(** [Validator.validateMessages] on any value; [None] is the [TypeError]
    that escapes it, since the function has no [catch]. *)
Definition validateMessages (messages : option json) : option (Result unit) :=
  match messages with
  | Some (JArray (m :: ms)) =>
      match forEach checkMessage (m :: ms) with
      | None => None
      | Some (Some e) => Some (invalid e)
      | Some None => Some (valid tt)
      end
  | _ => Some (invalid (js "Messages array is empty or invalid."))
  end.

End WithEngine.

End Validation.

(** ** services/validation/index.ts *)

Module ValidationIndex.
Import JS JSON Validation.

Module VALIDATION_RULES.
Module output.
Module title.
Definition maxLength : nat := 50.
Definition minLength : nat := 1.
End title.
Module description.
Definition maxLength : nat := 200.
Definition minLength : nat := 150.
End description.
Module tags.
Definition min : nat := 10.
Definition max : nat := 12.
End tags.
End output.
End VALIDATION_RULES.
Import VALIDATION_RULES.

Definition isString (v : option json) : bool :=
  match v with Some (JString _) => true | _ => false end.

(** [Validator.validateOutput] of this file: hand-written checks, each
    returning as soon as it fails. *)
Definition validateOutput (content : option json) : Result unit :=
  let parsed :=
    match content with
    | Some (JString s) =>
        match JSON.parse s with
        | Some d => Some (Some d)
        | None => None
        end
    | _ => Some content
    end in
  match parsed with
  | None =>
      invalid (js "Content validation failed due to invalid JSON structure")
  | Some (Some (JObject members)) =>
      let missingFields :=
        filter (fun field => negb (has members field)) requiredFields in
      if 0 <? length missingFields then
        invalid (js "Missing required fields: "
                   ++ join (js ", ") missingFields)
      else
        let title := get members (js "title") in
        let description := get members (js "description") in
        let tags := get members (js "tags") in
        if match title with
           | Some (JString t) =>
               (length t =? 0) || (output.title.maxLength <? length t)
           | _ => true
           end
        then
          invalid (js "Title must be a non-empty string with maximum "
                     ++ numeral output.title.maxLength ++ js " characters")
        else if match description with
                | Some (JString d) =>
                    (length d <? output.description.minLength)
                    || (output.description.maxLength <? length d)
                | _ => true
                end
        then
          invalid (js "Description must be between "
                     ++ numeral output.description.minLength ++ js " and "
                     ++ numeral output.description.maxLength
                     ++ js " characters")
        else if match tags with
                | Some (JArray items) =>
                    (length items <? output.tags.min)
                    || (output.tags.max <? length items)
                    || negb (forallb (fun tag => isString (Some tag)) items)
                | _ => true
                end
        then
          invalid (js "Tags must be an array of " ++ numeral output.tags.min
                     ++ js "-" ++ numeral output.tags.max ++ js " strings")
        else valid tt
  | Some _ => invalid (js "Content must be a valid JSON object")
  end.

End ValidationIndex.

(** ** services/validation/schema: the strict marketplace schema *)

Module Schema.
Import JS JSON.

Module VALIDATION_RULES.
Module title.
Definition maxLength : nat := 50.
Definition minLength : nat := 10.
Definition requiredWords : list jsstring :=
      [js "personalized"; js "custom"; js "unique"; js "special"; js "mom";
       js "mother"; js "mug"; js "gift"].
Definition bannedWords : list jsstring :=
      [js "nice"; js "good"; js "great"; js "awesome"; js "cool"; js "best"].
Definition emotionalWords : list jsstring :=
      [js "special"; js "cherished"; js "heartfelt"; js "memorable";
       js "delightful"; js "treasured"; js "beloved"; js "precious";
       js "loving"; js "thoughtful"].
End title.
Module description.
Definition maxLength : nat := 200.
Definition minLength : nat := 150.
Definition requiredPhrases : list (list jsstring) :=
      [[js "perfect for"; js "ideal for"; js "designed for"];
       [js "customize"; js "personalize"; js "make it yours"];
       [js "order now"; js "shop now"; js "get yours"];
       [js "celebrate"; js "cherish"; js "treasure"];
       [js "special"; js "meaningful"; js "memorable"];
       [js "mom"; js "mother"; js "mama"];
       [js "love"; js "appreciation"; js "gratitude"]].
End description.
Module tags.
Definition min : nat := 10.
Definition max : nat := 12.
Definition minLength : nat := 3.
Definition maxLength : nat := 30.
Definition requiredCategories : list jsstring :=
      [js "product_type"; js "design_style"; js "occasion";
       js "personalization"; js "emotion"; js "target_audience";
       js "gifting"; js "mothers_day"].
End tags.
End VALIDATION_RULES.
Import VALIDATION_RULES.

(** A JavaScript [Set] of strings: its elements in insertion order, each
    once, compared by string equality. *)
Module StringSet.
Definition has (s : list jsstring) (x : jsstring) : bool :=
    existsb (fun y => eqb y x) s.
Definition add (s : list jsstring) (x : jsstring) : list jsstring :=
    if has s x then s else s ++ [x].
Definition ofList (l : list jsstring) : list jsstring :=
    fold_left add l [].
Definition size (s : list jsstring) : nat := length s.
End StringSet.

Definition containsRequiredWords (text : jsstring) (words : list jsstring)
  : bool :=
  let lowerText := toLowerCase text in
  existsb (fun word => includes lowerText (toLowerCase word)) words.

Definition containsEmotionalWords (text : jsstring) : bool :=
  existsb (fun word => includes (toLowerCase text) (toLowerCase word))
    title.emotionalWords.

Definition containsBannedWords (text : jsstring) (words : list jsstring)
  : bool :=
  let lowerText := toLowerCase text in
  existsb (fun word => includes lowerText (toLowerCase word)) words.

Definition hasRequiredPhrases (text : jsstring)
  (phraseGroups : list (list jsstring)) : bool :=
  let lowerText := toLowerCase text in
  forallb
    (fun group =>
       existsb (fun phrase => includes lowerText (toLowerCase phrase)) group)
    phraseGroups.

Definition hasValidDescription (text : jsstring) : bool :=
  let hasFeatures :=
    testAnyCI [js "features"; js "includes"; js "designed"; js "made with";
               js "crafted"; js "created"] text in
  let hasBenefits :=
    testAnyCI [js "perfect for"; js "celebrate"; js "cherish"; js "treasure";
               js "create"] text in
  let hasPersonalization :=
    testAnyCI [js "customize"; js "personalize"; js "your"; js "name";
               js "text"] text in
  let hasEmotionalAppeal :=
    testAnyCI [js "special"; js "meaningful"; js "memorable"; js "unique";
               js "cherished"] text in
  let hasPracticalUses :=
    testAnyCI [js "coffee"; js "tea"; js "drink"; js "beverage";
               js "morning"] text in
  let hasGiftingValue :=
    testAnyCI [js "perfect gift"; js "ideal present"; js "thoughtful gift";
               js "special gift"] text in
  let hasMothersDayValue :=
    testAnyCI [js "mother"; js "mom"; js "mama"; js "mother's day";
               js "maternal"] text in
  let hasCallToAction :=
    testAnyCI [js "order"; js "shop"; js "get yours"; js "make it yours"]
      text in
  hasFeatures && hasBenefits && hasPersonalization && hasEmotionalAppeal
  && hasPracticalUses && hasGiftingValue && hasMothersDayValue
  && hasCallToAction.

Definition isValidTag (tag : jsstring) : bool :=
  if (length tag <? tags.minLength)
     || (tags.maxLength <? length tag)
     || existsb
          (fun c => negb (isWordChar c || isWhiteSpace c || (c =? 45)%N)) tag
     || includes tag (js "  ")
     || existsb (fun w => eqb (toLowerCase tag) w)
          [js "the"; js "and"; js "or"; js "in"; js "on"; js "at"; js "to"]
  then false
  else
    let wordCount := length (splitWhitespace tag) in
    if 3 <? wordCount then false
    else if testAnyCI [js "best"; js "amazing"; js "awesome";
                       js "incredible"; js "perfect"] tag
    then false
    else true.

Definition categorizeTag (tag : jsstring) : jsstring :=
  let lowerTag := toLowerCase tag in
  if testAnyCI [js "mug"; js "cup"; js "coffee"; js "tea"; js "drinkware"]
       lowerTag then js "product_type"
  else if testAnyCI [js "handmade"; js "elegant"; js "classic"; js "modern"]
            lowerTag then js "design_style"
  else if testAnyCI [js "mothers day"; js "celebration"; js "holiday"]
            lowerTag then js "occasion"
  else if testAnyCI [js "custom"; js "personalized"; js "unique"]
            lowerTag then js "personalization"
  else if testAnyCI [js "special"; js "cherished"; js "heartfelt";
                     js "memorable"] lowerTag then js "emotion"
  else if testAnyCI [js "mom"; js "mother"; js "parent"; js "family"]
            lowerTag then js "target_audience"
  else if testAnyCI [js "gift idea"; js "perfect gift";
                     js "thoughtful present"] lowerTag then js "gifting"
  else if testAnyCI [js "mothers day gift"; js "mom present"; js "maternal"]
            lowerTag then js "mothers_day"
  else js "other".

Definition hasRequiredTagCategories (tagList : list jsstring) : bool :=
  let categories := StringSet.ofList (map categorizeTag tagList) in
  forallb (fun cat => StringSet.has categories cat) tags.requiredCategories.

Record ValidatedContent : Type := {
  title : jsstring;
  description : jsstring;
  tags : list jsstring
}.

Definition titleSchema : Zod.Schema jsstring :=
  Zod.refine
    (fun val => negb (containsBannedWords val title.bannedWords))
    (js "Title contains generic or banned words")
    (Zod.refine containsEmotionalWords
       (js "Title must include emotional or engaging words")
       (Zod.refine
          (fun val => containsRequiredWords val title.requiredWords)
          (js "Title must include required keywords")
          (Zod.refine Validation.noJsonSyntax
             (js "Title cannot contain JSON syntax")
             (Zod.max title.maxLength
                (js "Title must be " ++ Validation.numeral title.maxLength
                   ++ js " characters or less")
                (Zod.min title.minLength
                   (js "Title must be at least "
                      ++ Validation.numeral title.minLength
                      ++ js " characters")
                   Zod.string))))).

Definition descriptionSchema : Zod.Schema jsstring :=
  Zod.refine
    (fun val => hasRequiredPhrases val description.requiredPhrases)
    (js "Description must include required marketing phrases")
    (Zod.refine hasValidDescription
       (js "Description must include product features, benefits, personalization, emotional appeal, practical uses, gifting value, Mother's Day value, and a call to action")
       (Zod.refine Validation.noJsonSyntax
          (js "Description cannot contain JSON syntax")
          (Zod.max description.maxLength
             (js "Description must be "
                ++ Validation.numeral description.maxLength
                ++ js " characters or less")
             (Zod.min description.minLength
                (js "Description must be at least "
                   ++ Validation.numeral description.minLength
                   ++ js " characters")
                Zod.string)))).

Definition tagsSchema : Zod.Schema (list jsstring) :=
  Zod.refine hasRequiredTagCategories
    (js "Tags must cover all required categories: product type, design style, occasion, personalization, emotion, target audience, gifting, and Mother's Day")
    (Zod.refine
       (fun tagList =>
          negb (existsb (fun tag => 3 <? length (split 32 tag)) tagList))
       (js "Tags should not be full sentences")
       (Zod.refine
          (fun tagList =>
             StringSet.size (StringSet.ofList tagList) =? length tagList)
          (js "Tags must be unique")
          (Zod.refine
             (fun tagList => forallb isValidTag tagList)
             (js "Tags must be between 3-30 characters and contain only letters, numbers, spaces, and hyphens")
             (Zod.refine
                (fun tagList =>
                   (tags.min <=? length tagList)
                   && (length tagList <=? tags.max))
                (js "Must have between " ++ Validation.numeral tags.min
                   ++ js " and " ++ Validation.numeral tags.max
                   ++ js " tags")
                (Zod.transform Validation.splitTags Zod.string))))).

Definition ContentSchema : Zod.Schema ValidatedContent :=
  Zod.object (fun members =>
    Zod.merge3 Build_ValidatedContent
      (Zod.field members (js "title") titleSchema)
      (Zod.field members (js "description") descriptionSchema)
      (Zod.field members (js "tags") tagsSchema)).

End Schema.

(** ** services/socialContent.ts *)

Module SocialContent.
Import JS JSON.

Inductive Platform : Type := Instagram | Facebook | Pinterest.

Record Content : Type := {
  title : jsstring;
  description : jsstring;
  tags : jsstring
}.

Definition DEFAULT_CONTENT (platform : Platform) : Content :=
  match platform with
  | Instagram =>
      {| title := js "Default Instagram Title";
         description := js "This is a detailed and engaging Instagram caption optimized for SEO and designed to capture attention. It provides all necessary context and information.";
         tags := js "optimized, instagram, social, seo, design, creative" |}
  | Facebook =>
      {| title := js "Default Facebook Title";
         description := js "This is a detailed and engaging Facebook post optimized for SEO, designed to capture attention and provide all necessary information.";
         tags := js "optimized, facebook, social, seo, design, creative" |}
  | Pinterest =>
      {| title := js "Default Pin Title";
         description := js "This is a detailed and engaging Pinterest pin description optimized for SEO, providing all necessary information to enhance your ranking and attract your audience.";
         tags := js "optimized, pinterest, seo, design, creative" |}
  end.

Definition MAX_TITLE_LENGTH : nat := 40.
Definition MIN_DESCRIPTION_LENGTH : nat := 100.
Definition MAX_DESCRIPTION_LENGTH : nat := 1000.

(** The suffix of [s] that starts at the first occurrence of [c]. *)
Fixpoint fromFirst (c : N) (s : jsstring) : jsstring :=
  match s with
  | [] => []
  | x :: r => if (x =? c)%N then s else fromFirst c r
  end.

(** The prefix of [s] that ends at the last occurrence of [c]. *)
Definition uptoLast (c : N) (s : jsstring) : jsstring :=
  rev (fromFirst c (rev s)).

(** [content.replace(/^[\s\S]*?({[\s\S]*})[\s\S]*$/, '$1')]. The pattern is
    anchored at both ends, its first group of any characters is lazy and the
    one inside the braces greedy: a match is the whole text, and the captured
    group runs from the first opening brace to the last closing brace after
    it. Without such a pair there is no match and the text is returned as it
    is. *)
Definition stripNonJSON (content : jsstring) : jsstring :=
  match uptoLast 125 (fromFirst 123 content) with
  | [] => content
  | c :: m => c :: m
  end.

(** [v?.trim()] on a member of the parsed object: [None] is the [TypeError]
    of calling a missing method, [Some None] is [undefined]. *)
Definition optionalTrim (v : option json) : option (option jsstring) :=
  match v with
  | None | Some JNull => Some None
  | Some (JString s) => Some (Some (trim s))
  | Some _ => None
  end.

(** [s.substring(0, maxLength - 3) + '...'] *)
Definition truncate (s : jsstring) (maxLength : nat) : jsstring :=
  substring s 0 (maxLength - 3) ++ js "...".

(** The first steps of [validateContent]: the text is cleaned, must start
    and end with a brace and is parsed; [None] when the function returns
    [null] on the way. A text that starts with a brace parses to an object or
    not at all; on any other value the member reads that follow would give
    [null] as well. *)
Definition parsedObject (content : jsstring)
  : option (list (jsstring * json)) :=
  let cleanedContent := trim (stripNonJSON content) in
  if negb (startsWith cleanedContent (js "{"))
     || negb (endsWith cleanedContent (js "}"))
  then None
  else
    match JSON.parse cleanedContent with
    | Some (JObject parsed) => Some parsed
    | _ => None
    end.

Section WithEngine.
Context {E : Engine}.

(** [String(tags || '')]; [None] is the [TypeError] of the conversion. *)
Definition tagText (parsedTags : option json) : option jsstring :=
  if toBoolean parsedTags
  then match parsedTags with
       | Some v => toString v
       | None => Some []
       end
  else Some [].

(** [validateContent]: the formatted record, or [None] for [null]. Every
    exception of the body is caught and gives [null]. *)
Definition validateContent (content : jsstring) (platform : Platform)
  : option Content :=
  match parsedObject content with
  | None => None
  | Some parsed =>
      match optionalTrim (get parsed (js "title")) with
      | Some (Some (c :: t)) =>
          match optionalTrim (get parsed (js "description")) with
          | Some (Some (c' :: d)) =>
              match tagText (get parsed (js "tags")) with
              | None => None
              | Some text =>
                  let formattedTitle := c :: t in
                  let formattedDescription := c' :: d in
                  let formattedTags := trim text in
                  Some
                    {| title :=
                         if MAX_TITLE_LENGTH <? length formattedTitle
                         then truncate formattedTitle MAX_TITLE_LENGTH
                         else formattedTitle;
                       description :=
                         if length formattedDescription
                            <? MIN_DESCRIPTION_LENGTH
                         then description (DEFAULT_CONTENT platform)
                         else if MAX_DESCRIPTION_LENGTH
                                 <? length formattedDescription
                         then truncate formattedDescription
                                MAX_DESCRIPTION_LENGTH
                         else formattedDescription;
                       tags :=
                         if negb (truthy formattedTags)
                         then tags (DEFAULT_CONTENT platform)
                         else formattedTags |}
              end
          | _ => None
          end
      | _ => None
      end
  end.

End WithEngine.

Record SocialContentRecord : Type := {
  sc_description : jsstring;
  hashtags : jsstring
}.

(** The three pictographs of [formatContent], with the code units they have
    in the source file. *)
Definition sparkles : jsstring := [0x201A; 0xFA; 0xAE]%N.
Definition glowingStar : jsstring := [0xF8FF; 0xFC; 0xE5; 0xFC]%N.
Definition magnifier : jsstring := [0xF8FF; 0xFC; 0xEE; 0xE7]%N.

Definition callToAction (platform : Platform) : jsstring :=
  match platform with
  | Pinterest => magnifier ++ js " Save for inspiration!"
  | Facebook => glowingStar ++ js " Check it out now!"
  | Instagram => sparkles ++ js " Shop now!"
  end.

Definition hashPrefix (tag : jsstring) : jsstring :=
  if startsWith tag (js "#") then tag else js "#" ++ tag.

Definition formatContent (content : option Content) (platform : Platform)
  : SocialContentRecord :=
  match content with
  | None =>
      {| sc_description := description (DEFAULT_CONTENT platform);
         hashtags := tags (DEFAULT_CONTENT platform) |}
  | Some c =>
      {| sc_description :=
           if negb (includes (description c) sparkles)
              && negb (includes (description c) glowingStar)
           then description c ++ [10; 10]%N ++ callToAction platform
           else description c;
         hashtags :=
           match platform with
           | Pinterest => tags c
           | _ =>
               join (js " ")
                 (map hashPrefix
                    (filter truthy (map trim (split 44 (tags c)))))
           end |}
  end.

(** The last two steps of [generateSocialContent], applied to the text
    received from the model. *)
Definition processResponse {E : Engine} (response : jsstring)
  (platform : Platform) : SocialContentRecord :=
  formatContent (validateContent response platform) platform.

End SocialContent.

(** ** services/instagramContent.ts *)

Module InstagramContent.
Import JS.

Module INSTAGRAM_CONSTRAINTS.
Module description.
Definition maxLength : nat := 150.
Module requiredElements.
Definition emotional : list jsstring :=
        [js "special"; js "unique"; js "perfect"; js "memorable"].
Definition personalization : list jsstring :=
        [js "personalize"; js "custom"; js "your"].
Definition benefits : list jsstring :=
        [js "quality"; js "premium"; js "exclusive"].
Definition cta : list jsstring :=
        [js "order now"; js "shop now"; js "get yours"].
End requiredElements.
End description.
Module hashtags.
Definition min : nat := 10.
Definition max : nat := 15.
Definition categories : list (jsstring * list jsstring) :=
      [(js "easter", [js "easter"; js "spring"; js "holiday"]);
       (js "product", [js "gift"; js "decor"; js "design"]);
       (js "personalization", [js "custom"; js "personalized"; js "unique"]);
       (js "style", [js "handmade"; js "premium"; js "quality"])].
End hashtags.
End INSTAGRAM_CONSTRAINTS.
Import INSTAGRAM_CONSTRAINTS.

(** The pictographs of this file: U+2728, U+1F31F and U+1F3A8, the last two
    as surrogate pairs. *)
Definition sparkles : jsstring := [0x2728]%N.
Definition glowingStar : jsstring := [0xD83C; 0xDF1F]%N.
Definition palette : jsstring := [0xD83C; 0xDFA8]%N.

Definition hasAny (words : list jsstring) (text : jsstring) : bool :=
  existsb (fun word => includes (toLowerCase text) word) words.

(** [validateDescription]: the repaired description, or the message of the
    thrown [Error]. *)
Definition validateDescription (description : jsstring) : jsstring + jsstring :=
  if negb (truthy description) then inr (js "Error: Description is required")
  else
    let trimmed := trim description in
    let truncated :=
      if description.maxLength <? length trimmed
      then substring trimmed 0 (description.maxLength - 3) ++ js "..."
      else trimmed in
    let hasEmotional := hasAny description.requiredElements.emotional truncated in
    let hasPersonalization :=
      hasAny description.requiredElements.personalization truncated in
    let hasBenefits := hasAny description.requiredElements.benefits truncated in
    let hasCTA := hasAny description.requiredElements.cta truncated in
    let withEmotional :=
      if negb hasEmotional || negb hasPersonalization
      then truncated
             ++ js " Make your space special with a personalized touch! "
             ++ sparkles
      else truncated in
    let withBenefits :=
      if negb hasBenefits
      then withEmotional ++ js " Premium quality guaranteed. " ++ glowingStar
      else withEmotional in
    let withCTA :=
      if negb hasCTA then withBenefits ++ js " Order now! " ++ palette
      else withBenefits in
    inl (if negb (includes withCTA sparkles)
            && negb (includes withCTA glowingStar)
         then sparkles ++ js " " ++ withCTA
         else withCTA).

(** [validateHashtags] on an array of strings. *)
Definition validateHashtags (tags : list jsstring)
  : list jsstring + jsstring :=
  let cleanedTags :=
    map (fun tag => if startsWith tag (js "#") then tag else js "#" ++ tag)
      (filter truthy (map trim tags)) in
  if length cleanedTags <? hashtags.min then
    inr (js "Error: Minimum " ++ Validation.numeral hashtags.min
           ++ js " hashtags required")
  else
    let lowerTags := map toLowerCase cleanedTags in
    let missingCategories :=
      map fst
        (filter
           (fun entry =>
              negb (existsb
                      (fun word =>
                         existsb (fun tag => includes tag word) lowerTags)
                      (snd entry)))
           hashtags.categories) in
    if 0 <? length missingCategories then
      inr (js "Error: Missing hashtags for categories: "
             ++ join (js ", ") missingCategories)
    else
      inl (if hashtags.max <? length cleanedTags
           then firstn hashtags.max cleanedTags
           else cleanedTags).

End InstagramContent.

(** ** services/validation/validator.ts *)

Module Validator.
Import JS JSON.

(** [Validator.validateContent] of this file, over the strict schema. *)
Definition validateContent {E : Engine} (content : option json)
  : Validation.Result Schema.ValidatedContent :=
  let parsed :=
    match content with
    | Some (JString s) =>
        match JSON.parse s with
        | Some d => inl (Some d)
        | None => inr (syntaxErrorMessage s)
        end
    | _ => inl content
    end in
  match parsed with
  | inr msg => Validation.invalid (js "Content validation failed: " ++ msg)
  | inl d =>
      match Zod.parse Schema.ContentSchema d with
      | inl validated => Validation.valid validated
      | inr issues =>
          Validation.invalid
            (js "Content validation failed: " ++ join (js ", ") issues)
      end
  end.

(** [Validator.validateJSON] of this file has the text of the one in
    services/validation.ts. *)
Definition validateJSON {E : Engine} (input : jsstring)
  : Validation.Result json :=
  Validation.validateJSON input.

(** [Validator.validateAndTransform] of this file: the validated content, or
    the message of the thrown [Error]. *)
Definition validateAndTransform {E : Engine} (input : jsstring)
  : Schema.ValidatedContent + jsstring :=
  match validateJSON input with
  | Validation.invalid e =>
      inr (Validation.orText e (js "Invalid JSON structure"))
  | Validation.valid d =>
      match validateContent (Some d) with
      | Validation.invalid e =>
          inr (Validation.orText e (js "Invalid content structure"))
      | Validation.valid validated => inl validated
      end
  end.

End Validator.

(** ** services/openai.ts: the tags of the marketplace record *)

Module OpenAI.
Import JS.

(** The tags that [analyzeImageAndGenerateContent] keeps: the trimmed
    comma-separated entries of two to five words. *)
Definition longTailTags (parsedTags : jsstring) : list jsstring :=
  filter
    (fun tag =>
       let words := splitWhitespace tag in
       truthy tag && (2 <=? length words) && (length words <=? 5))
    (map trim (split 44 parsedTags)).

(** The [tags] field of the returned record, or the message of the thrown
    [Error]. *)
Definition marketplaceTags (parsedTags : jsstring) : jsstring + jsstring :=
  let tags := longTailTags parsedTags in
  if length tags <? 10
  then inr (js "At least 10 specific, long-tail tags are required")
  else inl (join (js ", ") tags).

End OpenAI.

(** ** services/instagramContent.ts: [generateInstagramContent] *)

Module InstagramGeneration.
Import JS.




End InstagramGeneration.

(** ** services/instagram.ts *)

Module Instagram.
Import JS.

Module INSTAGRAM_CONSTRAINTS.
Module content.
Definition maxDescriptionLength : nat := 150.
Definition minHashtags : nat := 10.
Definition maxHashtags : nat := 15.
End content.
End INSTAGRAM_CONSTRAINTS.
Import INSTAGRAM_CONSTRAINTS.

(** [GeneratedContent] of types.ts, without its image analysis, which no
    function here reads. *)
Record GeneratedContent : Type := {
  title : jsstring;
  description : jsstring;
  tags : jsstring;
  keywords : list jsstring
}.

(** The pictographs and the bullet of this file, with the code units they
    have in the source file. *)
Definition sparkles : jsstring := [0xE2; 0x153; 0xA8]%N.
Definition palette : jsstring := [0xF0; 0x178; 0x17D; 0xA8]%N.

Definition newlines : jsstring := [10; 10]%N.

(** [validateInstagramContent]: the content with its description and tags
    replaced, or the message of the thrown [Error]. *)
Definition validateInstagramContent (c : GeneratedContent)
  : GeneratedContent + jsstring :=
  let truncated :=
    if content.maxDescriptionLength <? length (description c)
    then substring (description c) 0 (content.maxDescriptionLength - 3)
           ++ js "..."
    else description c in
  let withAppeal :=
    if negb (includes (toLowerCase truncated) (js "special"))
       && negb (includes (toLowerCase truncated) (js "unique"))
    then trim truncated ++ newlines ++ js "Make it special! " ++ sparkles
    else truncated in
  let withCTA :=
    if negb (includes (toLowerCase withAppeal) (js "order now"))
    then trim withAppeal ++ newlines ++ js "Order now for a personal touch! "
           ++ palette
    else withAppeal in
  let hashtagList :=
    map (fun tag => if startsWith tag (js "#") then tag else js "#" ++ tag)
      (filter truthy (map trim (splitCommaWhitespace (tags c)))) in
  if length hashtagList <? content.minHashtags then
    inr (js "Not enough hashtags. Minimum required: "
           ++ Validation.numeral content.minHashtags)
  else
    inl {| title := title c;
           description := withCTA;
           tags :=
             join (js " ")
               (if content.maxHashtags <? length hashtagList
                then firstn content.maxHashtags hashtagList
                else hashtagList);
           keywords := keywords c |}.


End Instagram.

(** ** services/logger.ts *)

Module Logger.
Import JS JSON.

Inductive Level : Type := Debug | Info | Warn | Error.

(** A log entry. The request identifier is whatever the [requestId] member
    of the data holds. *)
Record LogEntry : Type := {
  timestamp : N;
  level : Level;
  context : jsstring;
  message : jsstring;
  requestId : option json;
  data : option json
}.

(** The two fields of the logger. *)
Record Logger : Type := {
  logs : list LogEntry;
  debugMode : bool
}.

(** The instance that [getInstance] creates. *)
Definition instance : Logger := {| logs := []; debugMode := false |}.

(** [data?.requestId] *)
Definition requestIdOf (d : option json) : option json :=
  match d with
  | Some (JObject members) => get members (js "requestId")
  | _ => None
  end.

(** [addEntry]; [now] is the value of [Date.now()]. What it prints to the
    console in debug mode is not represented, nor are the toasts of [warn]
    and [error]. *)
Definition addEntry (now : N) (lv : Level) (ctx msg : jsstring)
  (rid d : option json) (l : Logger) : Logger :=
  {| logs :=
       logs l
       ++ [{| timestamp := now; level := lv; context := ctx; message := msg;
              requestId := rid; data := d |}];
     debugMode := debugMode l |}.

Definition debug (now : N) (ctx msg : jsstring) (d : option json)
  (l : Logger) : Logger :=
  if debugMode l then addEntry now Debug ctx msg (requestIdOf d) d l else l.

Definition info (now : N) (ctx msg : jsstring) (d : option json)
  (l : Logger) : Logger :=
  addEntry now Info ctx msg (requestIdOf d) d l.

Definition warn (now : N) (ctx msg : jsstring) (d : option json)
  (l : Logger) : Logger :=
  addEntry now Warn ctx msg (requestIdOf d) d l.

Definition error (now : N) (ctx msg : jsstring) (d : option json)
  (l : Logger) : Logger :=
  addEntry now Error ctx msg (requestIdOf d) d l.

Definition enableDebug (now : N) (l : Logger) : Logger :=
  debug now (js "Logger") (js "Debug mode enabled") None
    {| logs := logs l; debugMode := true |}.

Definition disableDebug (now : N) (l : Logger) : Logger :=
  {| logs := logs (debug now (js "Logger") (js "Debug mode disabled") None l);
     debugMode := false |}.

(** [getRecentLogs(count)] for an integer count, [None] for the call
    without argument. *)
Definition getRecentLogs (count : option Z) (l : Logger) : list LogEntry :=
  let count := match count with Some n => n | None => 10%Z end in
  slice (- count) (logs l).

Definition clearLogs (l : Logger) : Logger :=
  {| logs := []; debugMode := debugMode l |}.

(** The calls that change the logger, and a sequence of them run from a
    given state. *)
Inductive Call : Type :=
| CallDebug (now : N) (ctx msg : jsstring) (d : option json)
| CallInfo (now : N) (ctx msg : jsstring) (d : option json)
| CallWarn (now : N) (ctx msg : jsstring) (d : option json)
| CallError (now : N) (ctx msg : jsstring) (d : option json)
| CallEnableDebug (now : N)
| CallDisableDebug (now : N)
| CallClearLogs.

Definition call (c : Call) (l : Logger) : Logger :=
  match c with
  | CallDebug now ctx msg d => debug now ctx msg d l
  | CallInfo now ctx msg d => info now ctx msg d l
  | CallWarn now ctx msg d => warn now ctx msg d l
  | CallError now ctx msg d => error now ctx msg d l
  | CallEnableDebug now => enableDebug now l
  | CallDisableDebug now => disableDebug now l
  | CallClearLogs => clearLogs l
  end.

Definition run (calls : list Call) (l : Logger) : Logger :=
  fold_left (fun st c => call c st) calls l.

End Logger.

(** ** Inputs for the examples *)

Module Examples.
Import JS JSON.

(** The digits of a number before its exponent. *)
Fixpoint mantissa (lexeme : jsstring) : jsstring :=
  match lexeme with
  | [] => []
  | c :: r => if ((c =? 101) || (c =? 69))%N then [] else c :: mantissa r
  end.

(** An engine to evaluate examples with. A number is truthy unless it is
    zero, which a JSON text writes without a digit from 1 to 9 before the
    exponent; it is printed as it was written, which is how an engine
    prints a small integer written without sign, fraction or exponent. The
    example texts contain no numbers, and none of them has a result that
    shows the message of a syntax error. *)
Definition exampleEngine : Engine :=
  {| numberToBoolean :=
       fun lexeme =>
         existsb (fun c => ((49 <=? c) && (c <=? 57))%N) (mantissa lexeme);
     numberToString := fun lexeme => lexeme;
     syntaxErrorMessage := fun _ => js "Unexpected token in JSON" |}.

Definition wrappedObject : jsstring :=
  jsq "{'title':'Custom Mug','description':'A mug','tags':'mug,gift'}".

Definition wrappedInProse : jsstring :=
  js "Sure! " ++ wrappedObject ++ js "  Hope that helps!".

Definition titleOnly : jsstring := jsq "{'title':'x'}".

(** Scenario 1 of the specification. *)
Definition scenario1 : jsstring :=
  jsq "{'title':'x','description':'short','tags':'a,b'}".

(** The JSON text of an object with the three keys, for field texts without
    quotes, backslashes or control characters. *)
Definition record (t d g : jsstring) : jsstring :=
  jsq "{'title':'" ++ t ++ jsq "','description':'" ++ d ++ jsq "','tags':'"
    ++ g ++ jsq "'}".

Definition plainDescription : jsstring := repeat 98%N 120.

(** Forty-five code units, five of them leading spaces. *)
Definition paddedTitle : jsstring := js "     " ++ repeat 97%N 40.

Definition longTitle : jsstring := repeat 97%N 45.

(** One thousand and one code units, the first a space. *)
Definition paddedDescription : jsstring := 32%N :: repeat 97%N 1000.

Definition longDescription : jsstring := repeat 97%N 1001.

(** A record that meets every rule of the strict schema; its last two tags
    differ in the case of one letter only. *)
Definition giftTitle : jsstring := js "Special custom mug for mom".

Definition giftDescription : jsstring :=
  js "Crafted mug perfect for morning coffee. Personalize it with your name to celebrate mom with love. A special gift she will cherish every day. Order now and make it yours today!".

Definition giftTags : jsstring :=
  js "mug,handmade,holiday,custom,special,mom,gift idea,maternal,Gift,gift".

Definition giftRecord : json :=
  JObject [(js "title", JString giftTitle);
           (js "description", JString giftDescription);
           (js "tags", JString giftTags)].

(** A text that the social-content validator accepts, and the record it
    returns for it on every platform: the description has 120 code units
    and the tag string is comma-separated. *)
Definition mugText : jsstring :=
  record (js "Mug") plainDescription (js "mug, #gift").

Definition mugContent : SocialContent.Content :=
  {| SocialContent.title := js "Mug";
     SocialContent.description := plainDescription;
     SocialContent.tags := js "mug, #gift" |}.

(** The same record as [formatContent] returns it for Pinterest, its
    description followed by the call to action of that platform, and the
    JSON text of it, in which the two line feeds are written as escapes. *)
Definition pinnedContent : SocialContent.Content :=
  {| SocialContent.title := js "Mug";
     SocialContent.description :=
       plainDescription ++ [10; 10]%N
         ++ SocialContent.callToAction SocialContent.Pinterest;
     SocialContent.tags := js "mug, #gift" |}.

Definition pinnedText : jsstring :=
  record (js "Mug")
    (plainDescription ++ js "\n\n"
       ++ SocialContent.callToAction SocialContent.Pinterest)
    (js "mug, #gift").

(** An Instagram description of exactly 150 code units with a word of each
    required group and no pictograph; its call to action comes last. *)
Definition completeDescription : jsstring :=
  js "special your quality " ++ repeat 97%N 119 ++ js " order now".

End Examples.

(** ** Vocabulary of the statements *)

Module Spec.
Import JS JSON.

(** A member that is missing, [null], or a string of white space only. *)
Definition missingOrBlank (v : option json) : Prop :=
  v = None \/ v = Some JNull \/ exists s, v = Some (JString s) /\ trim s = [].

(** A member that is a string with more than white space in it. *)
Definition textMember (v : option json) (s : jsstring) : Prop :=
  v = Some (JString s) /\ trim s <> [].

(** Feeding a record that [formatContent] returned back to it: the
    description and the tag string are those of the output. *)
Definition refeed (x : SocialContent.Content)
  (out : SocialContent.SocialContentRecord) : SocialContent.Content :=
  {| SocialContent.title := SocialContent.title x;
     SocialContent.description := SocialContent.sc_description out;
     SocialContent.tags := SocialContent.hashtags out |}.

(** The description shows one of the two pictographs that [formatContent]
    looks for. *)
Definition hasPictograph (d : jsstring) : Prop :=
  includes d SocialContent.sparkles = true
  \/ includes d SocialContent.glowingStar = true.

(** The tag line of [formatContent] for Instagram and Facebook. *)
Definition hashtagLine (tags : jsstring) : jsstring :=
  join (js " ")
    (map SocialContent.hashPrefix (filter truthy (map trim (split 44 tags)))).

(** A hashtag as [formatContent] writes it: it starts with the hash sign,
    has no white space at its end and no comma. *)
Definition tagOk (e : jsstring) : Prop :=
  startsWith e (js "#") = true /\ lastOk e /\ ~ In 44%N e.

(** An Instagram description with nothing to repair: within the length
    bound once trimmed, with a word of each required group and one of the two
    pictographs. *)
Definition normalizedDescription (d : jsstring) : Prop :=
  let t := trim d in
  d <> []
  /\ length t <= InstagramContent.INSTAGRAM_CONSTRAINTS.description.maxLength
  /\ InstagramContent.hasAny
       InstagramContent.INSTAGRAM_CONSTRAINTS.description.requiredElements.emotional t = true
  /\ InstagramContent.hasAny
       InstagramContent.INSTAGRAM_CONSTRAINTS.description.requiredElements.personalization t = true
  /\ InstagramContent.hasAny
       InstagramContent.INSTAGRAM_CONSTRAINTS.description.requiredElements.benefits t = true
  /\ InstagramContent.hasAny
       InstagramContent.INSTAGRAM_CONSTRAINTS.description.requiredElements.cta t = true
  /\ (includes t InstagramContent.sparkles = true
      \/ includes t InstagramContent.glowingStar = true).

(** What [validateDescription] promises of its result: a word of each
    required group, one of the two pictographs and at most 248 code
    units. *)
Definition repaired (r : jsstring) : Prop :=
  InstagramContent.hasAny
    InstagramContent.INSTAGRAM_CONSTRAINTS.description.requiredElements.emotional r = true
  /\ InstagramContent.hasAny
       InstagramContent.INSTAGRAM_CONSTRAINTS.description.requiredElements.personalization r = true
  /\ InstagramContent.hasAny
       InstagramContent.INSTAGRAM_CONSTRAINTS.description.requiredElements.benefits r = true
  /\ InstagramContent.hasAny
       InstagramContent.INSTAGRAM_CONSTRAINTS.description.requiredElements.cta r = true
  /\ (includes r InstagramContent.sparkles = true
      \/ includes r InstagramContent.glowingStar = true)
  /\ length r <= 248.


(** A word that [toLowerCase] can only have made from the same letters: it
    has no [k], which the Kelvin sign gives, no combining dot, and no [i]
    at its end, which the capital I with dot above gives, followed by the
    combining dot. *)
Fixpoint plainWord (w : jsstring) : bool :=
  match w with
  | [] => true
  | [c] => negb ((c =? 105) || (c =? 107) || (c =? 0x307))%N
  | c :: r => negb ((c =? 107) || (c =? 0x307))%N && plainWord r
  end.

(** A content item that [validateMessages] lets through: any value but
    [null]; when its type is [text] it has a string text, and when its type
    is [image_url] it has an image object with a string url. *)
Definition acceptedItem (item : json) : Prop :=
  item <> JNull
  /\ (Validation.read item (js "type") = Some (JString (js "text")) ->
      exists s, Validation.read item (js "text") = Some (JString s))
  /\ (Validation.read item (js "type") = Some (JString (js "image_url")) ->
      exists image_url s,
        Validation.read item (js "image_url") = Some image_url
        /\ Validation.read image_url (js "url") = Some (JString s)).

(** A message that [validateMessages] lets through: its role is one of the
    three listed and its content is an array of accepted items. *)
Definition acceptedMessage (message : json) : Prop :=
  exists role items,
    Validation.read message (js "role") = Some (JString role)
    /\ In role [js "system"; js "user"; js "assistant"]
    /\ Validation.read message (js "content") = Some (JArray items)
    /\ Forall acceptedItem items.

End Spec.

(** * Properties *)

(** ** Facts about the string operations *)

Section StringFacts.
Import JS.

Lemma eqb_eq (a b : jsstring) : eqb a b = true <-> a = b.
Proof.
  revert b; induction a as [|x a IH]; intros [|y b]; simpl;
    try (split; [discriminate | discriminate]); try tauto.
  rewrite andb_true_iff, N.eqb_eq, IH.
  split; [intros [-> ->]; reflexivity | intros H; inversion H; auto].
Qed.

Lemma eqb_refl (a : jsstring) : eqb a a = true.
Proof. apply eqb_eq; reflexivity. Qed.

Lemma eqb_neq (a b : jsstring) : eqb a b = false <-> a <> b.
Proof.
  rewrite <- eqb_eq. destruct (eqb a b); split; congruence.
Qed.

Lemma startsWith_iff (s p : jsstring) :
  startsWith s p = true <-> exists r, s = p ++ r.
Proof.
  revert s; induction p as [|x p IH]; intros s; simpl.
  - split; [intros _; exists s; reflexivity | reflexivity].
  - destruct s as [|y s].
    + split; [discriminate | intros [r H]; discriminate].
    + rewrite andb_true_iff, N.eqb_eq, IH. split.
      * intros [-> [r ->]]. exists r; reflexivity.
      * intros [r H]. inversion H; subst. split; [reflexivity | eauto].
Qed.

Lemma startsWith_app (p r : jsstring) : startsWith (p ++ r) p = true.
Proof. apply startsWith_iff; eauto. Qed.

Lemma endsWith_iff (s p : jsstring) :
  endsWith s p = true <-> exists r, s = r ++ p.
Proof.
  unfold endsWith. rewrite startsWith_iff. split.
  - intros [r H]. exists (rev r).
    rewrite <- (rev_involutive s), H, rev_app_distr, rev_involutive.
    reflexivity.
  - intros [r ->]. exists (rev r). apply rev_app_distr.
Qed.

Lemma endsWith_app (r p : jsstring) : endsWith (r ++ p) p = true.
Proof. apply endsWith_iff; eauto. Qed.

Lemma includes_unfold (s p : jsstring) :
  includes s p
  = startsWith s p || match s with [] => false | _ :: r => includes r p end.
Proof. destruct s; reflexivity. Qed.

Lemma includes_iff (s p : jsstring) :
  includes s p = true <-> exists a b, s = a ++ p ++ b.
Proof.
  split.
  - induction s as [|c s IH]; rewrite includes_unfold, orb_true_iff.
    + intros [H | H]; [|discriminate].
      apply startsWith_iff in H as [r H]. exists [], r. exact H.
    + intros [H | H].
      * apply startsWith_iff in H as [r H]. exists [], r. exact H.
      * destruct (IH H) as (a & b & ->). exists (c :: a), b. reflexivity.
  - intros (a & b & ->). induction a as [|c a IH].
    + rewrite includes_unfold. simpl. rewrite startsWith_app. reflexivity.
    + simpl app. rewrite includes_unfold. cbv beta iota. rewrite IH.
      apply orb_true_r.
Qed.

Lemma includes_app_r (s t p : jsstring) :
  includes s p = true -> includes (s ++ t) p = true.
Proof.
  rewrite !includes_iff. intros (a & b & ->). exists a, (b ++ t).
  rewrite <- !app_assoc. reflexivity.
Qed.

Lemma includes_app_l (s t p : jsstring) :
  includes t p = true -> includes (s ++ t) p = true.
Proof.
  rewrite !includes_iff. intros (a & b & ->). exists (s ++ a), b.
  rewrite <- !app_assoc. reflexivity.
Qed.

Lemma toLowerCase_app (a b : jsstring) :
  toLowerCase (a ++ b) = toLowerCase a ++ toLowerCase b.
Proof. apply flat_map_app. Qed.

Lemma substring_0 (s : jsstring) (n : nat) : substring s 0 n = firstn n s.
Proof.
  unfold substring. rewrite Nat.max_0_l, Nat.min_0_l, Nat.sub_0_r.
  reflexivity.
Qed.

(** *** White space at the ends *)

Lemma trimStart_headOk (s : jsstring) : headOk (trimStart s).
Proof.
  induction s as [|c s IH]; simpl; [exact I|].
  destruct (isWhiteSpace c) eqn:Hc; [exact IH | exact Hc].
Qed.

Lemma trimStart_id (s : jsstring) : headOk s -> trimStart s = s.
Proof. destruct s as [|c s]; simpl; [reflexivity | intros ->; reflexivity]. Qed.

Lemma trimStart_decomp (s : jsstring) :
  exists w, s = w ++ trimStart s /\ forallb isWhiteSpace w = true.
Proof.
  induction s as [|c s (w & Hw & Hall)]; simpl.
  - exists []; auto.
  - destruct (isWhiteSpace c) eqn:Hc.
    + exists (c :: w). simpl. rewrite Hc, Hall. split; [congruence | reflexivity].
    + exists []; auto.
Qed.

Lemma trimEnd_lastOk (s : jsstring) : lastOk (trimEnd s).
Proof.
  unfold lastOk, trimEnd. rewrite rev_involutive. apply trimStart_headOk.
Qed.

Lemma trimEnd_id (s : jsstring) : lastOk s -> trimEnd s = s.
Proof.
  unfold lastOk, trimEnd. intros H. rewrite trimStart_id by exact H.
  apply rev_involutive.
Qed.

Lemma trimEnd_decomp (s : jsstring) :
  exists w, s = trimEnd s ++ w /\ forallb isWhiteSpace w = true.
Proof.
  unfold trimEnd. destruct (trimStart_decomp (rev s)) as (w & Hw & Hall).
  exists (rev w). split.
  - rewrite <- (rev_involutive s) at 1. rewrite Hw at 1.
    apply rev_app_distr.
  - rewrite forallb_forall in *. intros x Hx. apply Hall.
    apply in_rev. exact Hx.
Qed.

Lemma headOk_prefix (s t : jsstring) : headOk (s ++ t) -> headOk s.
Proof. destruct s; simpl; auto. Qed.

Lemma trimEnd_headOk (s : jsstring) : headOk s -> headOk (trimEnd s).
Proof.
  intros H. destruct (trimEnd_decomp s) as (w & Hw & _).
  rewrite Hw in H. eapply headOk_prefix; eauto.
Qed.

Lemma trim_headOk (s : jsstring) : headOk (trim s).
Proof. apply trimEnd_headOk, trimStart_headOk. Qed.

Lemma trim_lastOk (s : jsstring) : lastOk (trim s).
Proof. apply trimEnd_lastOk. Qed.

Lemma trim_id (s : jsstring) : headOk s -> lastOk s -> trim s = s.
Proof.
  intros H1 H2. unfold trim. rewrite trimStart_id by exact H1.
  apply trimEnd_id, H2.
Qed.

Lemma trim_idempotent (s : jsstring) : trim (trim s) = trim s.
Proof. apply trim_id; [apply trim_headOk | apply trim_lastOk]. Qed.

Lemma trim_decomp (s : jsstring) :
  exists w1 w2, s = w1 ++ trim s ++ w2
    /\ forallb isWhiteSpace w1 = true /\ forallb isWhiteSpace w2 = true.
Proof.
  destruct (trimStart_decomp s) as (w1 & H1 & A1).
  destruct (trimEnd_decomp (trimStart s)) as (w2 & H2 & A2).
  exists w1, w2. unfold trim. rewrite <- H2, <- H1. auto.
Qed.

Lemma trim_length (s : jsstring) : length (trim s) <= length s.
Proof.
  destruct (trim_decomp s) as (w1 & w2 & H & _).
  rewrite H at 2. rewrite !length_app. lia.
Qed.

Lemma trim_nil : trim [] = [].
Proof. reflexivity. Qed.

End StringFacts.

(** ** Facts about the parser *)

Section ParserFacts.
Import JS JSON.

Lemma skipWs_suffix (s : jsstring) : exists w, s = w ++ skipWs s.
Proof.
  induction s as [|c s (w & Hw)]; simpl; [exists []; reflexivity|].
  destruct (isJsonSpace c); [exists (c :: w); simpl; congruence | exists []; reflexivity].
Qed.

Lemma takeDigits_app (s ds r : jsstring) : takeDigits s = (ds, r) -> s = ds ++ r.
Proof.
  revert ds r. induction s as [|c s IH]; simpl; intros ds r H.
  - inversion H; reflexivity.
  - destruct (isDigit c).
    + destruct (takeDigits s) as [ds' r'] eqn:E. inversion H; subst.
      simpl. f_equal. apply IH. reflexivity.
    + inversion H; reflexivity.
Qed.

Lemma rest_cons (x : N) (r s : jsstring) : rest r s -> rest r (x :: s).
Proof. intros (c & Hc & ->). exists (x :: c). split; [discriminate | reflexivity]. Qed.

Lemma rest_here (x : N) (s : jsstring) : rest s (x :: s).
Proof. exists [x]. split; [discriminate | reflexivity]. Qed.

Lemma rest_app (w r s : jsstring) : rest r s -> rest r (w ++ s).
Proof. intros (c & Hc & ->). exists (w ++ c). split; [destruct w; [exact Hc | discriminate] | apply app_assoc]. Qed.

Lemma rest_trans (a b c : jsstring) : rest a b -> rest b c -> rest a c.
Proof.
  intros (x & Hx & ->) (y & Hy & ->). exists (y ++ x).
  split; [destruct y; [congruence | discriminate] | apply app_assoc].
Qed.

Lemma rest_skipWs (r s : jsstring) : rest r (skipWs s) -> rest r s.
Proof. destruct (skipWs_suffix s) as (w & Hw). intros H. rewrite Hw. apply rest_app, H. Qed.

Lemma rest_length (r s : jsstring) : rest r s -> length r < length s.
Proof. intros (c & Hc & ->). rewrite length_app. destruct c; [congruence | simpl; lia]. Qed.

Lemma parseStringBody_rest_upto (n : nat) :
  forall s, length s <= n ->
  forall acc str r, parseStringBody s acc = Some (str, r) -> rest r s.
Proof.
  induction n as [|n IH]; intros s Hn acc str r H.
  - destruct s; [discriminate | simpl in Hn; lia].
  - destruct s as [|c s]; [discriminate|]. simpl in Hn.
    cbn [parseStringBody] in H.
    destruct (c =? 34)%N.
    { inversion H; subst. apply rest_here. }
    destruct (c =? 92)%N.
    { destruct s as [|e s]; [discriminate|]. simpl in Hn.
      repeat match type of H with
             | (if ?b then _ else _) = _ => destruct b
             end;
        try (do 2 apply rest_cons; eapply IH; [|exact H]; lia);
        try discriminate.
      destruct s as [|h1 [|h2 [|h3 [|h4 s]]]]; try discriminate.
      destruct (hex4 h1 h2 h3 h4); [|discriminate]. simpl in Hn.
      do 6 apply rest_cons. eapply IH; [|exact H]. lia. }
    destruct (c <? 32)%N; [discriminate|].
    apply rest_cons. eapply IH; [|exact H]. lia.
Qed.

Lemma parseStringBody_rest (s acc str r : jsstring) :
  parseStringBody s acc = Some (str, r) -> rest r s.
Proof. apply (@parseStringBody_rest_upto (length s)). apply Nat.le_refl. Qed.

Ltac crunch :=
  repeat match goal with
         | H : context [match ?x with _ => _ end] |- _ => destruct x eqn:?
         | H : (_, _) = (_, _) |- _ => inversion H; clear H; subst
         | H : Some _ = Some _ |- _ => inversion H; clear H; subst
         | H : Some _ = None |- _ => discriminate H
         | H : None = Some _ |- _ => discriminate H
         end.

Lemma parseNumber_rest (s lexeme r : jsstring) :
  parseNumber s = Some (lexeme, r) -> s = lexeme ++ r /\ lexeme <> [].
Proof.
  unfold parseNumber. intros H. crunch.
  all: repeat match goal with
         | E : takeDigits _ = (_, _) |- _ => apply takeDigits_app in E
         end; simpl in *; try discriminate.
  all: repeat match goal with
         | E : _ :: _ = _ :: _ |- _ => inversion E; clear E
         end; subst.
  all: split; [repeat (rewrite <- app_assoc || simpl); reflexivity
              | simpl; discriminate].
Qed.

Lemma parseLiteral_rest (s : jsstring) (v : json) (r : jsstring) :
  parseLiteral s = Some (v, r) -> rest r s.
Proof.
  unfold parseLiteral. intros H.
  destruct (startsWith s (js "true")) eqn:E1.
  { apply startsWith_iff in E1 as (t & ->). inversion H; subst.
    exists (js "true"). split; [discriminate | reflexivity]. }
  destruct (startsWith s (js "false")) eqn:E2.
  { apply startsWith_iff in E2 as (t & ->). inversion H; subst.
    exists (js "false"). split; [discriminate | reflexivity]. }
  destruct (startsWith s (js "null")) eqn:E3.
  { apply startsWith_iff in E3 as (t & ->). inversion H; subst.
    exists (js "null"). split; [discriminate | reflexivity]. }
  destruct (parseNumber s) as [[lexeme r']|] eqn:E4; [|discriminate].
  inversion H; subst. apply parseNumber_rest in E4 as [-> Hne].
  exists lexeme. auto.
Qed.

Lemma suffix_refl (r : jsstring) : suffix r r.
Proof. exists []. reflexivity. Qed.

Lemma suffix_trans (a b c : jsstring) : suffix a b -> suffix b c -> suffix a c.
Proof. intros (x & ->) (y & ->). exists (y ++ x). apply app_assoc. Qed.

Lemma suffix_tail (x : N) (r s : jsstring) : suffix (x :: r) s -> suffix r s.
Proof. intros (c & ->). exists (c ++ [x]). rewrite <- app_assoc. reflexivity. Qed.

Lemma suffix_skipWs (s : jsstring) : suffix (skipWs s) s.
Proof. apply skipWs_suffix. Qed.

Lemma rest_suffix (r s : jsstring) : rest r s -> suffix r s.
Proof. intros (c & _ & ->). exists c. reflexivity. Qed.

Lemma rest_tail (x : N) (r s : jsstring) : suffix (x :: r) s -> rest r s.
Proof.
  intros (c & ->). exists (c ++ [x]).
  split; [destruct c; discriminate | rewrite <- app_assoc; reflexivity].
Qed.

Lemma rest_in (r m s : jsstring) : rest r m -> suffix m s -> rest r s.
Proof.
  intros (x & Hx & ->) (y & ->). exists (y ++ x).
  split; [destruct y; [exact Hx | discriminate] | apply app_assoc].
Qed.

Lemma suffix_in_rest (r m s : jsstring) : suffix r m -> rest m s -> rest r s.
Proof.
  intros (x & ->) (y & Hy & ->). exists (y ++ x).
  split; [destruct y; [congruence | discriminate] | apply app_assoc].
Qed.

Lemma closes_tail (r s : jsstring) : suffix (125%N :: r) s -> closes r s.
Proof. intros H. exact H. Qed.

Lemma closes_in (r m s : jsstring) : closes r m -> suffix m s -> closes r s.
Proof. intros (x & ->) (y & ->). exists (y ++ x). apply app_assoc. Qed.

Lemma closes_rest (r s : jsstring) : closes r s -> rest r s.
Proof. intros H. apply rest_tail with (x := 125%N). exact H. Qed.

Lemma parseLiteral_not_object (s : jsstring) (v : json) (r : jsstring) :
  parseLiteral s = Some (v, r) -> isPlainObject v = false.
Proof.
  unfold parseLiteral. intros H. crunch; reflexivity.
Qed.

(** What a parser leaves is a proper suffix of its text; after an object or
    a member list, the text that was read ends with a closing brace. *)
Lemma parse_rest (f : nat) :
  (forall s v r, parseValue f s = Some (v, r) ->
     rest r s /\ (isPlainObject v = true -> closes r s))
  /\ (forall s ms r, parseMembers f s = Some (ms, r) -> closes r s)
  /\ (forall s vs r, parseElements f s = Some (vs, r) -> rest r s).
Proof.
  induction f as [|f (IHv & IHm & IHe)];
    [repeat split; intros; discriminate|].
  split; [|split].
  - intros s v r H. cbn [parseValue] in H.
    pose proof (suffix_skipWs s) as H0.
    destruct (skipWs s) as [|c s1]; [discriminate|].
    destruct (N.eqb_spec c 123) as [->|_].
    { pose proof (suffix_trans (suffix_skipWs s1) (suffix_tail H0)) as H1.
      destruct (skipWs s1) as [|c' s2]; [discriminate|].
      assert (Hc : closes r s).
      { destruct (N.eqb_spec c' 125) as [->|_].
        - inversion H; subst. exact H1.
        - destruct (parseMembers f (c' :: s2)) as [[ms r'']|] eqn:Em;
            [|discriminate].
          inversion H; subst. eapply closes_in; [eapply IHm, Em | exact H1]. }
      split; [apply closes_rest, Hc | intros _; exact Hc]. }
    destruct (N.eqb_spec c 91) as [->|_].
    { pose proof (suffix_trans (suffix_skipWs s1) (suffix_tail H0)) as H1.
      destruct (skipWs s1) as [|c' s2]; [discriminate|].
      destruct (N.eqb_spec c' 93) as [->|_].
      - inversion H; subst. split; [apply (rest_tail H1) | discriminate].
      - destruct (parseElements f (c' :: s2)) as [[vs r'']|] eqn:Ee;
          [|discriminate].
        inversion H; subst.
        split; [eapply rest_in; [eapply IHe, Ee | exact H1] | discriminate]. }
    destruct (N.eqb_spec c 34) as [->|_].
    { destruct (parseStringBody s1 []) as [[str r']|] eqn:Eb; [|discriminate].
      inversion H; subst.
      split; [|discriminate].
      eapply rest_in; [eapply parseStringBody_rest, Eb | exact (suffix_tail H0)]. }
    split.
    + eapply rest_in; [eapply parseLiteral_rest, H | exact H0].
    + erewrite parseLiteral_not_object by exact H. discriminate.
  - intros s ms r H. cbn [parseMembers] in H.
    pose proof (suffix_skipWs s) as H0.
    destruct (skipWs s) as [|q s1]; [discriminate|].
    destruct (negb (q =? 34)%N); [discriminate|].
    destruct (parseStringBody s1 []) as [[k r1]|] eqn:Eb; [|discriminate].
    assert (H1 : suffix r1 s1)
      by (eapply rest_suffix, parseStringBody_rest, Eb).
    pose proof (suffix_skipWs r1) as H2.
    destruct (skipWs r1) as [|colon r2]; [discriminate|].
    destruct (negb (colon =? 58)%N); [discriminate|].
    destruct (parseValue f r2) as [[v r3]|] eqn:Ev; [|discriminate].
    assert (H3 : suffix r3 r2) by (eapply rest_suffix, IHv, Ev).
    pose proof (suffix_skipWs r3) as H4.
    destruct (skipWs r3) as [|d r4]; [discriminate|].
    assert (Hall : suffix (d :: r4) s).
    { eapply suffix_trans; [exact H4|].
      eapply suffix_trans; [exact H3|].
      eapply suffix_trans; [exact (suffix_tail H2)|].
      eapply suffix_trans; [exact H1|]. exact (suffix_tail H0). }
    destruct (N.eqb_spec d 125) as [->|_].
    + inversion H; subst. exact Hall.
    + destruct (d =? 44)%N; [|discriminate].
      destruct (parseMembers f r4) as [[ms' r5]|] eqn:Em; [|discriminate].
      inversion H; subst.
      eapply closes_in; [eapply IHm, Em | exact (suffix_tail Hall)].
  - intros s vs r H. cbn [parseElements] in H.
    destruct (parseValue f s) as [[v r1]|] eqn:Ev; [|discriminate].
    assert (H1 : rest r1 s) by (eapply IHv, Ev).
    pose proof (suffix_skipWs r1) as H2.
    destruct (skipWs r1) as [|d r2]; [discriminate|].
    destruct (d =? 93)%N.
    + inversion H; subst. exact (suffix_in_rest (suffix_tail H2) H1).
    + destruct (d =? 44)%N; [|discriminate].
      destruct (parseElements f r2) as [[vs' r'']|] eqn:Ee; [|discriminate].
      inversion H; subst.
      eapply suffix_in_rest; [|exact H1].
      eapply suffix_trans; [eapply rest_suffix, IHe, Ee | exact (suffix_tail H2)].
Qed.

Lemma parseValue_rest (f : nat) (s : jsstring) (v : json) (r : jsstring) :
  parseValue f s = Some (v, r) -> rest r s.
Proof. intros H. apply (proj1 (parse_rest f)) in H. tauto. Qed.

Lemma parseValue_closes (f : nat) (s : jsstring) (ms : list (jsstring * json))
  (r : jsstring) :
  parseValue f s = Some (JObject ms, r) -> closes r s.
Proof. intros H. apply (proj1 (parse_rest f)) in H. apply H. reflexivity. Qed.

Lemma suffix_length (r s : jsstring) : suffix r s -> length r <= length s.
Proof. intros (c & ->). rewrite length_app. lia. Qed.

(** Fuel above twice the length of the text is never used up: two such
    amounts give the same result. *)
Lemma parse_fuel (f1 : nat) :
  forall f2,
    (forall s, 2 * length s < f1 -> 2 * length s < f2 ->
       parseValue f1 s = parseValue f2 s)
    /\ (forall s, 2 * length s < f1 -> 2 * length s < f2 ->
          parseMembers f1 s = parseMembers f2 s)
    /\ (forall s, 2 * length s + 1 < f1 -> 2 * length s + 1 < f2 ->
          parseElements f1 s = parseElements f2 s).
Proof.
  induction f1 as [|f1 IH]; intros f2;
    [repeat split; intros; lia|].
  destruct f2 as [|f2]; [repeat split; intros; lia|].
  destruct (IH f2) as (IHv & IHm & IHe). clear IH.
  split; [|split].
  - intros s H1 H2. cbn [parseValue].
    pose proof (suffix_length (suffix_skipWs s)) as L0.
    destruct (skipWs s) as [|c s1]; [reflexivity|]. simpl in L0.
    pose proof (suffix_length (suffix_skipWs s1)) as L1.
    destruct (skipWs s1) as [|c' s2].
    + reflexivity.
    + simpl in L1.
      rewrite (IHm (c' :: s2)) by (simpl; lia).
      rewrite (IHe (c' :: s2)) by (simpl; lia).
      reflexivity.
  - intros s H1 H2. cbn [parseMembers].
    pose proof (suffix_length (suffix_skipWs s)) as L0.
    destruct (skipWs s) as [|q s1]; [reflexivity|]. simpl in L0.
    destruct (negb (q =? 34)%N); [reflexivity|].
    destruct (parseStringBody s1 []) as [[k r1]|] eqn:Eb; [|reflexivity].
    assert (L1 : length r1 < length s1)
      by (eapply rest_length, parseStringBody_rest, Eb).
    pose proof (suffix_length (suffix_skipWs r1)) as L2.
    destruct (skipWs r1) as [|colon r2]; [reflexivity|]. simpl in L2.
    destruct (negb (colon =? 58)%N); [reflexivity|].
    rewrite (IHv r2) by lia.
    destruct (parseValue f2 r2) as [[v r3]|] eqn:Ev; [|reflexivity].
    assert (L3 : length r3 < length r2) by (eapply rest_length, parseValue_rest, Ev).
    pose proof (suffix_length (suffix_skipWs r3)) as L4.
    destruct (skipWs r3) as [|d r4]; [reflexivity|]. simpl in L4.
    rewrite (IHm r4) by lia. reflexivity.
  - intros s H1 H2. cbn [parseElements].
    rewrite (IHv s) by lia.
    destruct (parseValue f2 s) as [[v r1]|] eqn:Ev; [|reflexivity].
    assert (L1 : length r1 < length s) by (eapply rest_length, parseValue_rest, Ev).
    pose proof (suffix_length (suffix_skipWs r1)) as L2.
    destruct (skipWs r1) as [|d r2]; [reflexivity|]. simpl in L2.
    rewrite (IHe r2) by lia. reflexivity.
Qed.

Lemma parseValue_fuel (text : jsstring) (f : nat) :
  2 * length text < f ->
  parseValue f text = parseValue (S (2 * length text)) text.
Proof. intros H. apply parse_fuel; lia. Qed.

Lemma isJsonSpace_isWhiteSpace (c : N) :
  isJsonSpace c = true -> isWhiteSpace c = true.
Proof.
  unfold isJsonSpace. rewrite !orb_true_iff, !N.eqb_eq.
  intros [[[-> | ->] | ->] | ->]; reflexivity.
Qed.

Lemma skipWs_headOk (s : jsstring) : headOk s -> skipWs s = s.
Proof.
  destruct s as [|c s]; simpl; [reflexivity|]. intros H.
  destruct (isJsonSpace c) eqn:E; [|reflexivity].
  apply isJsonSpace_isWhiteSpace in E. congruence.
Qed.

Lemma skipWs_nil (s : jsstring) :
  skipWs s = [] -> forallb isWhiteSpace s = true.
Proof.
  induction s as [|c s IH]; simpl; [reflexivity|].
  destruct (isJsonSpace c) eqn:E; [|discriminate].
  intros H. rewrite (isJsonSpace_isWhiteSpace _ E), (IH H). reflexivity.
Qed.

(** A text that parses to an object starts, after white space, with an
    opening brace and ends, before white space, with a closing brace. *)
Lemma parse_object_shape (t : jsstring) (ms : list (jsstring * json)) :
  JSON.parse t = Some (JObject ms) ->
  startsWith (skipWs t) (js "{") = true
  /\ exists c w, t = c ++ 125%N :: w /\ forallb isWhiteSpace w = true.
Proof.
  unfold JSON.parse.
  destruct (parseValue (S (2 * length t)) t) as [[v r]|] eqn:Ev; [|discriminate].
  destruct (skipWs r) eqn:Er; [|discriminate].
  intros H. inversion H; subst. split.
  - cbn [parseValue] in Ev. destruct (skipWs t) as [|c s1]; [discriminate|].
    destruct (N.eqb_spec c 123) as [->|_]; [reflexivity|]. exfalso.
    destruct (c =? 91)%N.
    { destruct (skipWs s1) as [|c' s2]; [discriminate|].
      destruct (c' =? 93)%N; [discriminate|].
      destruct (parseElements _ _) as [[? ?]|]; discriminate. }
    destruct (c =? 34)%N.
    { destruct (parseStringBody s1 []) as [[? ?]|]; discriminate. }
    apply parseLiteral_not_object in Ev. discriminate.
  - destruct (parseValue_closes _ _ Ev) as (c & E). exists c, r.
    split; [exact E | apply skipWs_nil, Er].
Qed.

Lemma lastOk_not_blank (c w : jsstring) :
  lastOk (c ++ w) -> forallb isWhiteSpace w = true -> w = [].
Proof.
  unfold lastOk. rewrite rev_app_distr. intros Hl Hw.
  destruct (rev w) as [|y u] eqn:Ey.
  - rewrite <- (rev_involutive w), Ey. reflexivity.
  - exfalso. simpl in Hl. rewrite forallb_forall in Hw.
    rewrite Hw in Hl; [discriminate|]. apply in_rev. rewrite Ey.
    left; reflexivity.
Qed.

Lemma parse_trimmed_object (input : jsstring) (ms : list (jsstring * json)) :
  JSON.parse (trim input) = Some (JObject ms) ->
  startsWith (trim input) (js "{") = true
  /\ endsWith (trim input) (js "}") = true.
Proof.
  intros H. destruct (parse_object_shape _ H) as (Hs & c & w & E & Hw).
  rewrite skipWs_headOk in Hs by apply trim_headOk.
  split; [exact Hs|].
  pose proof (trim_lastOk input) as Hl. rewrite E in Hl.
  change (c ++ 125%N :: w) with (c ++ [125%N] ++ w) in Hl.
  rewrite app_assoc in Hl.
  rewrite (lastOk_not_blank _ _ Hl Hw) in E.
  rewrite E. change (js "}") with [125%N]. apply endsWith_app.
Qed.

End ParserFacts.

(** ** Structural validation *)

Section Structural.
Import JS JSON ErrorHandler.

Lemma fromFirst_app_notin (c : N) (pre s : jsstring) :
  ~ In c pre -> SocialContent.fromFirst c (pre ++ s) = SocialContent.fromFirst c s.
Proof.
  induction pre as [|x pre IH]; simpl; intros H; [reflexivity|].
  destruct (N.eqb_spec x c) as [->|_]; [exfalso; auto | apply IH; tauto].
Qed.

Lemma fromFirst_head (c : N) (s : jsstring) :
  SocialContent.fromFirst c (c :: s) = c :: s.
Proof. simpl. rewrite N.eqb_refl. reflexivity. Qed.

Lemma uptoLast_app_notin (c : N) (s post : jsstring) :
  ~ In c post -> SocialContent.uptoLast c (s ++ post) = SocialContent.uptoLast c s.
Proof.
  intros H. unfold SocialContent.uptoLast.
  rewrite rev_app_distr, fromFirst_app_notin; [reflexivity|].
  rewrite <- in_rev. exact H.
Qed.

Lemma uptoLast_last (c : N) (s : jsstring) :
  SocialContent.uptoLast c (s ++ [c]) = s ++ [c].
Proof.
  unfold SocialContent.uptoLast. rewrite rev_app_distr. simpl app.
  rewrite fromFirst_head. simpl. rewrite rev_involutive. reflexivity.
Qed.

Lemma stripNonJSON_wrapped (pre mid post : jsstring) :
  ~ In 123%N pre -> ~ In 125%N post ->
  SocialContent.stripNonJSON (pre ++ (123%N :: mid ++ [125%N]) ++ post)
  = 123%N :: mid ++ [125%N].
Proof.
  intros Hpre Hpost. unfold SocialContent.stripNonJSON.
  rewrite fromFirst_app_notin by exact Hpre.
  replace (SocialContent.fromFirst 123 ((123%N :: mid ++ [125%N]) ++ post))
    with (((123%N :: mid) ++ [125%N]) ++ post)
    by (simpl; reflexivity).
  rewrite uptoLast_app_notin by exact Hpost.
  rewrite uptoLast_last. reflexivity.
Qed.

Lemma trimStart_app_blank (w s : jsstring) :
  forallb isWhiteSpace w = true -> trimStart (w ++ s) = trimStart s.
Proof.
  induction w as [|c w IH]; simpl; [reflexivity|].
  rewrite andb_true_iff. intros [-> H]. apply IH, H.
Qed.

Lemma trimStart_app_nonblank (p s : jsstring) :
  forallb isWhiteSpace p = false ->
  exists c r, trimStart p = c :: r /\ isWhiteSpace c = false /\ In c p
              /\ trimStart (p ++ s) = c :: r ++ s.
Proof.
  induction p as [|x p IH]; simpl; [discriminate|].
  destruct (isWhiteSpace x) eqn:Hx; simpl.
  - intros H. destruct (IH H) as (c & r & H1 & H2 & H3 & H4).
    exists c, r. auto.
  - intros _. exists x, p. auto.
Qed.

Lemma trimEnd_cons (c : N) (u : jsstring) :
  isWhiteSpace c = false -> exists r, trimEnd (c :: u) = c :: r.
Proof.
  intros Hc. destruct (trimEnd_decomp (c :: u)) as (w & Hw & Hall).
  destruct (trimEnd (c :: u)) as [|c' r].
  - simpl in Hw. subst w. simpl in Hall. rewrite Hc in Hall. discriminate.
  - inversion Hw; subst. eauto.
Qed.

Lemma rev_trimEnd (u : jsstring) : rev (trimEnd u) = trimStart (rev u).
Proof. unfold trimEnd. apply rev_involutive. Qed.

Lemma forallb_rev_eq (f : N -> bool) (l : jsstring) :
  forallb f (rev l) = forallb f l.
Proof.
  induction l as [|x l IH]; simpl; [reflexivity|].
  rewrite forallb_app, IH. simpl. rewrite andb_true_r. apply andb_comm.
Qed.

Lemma trim_braces (mid : jsstring) :
  trim (123%N :: mid ++ [125%N]) = 123%N :: mid ++ [125%N].
Proof.
  apply trim_id; [reflexivity|].
  unfold lastOk. change (123%N :: mid ++ [125%N]) with ((123%N :: mid) ++ [125%N]).
  rewrite rev_app_distr. reflexivity.
Qed.

Lemma startsWith_single (c x : N) (r : jsstring) :
  startsWith (c :: r) [x] = (x =? c)%N.
Proof. cbn [startsWith]. apply andb_true_r. Qed.

(** Text before the object that is not blank and has no opening brace keeps
    the trimmed input from starting with one. *)
Lemma prose_before (pre rest : jsstring) :
  ~ In 123%N pre -> forallb isWhiteSpace pre = false ->
  startsWith (trim (pre ++ rest)) (js "{") = false.
Proof.
  intros Hno Hnb.
  destruct (trimStart_app_nonblank pre rest Hnb) as (c & r & _ & Hc & Hin & Heq).
  unfold trim. rewrite Heq.
  destruct (trimEnd_cons c (r ++ rest) Hc) as (r' & ->).
  change (js "{") with [123%N]. rewrite startsWith_single.
  destruct (N.eqb_spec 123 c) as [<-|_]; [contradiction | reflexivity].
Qed.

(** Text after the object that is not blank and has no closing brace keeps
    the trimmed input from ending with one. *)
Lemma prose_after (front post : jsstring) :
  forallb isWhiteSpace front = false ->
  ~ In 125%N post -> forallb isWhiteSpace post = false ->
  endsWith (trim (front ++ post)) (js "}") = false.
Proof.
  intros Hf Hno Hnb. unfold endsWith, trim. rewrite rev_trimEnd.
  destruct (trimStart_app_nonblank front post Hf) as (c & r & _ & _ & _ & ->).
  change (c :: r ++ post) with ((c :: r) ++ post). rewrite rev_app_distr.
  rewrite <- forallb_rev_eq in Hnb.
  destruct (trimStart_app_nonblank (rev post) (rev (c :: r)) Hnb)
    as (d & q & _ & _ & Hin & ->).
  change (rev (js "}")) with [125%N]. rewrite startsWith_single.
  destruct (N.eqb_spec 125 d) as [<-|_]; [|reflexivity].
  apply in_rev in Hin. contradiction.
Qed.

Lemma validateJSON_not_braced {E : Engine} (input : jsstring) :
  startsWith (trim input) (js "{") = false
  \/ endsWith (trim input) (js "}") = false ->
  Validation.validateJSON input
  = Validation.invalid
      (js "Content generation failed due to invalid JSON structure: Input must be a JSON object").
Proof.
  intros H. unfold Validation.validateJSON.
  destruct H as [-> | ->]; [reflexivity | rewrite orb_true_r; reflexivity].
Qed.

Lemma validateAndTransform_invalid {E : Engine} (input e : jsstring) :
  Validation.validateJSON input = Validation.invalid e ->
  Validation.validateAndTransform input
  = inr (newContentError (Validation.orText e (js "Invalid JSON structure"))
           INVALID_JSON None).
Proof. intros H. unfold Validation.validateAndTransform. rewrite H. reflexivity. Qed.

(** C1, as the code has it. A text [{ ... }] stands between [pre] and [post],
    where [pre] has no opening brace and [post] no closing brace. The
    social-content validator cuts the text from its first opening brace to its
    last closing brace, so it discards [pre] and [post] and validates as on the
    braced text alone. [Validator.validateJSON] extracts nothing: as soon as
    [pre] or [post] holds a character that is not white space it answers that
    the input must be a JSON object, and [validateAndTransform] throws that as
    [INVALID_JSON]. *)
Theorem C1_prose_around_object (E : Engine) (pre mid post : jsstring)
  (platform : SocialContent.Platform) :
  ~ In 123%N pre -> ~ In 125%N post ->
  let body := 123%N :: mid ++ [125%N] in
  let input := pre ++ body ++ post in
  (SocialContent.stripNonJSON input = body
   /\ SocialContent.validateContent input platform
      = SocialContent.validateContent body platform)
  /\ (forallb isWhiteSpace pre = false \/ forallb isWhiteSpace post = false ->
      Validation.validateJSON input
      = Validation.invalid
          (js "Content generation failed due to invalid JSON structure: Input must be a JSON object")
      /\ Validation.validateAndTransform input
         = inr (newContentError
                  (js "Content generation failed due to invalid JSON structure: Input must be a JSON object")
                  INVALID_JSON None)).
Proof.
  intros Hpre Hpost body input.
  assert (Hstrip : SocialContent.stripNonJSON input = body)
    by (apply stripNonJSON_wrapped; assumption).
  assert (Hself : SocialContent.stripNonJSON body = body).
  { pose proof (stripNonJSON_wrapped [] mid [] (fun H => H) (fun H => H)) as H.
    simpl app in H. rewrite app_nil_r in H. exact H. }
  split; [split; [exact Hstrip|]|].
  - unfold SocialContent.validateContent, SocialContent.parsedObject.
    rewrite Hstrip, Hself. reflexivity.
  - intros Hprose.
    assert (Hbad : startsWith (trim input) (js "{") = false
                   \/ endsWith (trim input) (js "}") = false).
    { destruct Hprose as [Hp | Hp].
      - left. apply prose_before; assumption.
      - right. unfold input. rewrite app_assoc. apply prose_after; try assumption.
        rewrite forallb_app. unfold body. simpl. apply andb_false_r. }
    pose proof (validateJSON_not_braced input Hbad) as HJ.
    split; [exact HJ|].
    rewrite (validateAndTransform_invalid _ HJ). reflexivity.
Qed.

(** The scenario of the specification, a JSON object with the three keys
    between two pieces of prose. *)
Lemma C1_prose_around_object_witness :
  SocialContent.stripNonJSON Examples.wrappedInProse = Examples.wrappedObject
  /\ Validation.validateJSON (E := Examples.exampleEngine) Examples.wrappedInProse
     = Validation.invalid
         (js "Content generation failed due to invalid JSON structure: Input must be a JSON object").
Proof.
  pose proof (@C1_prose_around_object Examples.exampleEngine (js "Sure! ")
                (jsq "'title':'Custom Mug','description':'A mug','tags':'mug,gift'")
                (js "  Hope that helps!") SocialContent.Instagram) as H.
  assert (H1 : ~ In 123%N (js "Sure! ")) by (vm_compute; intuition discriminate).
  assert (H2 : ~ In 125%N (js "  Hope that helps!"))
    by (vm_compute; intuition discriminate).
  destruct (H H1 H2) as [[Ha _] Hb].
  split; [exact Ha|].
  apply Hb. left. reflexivity.
Defined.

(** Against C1 as stated: the object parses and has the three keys, yet with
    the prose around it the structural validation answers invalid. *)
Lemma C1_counterexample :
  JSON.parse Examples.wrappedObject
  = Some (JObject [(js "title", JString (js "Custom Mug"));
                   (js "description", JString (js "A mug"));
                   (js "tags", JString (js "mug,gift"))])
  /\ Validation.validateJSON (E := Examples.exampleEngine) Examples.wrappedInProse
     = Validation.invalid
         (js "Content generation failed due to invalid JSON structure: Input must be a JSON object").
Proof. split; vm_compute; reflexivity. Qed.

(** C2, as the code has it. When the trimmed input parses to an object that lacks
    some of the keys [title], [description] and [tags], the structural step
    fails inside its own [try], and [validateAndTransform] throws a
    [ContentError] with code [INVALID_JSON]; the names of the missing keys,
    in the order [title], [description], [tags], are in the message and the
    [missingFields] of the context stay empty. *)
Theorem C2_missing_keys_are_invalid_json (E : Engine) (input : jsstring)
  (members : list (jsstring * json)) :
  JSON.parse (trim input) = Some (JObject members) ->
  let missing :=
    filter (fun field => negb (has members field)) Validation.requiredFields in
  missing <> [] ->
  exists err,
    Validation.validateAndTransform input = inr err
    /\ code err = INVALID_JSON
    /\ message err
       = js "Content generation failed due to invalid JSON structure: Missing required fields: "
           ++ join (js ", ") missing
    /\ ctxMissingFields (context err) = [].
Proof.
  intros Hp missing Hm.
  destruct (parse_trimmed_object _ Hp) as [Hs He].
  assert (HJ : Validation.validateJSON input
               = Validation.invalid
                   (js "Content generation failed due to invalid JSON structure: "
                      ++ (js "Missing required fields: " ++ join (js ", ") missing))).
  { unfold Validation.validateJSON. rewrite Hs, He, Hp. simpl negb. simpl orb.
    fold missing. destruct missing; [congruence | reflexivity]. }
  eexists. split; [apply validateAndTransform_invalid, HJ|].
  repeat split.
Qed.

Lemma C2_missing_keys_are_invalid_json_witness :
  exists err,
    Validation.validateAndTransform (E := Examples.exampleEngine) Examples.titleOnly
    = inr err
    /\ code err = INVALID_JSON
    /\ message err
       = js "Content generation failed due to invalid JSON structure: Missing required fields: description, tags"
    /\ ctxMissingFields (context err) = [].
Proof.
  apply (@C2_missing_keys_are_invalid_json Examples.exampleEngine Examples.titleOnly
           [(js "title", JString (js "x"))]).
  - vm_compute; reflexivity.
  - vm_compute; discriminate.
Defined.

(** Against C2 as stated: the object has only [title]; the error kind is
    [INVALID_JSON], not [MISSING_INPUT], and the context names no key. *)
Lemma C2_counterexample :
  JSON.parse Examples.titleOnly = Some (JObject [(js "title", JString (js "x"))])
  /\ exists err,
       Validation.validateAndTransform (E := Examples.exampleEngine) Examples.titleOnly
       = inr err
       /\ code err <> MISSING_INPUT
       /\ ctxMissingFields (context err) <> [js "description"; js "tags"].
Proof.
  split; [vm_compute; reflexivity|].
  eexists. split; [vm_compute; reflexivity|].
  split; simpl; discriminate.
Qed.

(** Against C1 on the social side as well: a closing brace in the text
    after the object is taken for the end of the object. *)
Example stripNonJSON_trailing_brace :
  SocialContent.validateContent (E := Examples.exampleEngine)
    (Examples.wrappedObject ++ js " Thanks :}") SocialContent.Instagram = None
  /\ SocialContent.validateContent (E := Examples.exampleEngine)
       Examples.wrappedObject SocialContent.Instagram <> None.
Proof. split; vm_compute; [reflexivity | discriminate]. Qed.

End Structural.

(** ** Schema validation *)

Section SchemaChecks.
Import JS JSON.

Lemma refine_value {A : Type} (ok : A -> bool) (msg : jsstring)
  (s : Zod.Schema A) (v : option json) :
  Zod.value (Zod.refine ok msg s v) = Zod.value (s v).
Proof. unfold Zod.refine. destruct (Zod.value (s v)) eqn:H; [|exact H].
  destruct (ok a); [exact H | reflexivity]. Qed.

Lemma refine_issues {A : Type} (ok : A -> bool) (msg : jsstring)
  (s : Zod.Schema A) (v : option json) (x : A) :
  Zod.value (s v) = Some x ->
  Zod.issues (Zod.refine ok msg s v)
  = Zod.issues (s v) ++ (if ok x then [] else [msg]).
Proof.
  intros H. unfold Zod.refine. rewrite H.
  destruct (ok x); [rewrite app_nil_r|]; reflexivity.
Qed.

(** The schema of services/validation.ts on an object whose three members
    are strings: every check that fails leaves its message, in the order of
    the schema. *)
Lemma validation_schema_collects (members : list (jsstring * json))
  (t d g : jsstring) :
  get members (js "title") = Some (JString t) ->
  get members (js "description") = Some (JString d) ->
  get members (js "tags") = Some (JString g) ->
  Zod.issues (Validation.ContentSchema (Some (JObject members)))
  = (if 1 <=? length t then [] else [js "Title is required"])
    ++ (if length t <=? 50 then []
        else [js "Title must be 50 characters or less"])
    ++ (if Validation.noJsonSyntax t then []
        else [js "Title cannot contain JSON syntax"])
    ++ (if 150 <=? length d then []
        else [js "Description must be at least 150 characters"])
    ++ (if length d <=? 200 then []
        else [js "Description must be 200 characters or less"])
    ++ (if Validation.noJsonSyntax d then []
        else [js "Description cannot contain JSON syntax"])
    ++ (if (4 <=? length (Validation.splitTags g))
           && (length (Validation.splitTags g) <=? 12) then []
        else [js "Must have between 4 and 12 tags"])
    ++ (if forallb (fun tag => 0 <? length (trim tag)) (Validation.splitTags g)
        then [] else [js "Tags cannot be empty"]).
Proof.
  intros Ht Hd Hg.
  unfold Validation.ContentSchema, Zod.object, Zod.merge3, Zod.field.
  cbn [Zod.issues]. rewrite Ht, Hd, Hg.
  unfold Validation.titleSchema, Validation.descriptionSchema,
    Validation.tagsSchema, Zod.max, Zod.min.
  assert (Hs : forall x, Zod.string (Some (JString x)) = Zod.OK x)
    by reflexivity.
  assert (Hu : Zod.transform
                 (fun val => match val with
                             | inl s0 => Validation.splitTags s0
                             | inr l => l
                             end)
                 (Zod.union Zod.string Zod.arrayOfString) (Some (JString g))
               = Zod.OK (Validation.splitTags g)) by reflexivity.
  repeat (erewrite refine_issues;
          [| repeat rewrite refine_value; first [rewrite Hs | rewrite Hu];
             reflexivity]).
  rewrite Hs, Hu. cbn [Zod.issues Zod.OK app].
  rewrite <- !app_assoc. reflexivity.
Qed.

(** The hand-written [validateOutput] of services/validation/index.ts on an
    object with the three keys and an acceptable title: once the description
    is out of bounds, that is all it reports, whatever the tags are. *)
Lemma validateOutput_description_only (members : list (jsstring * json))
  (t d : jsstring) (g : json) :
  get members (js "title") = Some (JString t) ->
  get members (js "description") = Some (JString d) ->
  get members (js "tags") = Some g ->
  0 < length t <= 50 ->
  length d < 150 \/ 200 < length d ->
  ValidationIndex.validateOutput (Some (JObject members))
  = Validation.invalid
      (js "Description must be between 150 and 200 characters").
Proof.
  intros Ht Hd Hg Hlt Hld. unfold ValidationIndex.validateOutput.
  unfold Validation.requiredFields, has. cbn [filter].
  rewrite Ht, Hd, Hg. cbn [negb length].
  change (0 <? 0) with false. cbv iota.
  unfold ValidationIndex.VALIDATION_RULES.output.title.maxLength,
    ValidationIndex.VALIDATION_RULES.output.description.minLength,
    ValidationIndex.VALIDATION_RULES.output.description.maxLength.
  destruct (Nat.eqb_spec (length t) 0) as [E|_]; [lia|].
  destruct (Nat.ltb_spec 50 (length t)); [lia|]. cbn [orb].
  assert (Hb : (length d <? 150) || (200 <? length d) = true).
  { apply orb_true_iff. destruct Hld as [H' | H'];
      [left | right]; apply Nat.ltb_lt; exact H'. }
  rewrite Hb. reflexivity.
Qed.

(** C3 at the scenario of the specification. The description is too short
    and [tags] is not an array of ten to twelve strings, so two constraints of
    services/validation/index.ts are violated; its [validateOutput] returns at
    the first failing check and reports the description only. On the same
    text the schema of services/validation.ts reports the description and the
    tag count together. *)
Theorem C3_validateOutput_stops_at_first
  : ValidationIndex.validateOutput (Some (JString Examples.scenario1))
    = Validation.invalid
        (js "Description must be between 150 and 200 characters")
    /\ Validation.validateContent (E := Examples.exampleEngine)
         (Some (JString Examples.scenario1))
       = Validation.invalid
           (js "Content validation failed: Description must be at least 150 characters, Must have between 4 and 12 tags").
Proof. split; vm_compute; reflexivity. Qed.

End SchemaChecks.

(** ** The social-content validator *)

Section SocialValidation.
Import JS JSON SocialContent Spec.

(** The brace test of [validateContent] never rejects a text that parses
    to an object: the first steps succeed exactly when the cleaned text
    does. *)
Lemma parsedObject_parse (content : jsstring)
  (parsed : list (jsstring * json)) :
  parsedObject content = Some parsed
  <-> JSON.parse (trim (stripNonJSON content)) = Some (JObject parsed).
Proof.
  unfold parsedObject. split.
  - destruct (negb _ || negb _); [discriminate|].
    destruct (JSON.parse _) as [[]|]; try discriminate.
    intros H; inversion H; reflexivity.
  - intros H. destruct (parse_trimmed_object _ H) as [-> ->].
    rewrite H. reflexivity.
Qed.

Lemma length_truncate (s : jsstring) (n : nat) :
  3 <= n -> n <= length s -> length (truncate s n) = n.
Proof.
  intros H3 Hn. unfold truncate. rewrite substring_0, length_app, length_firstn.
  change (length (js "...")) with 3. lia.
Qed.

Lemma truncate_prefix (s : jsstring) (n : nat) :
  truncate s n = firstn (n - 3) s ++ js "...".
Proof. unfold truncate. rewrite substring_0. reflexivity. Qed.

(** What [validateContent] returns once the text has given an object whose
    title and description are strings with more than white space, and whose
    tags convert to a string. *)
Lemma validateContent_formatted {E : Engine} (content : jsstring)
  (platform : Platform) (parsed : list (jsstring * json))
  (t d text : jsstring) :
  parsedObject content = Some parsed ->
  textMember (get parsed (js "title")) t ->
  textMember (get parsed (js "description")) d ->
  tagText (get parsed (js "tags")) = Some text ->
  validateContent content platform
  = Some {| title :=
              if MAX_TITLE_LENGTH <? length (trim t)
              then truncate (trim t) MAX_TITLE_LENGTH else trim t;
            description :=
              if length (trim d) <? MIN_DESCRIPTION_LENGTH
              then description (DEFAULT_CONTENT platform)
              else if MAX_DESCRIPTION_LENGTH <? length (trim d)
              then truncate (trim d) MAX_DESCRIPTION_LENGTH
              else trim d;
            tags :=
              if negb (truthy (trim text))
              then tags (DEFAULT_CONTENT platform) else trim text |}.
Proof.
  intros Hp [Ht Htn] [Hd Hdn] Hg. unfold validateContent.
  rewrite Hp, Ht, Hd, Hg. cbn [optionalTrim].
  destruct (trim t) as [|c t']; [congruence|].
  destruct (trim d) as [|c' d']; [congruence|].
  reflexivity.
Qed.

Lemma validateContent_rejects {E : Engine} (content : jsstring)
  (platform : Platform) (parsed : list (jsstring * json)) :
  parsedObject content = Some parsed ->
  missingOrBlank (get parsed (js "title"))
  \/ missingOrBlank (get parsed (js "description")) ->
  validateContent content platform = None.
Proof.
  intros Hp H. unfold validateContent. rewrite Hp.
  destruct H as [H | H].
  - destruct H as [-> | [-> | (s & -> & Hs)]]; cbn [optionalTrim];
      [reflexivity | reflexivity | rewrite Hs; reflexivity].
  - destruct (optionalTrim (get parsed (js "title"))) as [[[|c t]|]|];
      try reflexivity.
    destruct H as [-> | [-> | (s & -> & Hs)]]; cbn [optionalTrim];
      [reflexivity | reflexivity | rewrite Hs; reflexivity].
Qed.

(** C4, as the code has it. The validator trims the title before it measures
    it. When the trimmed title is longer than 40 code units the returned
    title is its first 37 code units followed by three dots: 40 code units
    in all. *)
Theorem C4_long_title_truncated (E : Engine) (content : jsstring)
  (platform : Platform) (parsed : list (jsstring * json))
  (t d text : jsstring) :
  parsedObject content = Some parsed ->
  get parsed (js "title") = Some (JString t) ->
  textMember (get parsed (js "description")) d ->
  tagText (get parsed (js "tags")) = Some text ->
  MAX_TITLE_LENGTH < length (trim t) ->
  exists r,
    validateContent content platform = Some r
    /\ title r = firstn (MAX_TITLE_LENGTH - 3) (trim t) ++ js "..."
    /\ length (title r) = MAX_TITLE_LENGTH
    /\ endsWith (title r) (js "...") = true.
Proof.
  intros Hp Ht Hd Hg Hlen.
  assert (Htm : textMember (get parsed (js "title")) t).
  { split; [exact Ht|]. intros H. rewrite H in Hlen. simpl in Hlen. lia. }
  eexists. split; [apply (@validateContent_formatted E content platform parsed t d text Hp Htm Hd Hg)|].
  cbn [title]. apply Nat.ltb_lt in Hlen as Hb. rewrite Hb.
  split; [apply truncate_prefix|].
  split; [apply length_truncate; unfold MAX_TITLE_LENGTH in *; lia|].
  unfold truncate. apply endsWith_app.
Qed.

Lemma C4_long_title_truncated_witness :
  exists r,
    validateContent (E := Examples.exampleEngine)
      (Examples.record Examples.longTitle Examples.plainDescription (js "mug"))
      Instagram = Some r
    /\ title r = repeat 97%N 37 ++ js "..."
    /\ length (title r) = 40
    /\ endsWith (title r) (js "...") = true.
Proof.
  apply (@C4_long_title_truncated Examples.exampleEngine
           (Examples.record Examples.longTitle Examples.plainDescription (js "mug"))
           Instagram
           [(js "title", JString Examples.longTitle);
            (js "description", JString Examples.plainDescription);
            (js "tags", JString (js "mug"))]
           Examples.longTitle Examples.plainDescription (js "mug")).
  - vm_compute; reflexivity.
  - vm_compute; reflexivity.
  - split; vm_compute; [reflexivity | discriminate].
  - vm_compute; reflexivity.
  - vm_compute; lia.
Defined.

(** Against C4 as stated: the title has 45 code units, five of them leading
    spaces. The validator returns the 40 code units that remain after
    trimming, with no ellipsis, and they are not the first 37 code units of
    the title as it was given. *)
Lemma C4_counterexample :
  parsedObject
    (Examples.record Examples.paddedTitle Examples.plainDescription (js "mug"))
  = Some [(js "title", JString Examples.paddedTitle);
          (js "description", JString Examples.plainDescription);
          (js "tags", JString (js "mug"))]
  /\ MAX_TITLE_LENGTH < length Examples.paddedTitle
  /\ exists r,
       validateContent (E := Examples.exampleEngine)
         (Examples.record Examples.paddedTitle Examples.plainDescription
            (js "mug")) Instagram = Some r
       /\ title r = repeat 97%N 40
       /\ endsWith (title r) (js "...") = false
       /\ firstn (MAX_TITLE_LENGTH - 3) (title r)
          <> firstn (MAX_TITLE_LENGTH - 3) Examples.paddedTitle.
Proof.
  split; [vm_compute; reflexivity|].
  split; [vm_compute; lia|].
  eexists. split; [vm_compute; reflexivity|].
  split; [reflexivity|]. split; [reflexivity|]. vm_compute; discriminate.
Qed.

(** C5, as the code has it. The validator trims the description before it
    measures it. Below 100 code units the whole field becomes the description
    of the platform's default record; above 1000 it becomes the first 997 code
    units of the trimmed description followed by three dots; otherwise it is
    the trimmed description. *)
Theorem C5_description_bounds (E : Engine) (content : jsstring)
  (platform : Platform) (parsed : list (jsstring * json))
  (t d text : jsstring) :
  parsedObject content = Some parsed ->
  textMember (get parsed (js "title")) t ->
  textMember (get parsed (js "description")) d ->
  tagText (get parsed (js "tags")) = Some text ->
  exists r,
    validateContent content platform = Some r
    /\ (length (trim d) < MIN_DESCRIPTION_LENGTH ->
        description r = description (DEFAULT_CONTENT platform))
    /\ (MAX_DESCRIPTION_LENGTH < length (trim d) ->
        description r
        = firstn (MAX_DESCRIPTION_LENGTH - 3) (trim d) ++ js "..."
        /\ length (description r) = MAX_DESCRIPTION_LENGTH)
    /\ (MIN_DESCRIPTION_LENGTH <= length (trim d) <= MAX_DESCRIPTION_LENGTH ->
        description r = trim d).
Proof.
  intros Hp Ht Hd Hg.
  eexists. split;
    [apply (@validateContent_formatted E content platform parsed t d text
              Hp Ht Hd Hg)|].
  cbn [description]. unfold MIN_DESCRIPTION_LENGTH, MAX_DESCRIPTION_LENGTH.
  repeat split.
  - intros H. apply Nat.ltb_lt in H. rewrite H. reflexivity.
  - destruct (Nat.ltb_spec (length (trim d)) 100); [lia|].
    apply Nat.ltb_lt in H. rewrite H. apply truncate_prefix.
  - destruct (Nat.ltb_spec (length (trim d)) 100); [lia|].
    apply Nat.ltb_lt in H as Hb. rewrite Hb. apply length_truncate; lia.
  - intros [H1 H2].
    destruct (Nat.ltb_spec (length (trim d)) 100); [lia|].
    destruct (Nat.ltb_spec 1000 (length (trim d))); [lia|]. reflexivity.
Qed.

Lemma C5_description_bounds_witness :
  exists r,
    validateContent (E := Examples.exampleEngine)
      (Examples.record (js "Mug") Examples.longDescription (js "mug"))
      Pinterest = Some r
    /\ description r = repeat 97%N 997 ++ js "..."
    /\ length (description r) = 1000.
Proof.
  destruct (@C5_description_bounds Examples.exampleEngine
              (Examples.record (js "Mug") Examples.longDescription (js "mug"))
              Pinterest
              [(js "title", JString (js "Mug"));
               (js "description", JString Examples.longDescription);
               (js "tags", JString (js "mug"))]
              (js "Mug") Examples.longDescription (js "mug"))
    as (r & Hr & _ & Hlong & _).
  - vm_compute; reflexivity.
  - split; vm_compute; [reflexivity | discriminate].
  - split; vm_compute; [reflexivity | discriminate].
  - vm_compute; reflexivity.
  - exists r. split; [exact Hr|]. apply Hlong. vm_compute. lia.
Defined.

(** Against C5 as stated: the description has 1001 code units, the first a
    space. It is longer than the maximum, yet the validator returns the 1000
    code units left after trimming, without ellipsis. *)
Lemma C5_counterexample :
  parsedObject
    (Examples.record (js "Mug") Examples.paddedDescription (js "mug"))
  = Some [(js "title", JString (js "Mug"));
          (js "description", JString Examples.paddedDescription);
          (js "tags", JString (js "mug"))]
  /\ MAX_DESCRIPTION_LENGTH < length Examples.paddedDescription
  /\ exists r,
       validateContent (E := Examples.exampleEngine)
         (Examples.record (js "Mug") Examples.paddedDescription (js "mug"))
         Pinterest = Some r
       /\ description r = repeat 97%N 1000
       /\ endsWith (description r) (js "...") = false.
Proof.
  split; [vm_compute; reflexivity|].
  split; [vm_compute; lia|].
  eexists. split; [vm_compute; reflexivity|].
  split; [reflexivity|]. vm_compute; reflexivity.
Qed.

Lemma tagText_missingOrBlank {E : Engine} (v : option json) :
  missingOrBlank v -> exists text, tagText v = Some text /\ trim text = [].
Proof.
  intros [-> | [-> | (s & -> & Hs)]].
  - exists []. split; reflexivity.
  - exists []. split; reflexivity.
  - unfold tagText. cbn [toBoolean toString].
    destruct s as [|c s]; cbn [truthy].
    + exists []. split; reflexivity.
    + exists (c :: s). split; [reflexivity | exact Hs].
Qed.

(** C9. At the entry point of the social-content validation, an object whose
    title or description is missing, [null] or made of white space only is
    rejected: the validator returns [null] and the formatting step answers
    with the default record of the platform. With a title and a description
    in place, a [tags] member that is missing, [null], empty or blank is no
    failure: the validator succeeds and the tags are the default tag string
    of the platform. *)
Theorem C9_required_text_optional_tags (E : Engine) (content : jsstring)
  (platform : Platform) (parsed : list (jsstring * json)) :
  parsedObject content = Some parsed ->
  (missingOrBlank (get parsed (js "title"))
   \/ missingOrBlank (get parsed (js "description")) ->
   validateContent content platform = None
   /\ processResponse content platform
      = {| sc_description := description (DEFAULT_CONTENT platform);
           hashtags := tags (DEFAULT_CONTENT platform) |})
  /\ (forall t d,
        textMember (get parsed (js "title")) t ->
        textMember (get parsed (js "description")) d ->
        missingOrBlank (get parsed (js "tags")) ->
        exists r,
          validateContent content platform = Some r
          /\ tags r = tags (DEFAULT_CONTENT platform)).
Proof.
  intros Hp. split.
  - intros H.
    pose proof (@validateContent_rejects E content platform parsed Hp H) as Hn.
    split; [exact Hn|]. unfold processResponse. rewrite Hn. reflexivity.
  - intros t d Ht Hd Hg.
    destruct (tagText_missingOrBlank Hg) as (text & Htext & Hblank).
    eexists. split;
      [apply (@validateContent_formatted E content platform parsed t d text
                Hp Ht Hd Htext)|].
    cbn [tags]. rewrite Hblank. reflexivity.
Qed.

Lemma C9_required_text_optional_tags_witness :
  (validateContent (E := Examples.exampleEngine)
     (jsq "{'title':'   ','description':'A mug','tags':'mug'}") Facebook = None)
  /\ exists r,
       validateContent (E := Examples.exampleEngine)
         (jsq "{'title':'Mug','description':'A mug'}") Facebook = Some r
       /\ tags r = js "optimized, facebook, social, seo, design, creative".
Proof.
  split.
  - apply (@C9_required_text_optional_tags Examples.exampleEngine
             (jsq "{'title':'   ','description':'A mug','tags':'mug'}") Facebook
             [(js "title", JString (js "   "));
              (js "description", JString (js "A mug"));
              (js "tags", JString (js "mug"))]).
    + vm_compute; reflexivity.
    + left. right. right. exists (js "   "). split; vm_compute; reflexivity.
  - apply (@C9_required_text_optional_tags Examples.exampleEngine
             (jsq "{'title':'Mug','description':'A mug'}") Facebook
             [(js "title", JString (js "Mug"));
              (js "description", JString (js "A mug"))])
      with (t := js "Mug") (d := js "A mug").
    + vm_compute; reflexivity.
    + split; vm_compute; [reflexivity | discriminate].
    + split; vm_compute; [reflexivity | discriminate].
    + left. vm_compute; reflexivity.
Defined.

End SocialValidation.

(** ** The Instagram description *)

Section InstagramDescription.
Import JS InstagramContent.
Import INSTAGRAM_CONSTRAINTS.

Lemma hasAny_app_r (words : list jsstring) (a b : jsstring) :
  hasAny words a = true -> hasAny words (a ++ b) = true.
Proof.
  unfold hasAny. rewrite !existsb_exists. intros (w & Hw & H).
  exists w. split; [exact Hw|]. rewrite toLowerCase_app.
  apply includes_app_r, H.
Qed.

Lemma hasAny_app_l (words : list jsstring) (a b : jsstring) :
  hasAny words b = true -> hasAny words (a ++ b) = true.
Proof.
  unfold hasAny. rewrite !existsb_exists. intros (w & Hw & H).
  exists w. split; [exact Hw|]. rewrite toLowerCase_app.
  apply includes_app_l, H.
Qed.

(** [validateDescription] throws on the empty string only, and what it
    returns holds a call-to-action phrase. *)
Lemma validateDescription_cases (d : jsstring) :
  match validateDescription d with
  | inl r => hasAny description.requiredElements.cta r = true
  | inr _ => d = []
  end.
Proof.
  unfold validateDescription.
  destruct d as [|c0 d0]; [reflexivity|].
  cbn [truthy negb].
  remember (c0 :: d0) as d eqn:Hd. clear Hd.
  remember (if description.maxLength <? length (trim d)
            then substring (trim d) 0 (description.maxLength - 3) ++ js "..."
            else trim d) as truncated eqn:Ht.
  clear Ht.
  destruct (hasAny description.requiredElements.cta truncated) eqn:Hc;
    destruct (hasAny description.requiredElements.emotional truncated);
    destruct (hasAny description.requiredElements.personalization truncated);
    destruct (hasAny description.requiredElements.benefits truncated);
    cbv beta iota delta [negb orb andb];
    match goal with
    | |- context [if ?b then _ else _] => destruct b
    end;
    first
      [ exact Hc
      | apply hasAny_app_l; reflexivity
      | repeat apply hasAny_app_r; exact Hc
      | rewrite app_assoc; apply hasAny_app_l;
        repeat apply hasAny_app_r; exact Hc
      | do 3 apply hasAny_app_l; reflexivity ].
Qed.

Lemma startsWith_app_disjoint (w x y : jsstring) :
  (forall c, In c w -> ~ In c y) ->
  startsWith (x ++ y) w = startsWith x w.
Proof.
  revert x. induction w as [|c w IH]; intros x Hd; [destruct x; reflexivity|].
  destruct x as [|a x]; simpl.
  - destruct y as [|b y]; [reflexivity|].
    destruct (N.eqb_spec c b) as [->|]; [|reflexivity].
    exfalso. apply (Hd b); left; reflexivity.
  - rewrite IH; [reflexivity|].
    intros c' Hc'. apply Hd. right. exact Hc'.
Qed.

Lemma includes_app_disjoint (w x y : jsstring) :
  (forall c, In c w -> ~ In c y) -> w <> [] ->
  includes (x ++ y) w = includes x w.
Proof.
  intros Hd Hw. induction x as [|a x IH].
  - destruct w as [|c w]; [congruence|].
    simpl app. destruct (includes y (c :: w)) eqn:Hi.
    + apply includes_iff in Hi. destruct Hi as (p & q & ->).
      exfalso. apply (Hd c); [left; reflexivity|].
      apply in_or_app. right. left. reflexivity.
    + reflexivity.
  - simpl app. rewrite (includes_unfold (a :: x ++ y)), (includes_unfold (a :: x)).
    rewrite IH. change (a :: x ++ y) with ((a :: x) ++ y).
    rewrite startsWith_app_disjoint by exact Hd. reflexivity.
Qed.

Lemma includes_firstn (n : nat) (s w : jsstring) :
  includes (toLowerCase (firstn n s)) w = true ->
  includes (toLowerCase s) w = true.
Proof.
  intros H. rewrite <- (firstn_skipn n s), toLowerCase_app.
  apply includes_app_r, H.
Qed.

Lemma includes_trim (s w : jsstring) :
  includes (toLowerCase (trim s)) w = true ->
  includes (toLowerCase s) w = true.
Proof.
  intros H. destruct (trim_decomp s) as (w1 & w2 & Hs & _).
  rewrite Hs, !toLowerCase_app.
  apply includes_app_l, includes_app_r, H.
Qed.

(** A word without a full stop that the description lacks is not in its
    cut either: the three stops that mark the cut cannot complete it. *)
Lemma hasAny_truncated (words : list jsstring) (d : jsstring) (n : nat) :
  forallb (fun w => truthy w && forallb (fun c => negb (c =? 46)%N) w) words
  = true ->
  hasAny words d = false ->
  hasAny words (firstn n (trim d) ++ js "...") = false.
Proof.
  intros Hw Hd. unfold hasAny in *.
  destruct (existsb _ words) eqn:Hex in |- *; [|reflexivity].
  exfalso. apply existsb_exists in Hex. destruct Hex as (w & Hin & Hi).
  rewrite forallb_forall in Hw. specialize (Hw w Hin).
  apply andb_true_iff in Hw. destruct Hw as [Hne Hdots].
  rewrite toLowerCase_app in Hi.
  rewrite includes_app_disjoint in Hi.
  - apply includes_firstn, includes_trim in Hi.
    assert (Ht : existsb (fun word => includes (toLowerCase d) word) words
                 = true).
    { apply existsb_exists. exists w. split; assumption. }
    congruence.
  - intros c Hc Hdot. rewrite forallb_forall in Hdots.
    specialize (Hdots c Hc).
    change (toLowerCase (js "...")) with [46%N; 46%N; 46%N] in Hdot.
    simpl in Hdot.
    destruct Hdot as [<-|[<-|[<-|[]]]]; discriminate.
  - destruct w; [discriminate|congruence].
Qed.

(** A description that is too long and lacks every required element:
    the cut to 147 code units and three full stops comes first, and the
    three repair sentences follow it. *)
Lemma validateDescription_long_lacking (d : jsstring) :
  description.maxLength < length (trim d) ->
  hasAny description.requiredElements.emotional d = false ->
  hasAny description.requiredElements.personalization d = false ->
  hasAny description.requiredElements.benefits d = false ->
  hasAny description.requiredElements.cta d = false ->
  validateDescription d
  = inl (firstn (description.maxLength - 3) (trim d) ++ js "..."
           ++ js " Make your space special with a personalized touch! "
           ++ sparkles
           ++ js " Premium quality guaranteed. " ++ glowingStar
           ++ js " Order now! " ++ palette).
Proof.
  intros Hlen He Hp Hb Hc.
  pose proof (@hasAny_truncated description.requiredElements.emotional d
                (description.maxLength - 3) eq_refl He) as He'.
  pose proof (@hasAny_truncated description.requiredElements.personalization d
                (description.maxLength - 3) eq_refl Hp) as Hp'.
  pose proof (@hasAny_truncated description.requiredElements.benefits d
                (description.maxLength - 3) eq_refl Hb) as Hb'.
  pose proof (@hasAny_truncated description.requiredElements.cta d
                (description.maxLength - 3) eq_refl Hc) as Hc'.
  unfold validateDescription.
  destruct d as [|c0 d0]; [rewrite trim_nil in Hlen; simpl in Hlen; lia|].
  cbn [truthy negb].
  remember (c0 :: d0) as d eqn:Hd. clear Hd.
  apply Nat.ltb_lt in Hlen. rewrite Hlen, substring_0.
  rewrite He', Hp', Hb', Hc'. cbn [negb orb].
  match goal with
  | |- inl (if negb (includes ?w sparkles) && _ then _ else _) = _ =>
      assert (Hs : includes w sparkles = true)
  end.
  { do 2 apply includes_app_r. do 2 apply includes_app_l. reflexivity. }
  rewrite Hs. cbn [negb andb]. rewrite <- !app_assoc. reflexivity.
Qed.

(** Whatever a description that is too long holds, the result holds its
    cut of 150 code units, with at most the pictograph and a space before
    it, and whatever is appended comes after it. *)
Lemma validateDescription_long_shape (d : jsstring) :
  description.maxLength < length (trim d) ->
  exists before after,
    validateDescription d
    = inl (before ++ (firstn (description.maxLength - 3) (trim d) ++ js "...")
             ++ after)
    /\ (before = [] \/ before = sparkles ++ js " ").
Proof.
  intros Hlen. unfold validateDescription.
  destruct d as [|c0 d0]; [rewrite trim_nil in Hlen; simpl in Hlen; lia|].
  cbn [truthy negb].
  remember (c0 :: d0) as d eqn:Hd. clear Hd.
  apply Nat.ltb_lt in Hlen. rewrite Hlen, substring_0.
  remember (firstn (description.maxLength - 3) (trim d) ++ js "...")
    as truncated eqn:Ht.
  clear Ht Hlen.
  destruct (hasAny description.requiredElements.cta truncated);
    destruct (hasAny description.requiredElements.emotional truncated);
    destruct (hasAny description.requiredElements.personalization truncated);
    destruct (hasAny description.requiredElements.benefits truncated);
    cbv beta iota delta [negb orb andb];
    match goal with
    | |- context [if ?b then _ else _] => destruct b
    end;
    first
      [ exists [], []; split; [rewrite app_nil_r; reflexivity | left; reflexivity]
      | exists (sparkles ++ js " "), [];
        split; [rewrite app_nil_r; reflexivity | right; reflexivity]
      | exists []; eexists;
        split; [rewrite <- ?app_assoc; reflexivity | left; reflexivity]
      | exists (sparkles ++ js " "); eexists;
        split; [rewrite <- ?app_assoc; reflexivity | right; reflexivity] ].
Qed.

(** C10. The repair sentences are appended after the cut to 150 code
    units. For every description that is longer than 150 code units once
    trimmed and has none of the required elements, the result is its first
    147 code units and three full stops, followed by the three repair
    sentences, 248 code units in all; a description of 151 letters [a] is
    one. Whatever a description that is too long holds, the result holds
    its cut of 150 code units and nothing is appended before it but the
    pictograph. And every non-empty description comes back holding one of
    the call-to-action phrases, read without regard to case as the validator
    itself reads it. *)
Theorem C10_repairs_after_truncation :
  (forall d : jsstring,
     description.maxLength < length (trim d) ->
     hasAny description.requiredElements.emotional d = false ->
     hasAny description.requiredElements.personalization d = false ->
     hasAny description.requiredElements.benefits d = false ->
     hasAny description.requiredElements.cta d = false ->
     exists r,
       validateDescription d = inl r
       /\ r = firstn (description.maxLength - 3) (trim d) ++ js "..."
                ++ js " Make your space special with a personalized touch! "
                ++ sparkles
                ++ js " Premium quality guaranteed. " ++ glowingStar
                ++ js " Order now! " ++ palette
       /\ length r = 248
       /\ description.maxLength < length r)
  /\ (exists d : jsstring,
        d <> []
        /\ description.maxLength < length d
        /\ description.maxLength < length (trim d)
        /\ hasAny description.requiredElements.emotional d = false
        /\ hasAny description.requiredElements.personalization d = false
        /\ hasAny description.requiredElements.benefits d = false
        /\ hasAny description.requiredElements.cta d = false)
  /\ (forall d : jsstring,
        description.maxLength < length (trim d) ->
        exists before after,
          validateDescription d
          = inl (before
                   ++ (firstn (description.maxLength - 3) (trim d) ++ js "...")
                   ++ after)
          /\ (before = [] \/ before = sparkles ++ js " "))
  /\ (forall d, d <> [] ->
      exists r,
        validateDescription d = inl r
        /\ hasAny description.requiredElements.cta r = true).
Proof.
  split; [|split; [|split]].
  - intros d Hlen He Hp Hb Hc. eexists.
    split; [apply validateDescription_long_lacking; assumption|].
    split; [reflexivity|].
    assert (Hl : length
                   (firstn (description.maxLength - 3) (trim d) ++ js "..."
                      ++ js " Make your space special with a personalized touch! "
                      ++ sparkles
                      ++ js " Premium quality guaranteed. " ++ glowingStar
                      ++ js " Order now! " ++ palette) = 248).
    { rewrite length_app, firstn_length_le
        by (unfold description.maxLength in *; lia).
      reflexivity. }
    rewrite Hl. unfold description.maxLength. split; [reflexivity | lia].
  - exists (repeat 97%N 151).
    split; [discriminate|].
    split; [vm_compute; lia|].
    split; [vm_compute; lia|].
    repeat split; vm_compute; reflexivity.
  - apply validateDescription_long_shape.
  - intros d Hd. pose proof (validateDescription_cases d) as H.
    destruct (validateDescription d) as [r|e]; [|contradiction].
    exists r. split; [reflexivity | exact H].
Qed.

Lemma C10_repairs_after_truncation_witness :
  exists r,
    validateDescription (repeat 97%N 151) = inl r
    /\ r = repeat 97%N 147 ++ js "..."
             ++ js " Make your space special with a personalized touch! "
             ++ sparkles
             ++ js " Premium quality guaranteed. " ++ glowingStar
             ++ js " Order now! " ++ palette
    /\ length r = 248
    /\ description.maxLength < length r.
Proof.
  apply (proj1 C10_repairs_after_truncation (repeat 97%N 151)).
  - vm_compute; lia.
  - vm_compute; reflexivity.
  - vm_compute; reflexivity.
  - vm_compute; reflexivity.
  - vm_compute; reflexivity.
Defined.

End InstagramDescription.

(** ** Hashtags *)

Section Hashtags.
Import JS SocialContent Spec.

Lemma split_no_sep (sep : N) (s : jsstring) :
  ~ In sep s -> split sep s = [s].
Proof.
  induction s as [|c s IH]; simpl; intros H; [reflexivity|].
  destruct (N.eqb_spec c sep) as [->|_]; [exfalso; auto|].
  rewrite IH by tauto. reflexivity.
Qed.

Lemma split_pieces (sep : N) (s p : jsstring) :
  In p (split sep s) -> ~ In sep p.
Proof.
  revert p. induction s as [|c s IH]; simpl; intros p.
  - intros [<- | []]. auto.
  - destruct (N.eqb_spec c sep) as [->|Hc].
    + intros [<- | H]; [auto | apply IH, H].
    + destruct (split sep s) as [|q qs].
      * intros [<- | []]. simpl. intuition.
      * intros [<- | H].
        -- simpl. intros [E | E]; [congruence|]. revert E. apply IH. left; reflexivity.
        -- apply IH. right; exact H.
Qed.

Lemma trim_In (c : N) (s : jsstring) : In c (trim s) -> In c s.
Proof.
  intros H. destruct (trim_decomp s) as (w1 & w2 & E & _).
  rewrite E. apply in_or_app. right. apply in_or_app. left. exact H.
Qed.

Lemma headOk_app (a b : jsstring) : headOk a -> a <> [] -> headOk (a ++ b).
Proof. destruct a; simpl; [congruence | auto]. Qed.

Lemma lastOk_app (a b : jsstring) : lastOk b -> b <> [] -> lastOk (a ++ b).
Proof.
  unfold lastOk. intros H Hb. rewrite rev_app_distr. apply headOk_app; [exact H|].
  intros E. apply Hb. rewrite <- (rev_involutive b), E. reflexivity.
Qed.

Lemma tagOk_nonempty (e : jsstring) : tagOk e -> e <> [].
Proof. intros [H _] ->. discriminate. Qed.

Lemma tagOk_headOk (e : jsstring) : tagOk e -> headOk e.
Proof.
  intros [H _]. apply startsWith_iff in H as [r ->]. reflexivity.
Qed.

Lemma hashPrefix_tagOk (tag : jsstring) :
  tag <> [] -> lastOk tag -> ~ In 44%N tag -> tagOk (hashPrefix tag).
Proof.
  intros Hne Hl Hc. unfold hashPrefix.
  destruct (startsWith tag (js "#")) eqn:Hs.
  - repeat split; assumption.
  - repeat split.
    + apply (lastOk_app (js "#") Hl Hne).
    + simpl. intros [E | E]; [discriminate | auto].
Qed.

Lemma cleaned_tagOk (t : jsstring) :
  Forall tagOk (map hashPrefix (filter truthy (map trim (split 44 t)))).
Proof.
  apply Forall_forall. intros e He.
  apply in_map_iff in He as (x & <- & Hx).
  apply filter_In in Hx as [Hx Htr].
  apply in_map_iff in Hx as (p & <- & Hp).
  apply hashPrefix_tagOk.
  - intros E. rewrite E in Htr. discriminate.
  - apply trim_lastOk.
  - intros H. apply trim_In in H. revert H. eapply split_pieces, Hp.
Qed.

Lemma join_tagOk (l : list jsstring) :
  Forall tagOk l -> l <> [] -> tagOk (join (js " ") l).
Proof.
  induction l as [|e l IH]; [congruence|]. intros H _.
  inversion H as [|? ? He Hl]; subst.
  destruct l as [|e' l]; [exact He|].
  assert (Hj : tagOk (join (js " ") (e' :: l))) by (apply IH; [exact Hl | discriminate]).
  change (join (js " ") (e :: e' :: l))
    with (e ++ js " " ++ join (js " ") (e' :: l)).
  destruct He as (Hs & _ & Hc). destruct Hj as (Hjs & Hjl & Hjc).
  repeat split.
  - apply startsWith_iff in Hs as [r ->]. rewrite <- app_assoc.
    apply startsWith_app.
  - rewrite app_assoc. apply lastOk_app; [exact Hjl|].
    intros E. rewrite E in Hjs. discriminate.
  - intros Hin. apply in_app_or in Hin as [Hin | Hin]; [auto|].
    apply in_app_or in Hin as [Hin | Hin]; [|auto].
    simpl in Hin. destruct Hin as [E | []]. discriminate.
Qed.

Lemma hashtagLine_fixed (j : jsstring) : tagOk j -> hashtagLine j = j.
Proof.
  intros Hj. pose proof (tagOk_headOk Hj) as Hh.
  pose proof (tagOk_nonempty Hj) as Hne.
  destruct Hj as (Hs & Hl & Hc). unfold hashtagLine.
  rewrite split_no_sep by exact Hc. cbn [map].
  rewrite trim_id by assumption.
  destruct j as [|c j]; [congruence|]. cbn [truthy filter map].
  unfold hashPrefix. rewrite Hs. reflexivity.
Qed.

(** Formatting a tag line that is already formatted changes nothing. *)
Lemma hashtagLine_idempotent (t : jsstring) :
  hashtagLine (hashtagLine t) = hashtagLine t.
Proof.
  unfold hashtagLine at 2 3.
  pose proof (cleaned_tagOk t) as Hall.
  destruct (map hashPrefix (filter truthy (map trim (split 44 t))))
    as [|e l] eqn:El.
  - reflexivity.
  - apply hashtagLine_fixed, join_tagOk; [exact Hall | discriminate].
Qed.

Lemma formatContent_hashtags (c : Content) (platform : Platform) :
  hashtags (formatContent (Some c) platform)
  = match platform with
    | Pinterest => tags c
    | _ => hashtagLine (tags c)
    end.
Proof. destruct platform; reflexivity. Qed.

End Hashtags.

(** ** Normalization *)

Section Normalization.
Import JS JSON SocialContent Spec.

Lemma formatContent_description_kept (x : Content) (platform : Platform) :
  hasPictograph (description x) ->
  sc_description (formatContent (Some x) platform) = description x.
Proof.
  intros [H | H]; cbn [formatContent sc_description]; rewrite H;
    [reflexivity | rewrite andb_false_r; reflexivity].
Qed.

Lemma validateDescription_normalized (d : jsstring) :
  normalizedDescription d ->
  InstagramContent.validateDescription d = inl (trim d).
Proof.
  intros (Hne & Hlen & He & Hp & Hb & Hc & Hm).
  unfold InstagramContent.validateDescription.
  destruct d as [|c d]; [congruence|]. cbn [truthy negb].
  apply Nat.ltb_ge in Hlen. rewrite Hlen, He, Hp, Hb, Hc.
  cbn [negb orb].
  destruct Hm as [-> | ->]; [reflexivity | rewrite andb_false_r; reflexivity].
Qed.

Lemma normalizedDescription_trim (d : jsstring) :
  normalizedDescription d -> normalizedDescription (trim d).
Proof.
  intros H. pose proof H as (Hne & Hlen & He & Hp & Hb & Hc & Hm).
  unfold normalizedDescription. rewrite trim_idempotent.
  repeat split; try assumption.
  intros E. rewrite E in Hc. discriminate.
Qed.

(** After one pass the description shows a pictograph, unless the platform
    is Pinterest and there was none before. *)
Lemma formatContent_marks (x : Content) (platform : Platform) :
  hasPictograph (description x) \/ platform <> Pinterest ->
  hasPictograph (sc_description (formatContent (Some x) platform)).
Proof.
  intros H. unfold hasPictograph in *. cbn [formatContent sc_description].
  destruct (includes (description x) sparkles) eqn:E1;
    [left; exact E1|].
  destruct (includes (description x) glowingStar) eqn:E2;
    [right; exact E2|].
  cbn [negb andb].
  destruct H as [[H | H] | H]; try discriminate.
  destruct platform; [left | right | congruence];
    do 2 apply includes_app_l; apply includes_app_r; reflexivity.
Qed.

(** Formatting a record and feeding the result back gives the same result
    again, whatever the tag string, as soon as the description already shows
    one of the two pictographs the formatter looks for, and on Instagram and
    Facebook even without that: their calls to action start with one. *)
Lemma formatContent_refeed (platform : Platform) (x : Content) :
  hasPictograph (description x) \/ platform <> Pinterest ->
  formatContent (Some (refeed x (formatContent (Some x) platform))) platform
  = formatContent (Some x) platform.
Proof.
  intros Hx.
  pose proof (@formatContent_marks x platform Hx) as Hm.
  pose proof (formatContent_hashtags x platform) as Hh.
  destruct (formatContent (Some x) platform) as [d1 h1] eqn:E1.
  cbn [sc_description hashtags] in Hm, Hh.
  pose proof (@formatContent_description_kept
                (refeed x {| sc_description := d1; hashtags := h1 |})
                platform Hm) as Hd2.
  pose proof (formatContent_hashtags
                (refeed x {| sc_description := d1; hashtags := h1 |})
                platform) as Hh2.
  destruct (formatContent _ platform) as [d2 h2] in Hd2, Hh2 |- *.
  cbn [sc_description hashtags refeed description tags] in Hd2, Hh2.
  subst d2. f_equal. rewrite Hh2, Hh.
  destruct platform; try reflexivity; apply hashtagLine_idempotent.
Qed.

(** An Instagram description that shows a pictograph and has nothing to
    repair is returned trimmed, and returned as it is when validated
    again. *)
Lemma validateDescription_fixed (d : jsstring) :
  normalizedDescription d ->
  exists r,
    InstagramContent.validateDescription d = inl r
    /\ InstagramContent.validateDescription r = inl r.
Proof.
  intros Hd. exists (trim d). split.
  - apply validateDescription_normalized, Hd.
  - rewrite validateDescription_normalized
      by (apply normalizedDescription_trim, Hd).
    rewrite trim_idempotent. reflexivity.
Qed.

(** C6. Normalization is not idempotent on every normalized record. The
    Pinterest record [Examples.pinnedContent] is one that the validator
    returns: its fields are within the bounds, its description ends with the
    call to action of Pinterest and its tags are as Pinterest has them. The
    formatter appends the call to action once more, and once more again when
    its result is fed back, so that the second pass differs from the first.
    On Instagram and on Facebook the second pass changes nothing, for every
    record: their calls to action start with a pictograph that the formatter
    looks for, the one of Pinterest does not. Likewise the Instagram
    description [Examples.completeDescription], of 150 code units with every
    required element, comes back with a pictograph in front and 152 code
    units, and a second pass cuts it, loses its call to action and appends
    another, giving 164 code units. *)
Theorem C6_pinterest_call_to_action_repeats :
  validateContent (E := Examples.exampleEngine) Examples.pinnedText Pinterest
  = Some Examples.pinnedContent
  /\ length (title Examples.pinnedContent) <= MAX_TITLE_LENGTH
  /\ MIN_DESCRIPTION_LENGTH <= length (description Examples.pinnedContent)
     <= MAX_DESCRIPTION_LENGTH
  /\ endsWith (description Examples.pinnedContent) (callToAction Pinterest)
     = true
  /\ (let once := formatContent (Some Examples.pinnedContent) Pinterest in
      let twice :=
        formatContent (Some (refeed Examples.pinnedContent once)) Pinterest in
      sc_description once
      = description Examples.pinnedContent ++ [10; 10]%N
          ++ callToAction Pinterest
      /\ hashtags once = tags Examples.pinnedContent
      /\ sc_description twice
         = sc_description once ++ [10; 10]%N ++ callToAction Pinterest
      /\ length (description Examples.pinnedContent) = 148
      /\ length (sc_description once) = 176
      /\ length (sc_description twice) = 204
      /\ twice <> once)
  /\ (forall x : Content,
        formatContent (Some (refeed x (formatContent (Some x) Instagram)))
          Instagram
        = formatContent (Some x) Instagram)
  /\ (forall x : Content,
        formatContent (Some (refeed x (formatContent (Some x) Facebook)))
          Facebook
        = formatContent (Some x) Facebook)
  /\ (exists r1 r2,
        InstagramContent.validateDescription Examples.completeDescription
        = inl r1
        /\ r1 = InstagramContent.sparkles ++ js " "
                  ++ Examples.completeDescription
        /\ InstagramContent.validateDescription r1 = inl r2
        /\ length Examples.completeDescription = 150
        /\ length r1 = 152
        /\ length r2 = 164
        /\ r2 <> r1).
Proof.
  split; [vm_compute; reflexivity|].
  split; [vm_compute; lia|].
  split; [vm_compute; lia|].
  split; [vm_compute; reflexivity|].
  split.
  { cbv zeta.
    split; [vm_compute; reflexivity|].
    split; [vm_compute; reflexivity|].
    split; [vm_compute; reflexivity|].
    split; [vm_compute; reflexivity|].
    split; [vm_compute; reflexivity|].
    split; [vm_compute; reflexivity|].
    intros H.
    apply (f_equal (fun r => length (sc_description r))) in H.
    vm_compute in H. discriminate. }
  split; [intros x; apply formatContent_refeed; right; discriminate|].
  split; [intros x; apply formatContent_refeed; right; discriminate|].
  eexists. eexists.
  split; [vm_compute; reflexivity|].
  split; [vm_compute; reflexivity|].
  split; [vm_compute; reflexivity|].
  split; [vm_compute; reflexivity|].
  split; [vm_compute; reflexivity|].
  split; [vm_compute; reflexivity|].
  intros H. apply (f_equal (@length N)) in H. vm_compute in H. discriminate.
Qed.

(** C8, as the code has it. For Instagram and Facebook the tag line is made
    of the trimmed, non-empty comma-separated tags, each with a hash sign in
    front unless it starts with one, joined by single spaces. For Pinterest
    the tag string is returned as it is, and the marketplace record joins its
    tags with a comma and a space. [formatContent] has no maximum count; the
    Instagram hashtag validator, when it accepts a list, returns the first
    fifteen cleaned hashtags in their order. *)
Theorem C8_tag_output :
  (forall (c : Content) (platform : Platform),
     platform <> Pinterest ->
     hashtags (formatContent (Some c) platform)
     = join (js " ")
         (map hashPrefix (filter truthy (map trim (split 44 (tags c)))))
     /\ Forall tagOk
          (map hashPrefix (filter truthy (map trim (split 44 (tags c))))))
  /\ (forall tag : jsstring,
        (startsWith tag (js "#") = true -> hashPrefix tag = tag)
        /\ (startsWith tag (js "#") = false -> hashPrefix tag = js "#" ++ tag))
  /\ (forall c : Content, hashtags (formatContent (Some c) Pinterest) = tags c)
  /\ (forall (g out : jsstring),
        OpenAI.marketplaceTags g = inl out ->
        out = join (js ", ") (OpenAI.longTailTags g)
        /\ incl (OpenAI.longTailTags g) (map trim (split 44 g)))
  /\ (forall (tagList r : list jsstring),
        InstagramContent.validateHashtags tagList = inl r ->
        r = firstn InstagramContent.INSTAGRAM_CONSTRAINTS.hashtags.max
              (map hashPrefix (filter truthy (map trim tagList)))
        /\ length r <= InstagramContent.INSTAGRAM_CONSTRAINTS.hashtags.max).
Proof.
  split; [|split; [|split; [|split]]].
  - intros c platform Hp. split; [|apply cleaned_tagOk].
    destruct platform; [reflexivity | reflexivity | congruence].
  - intros tag. unfold hashPrefix. split; intros ->; reflexivity.
  - reflexivity.
  - intros g out. unfold OpenAI.marketplaceTags.
    destruct (length (OpenAI.longTailTags g) <? 10); [discriminate|].
    intros H. injection H as <-. split; [reflexivity|].
    unfold OpenAI.longTailTags. intros x Hx. apply filter_In in Hx. tauto.
  - intros tagList r. unfold InstagramContent.validateHashtags.
    fold hashPrefix.
    change (fun tag : jsstring => if startsWith tag (js "#") then tag else js "#" ++ tag)
      with hashPrefix.
    set (cleaned := map hashPrefix (filter truthy (map trim tagList))).
    destruct (length cleaned <? _); [discriminate|].
    destruct (0 <? _); [discriminate|].
    unfold InstagramContent.INSTAGRAM_CONSTRAINTS.hashtags.max.
    destruct (Nat.ltb_spec 15 (length cleaned)) as [Hl | Hl]; intros H.
    + assert (Hr : r = firstn 15 cleaned) by congruence.
      split; [exact Hr|]. rewrite Hr. apply firstn_le_length.
    + assert (Hr : r = cleaned) by congruence.
      rewrite Hr. split; [|exact Hl]. symmetry. apply firstn_all2. exact Hl.
Qed.

Lemma C8_tag_output_witness :
  hashtags (formatContent (Some Examples.mugContent) Facebook) = js "#mug #gift".
Proof.
  rewrite (proj1 (proj1 C8_tag_output Examples.mugContent Facebook
                    ltac:(discriminate))).
  vm_compute; reflexivity.
Defined.

(** Against C8 as stated: Pinterest is a social target, and the tags of a
    record that the validator has returned for it come back comma-separated
    and without hash signs. *)
Lemma C8_counterexample :
  validateContent (E := Examples.exampleEngine) Examples.mugText Pinterest
  = Some Examples.mugContent
  /\ hashtags (formatContent (Some Examples.mugContent) Pinterest)
     = js "mug, #gift"
  /\ hashtags
       (processResponse (E := Examples.exampleEngine) Examples.mugText
          Pinterest)
     = js "mug, #gift"
  /\ hashtags (formatContent (Some Examples.mugContent) Pinterest)
     <> js "#mug #gift".
Proof.
  split; [vm_compute; reflexivity|].
  split; [vm_compute; reflexivity|].
  split; [vm_compute; reflexivity|].
  vm_compute; discriminate.
Qed.

End Normalization.

(** ** Uniqueness of tags in the strict schema *)

Section TagUniqueness.
Import JS JSON Schema.

Lemma has_In (s : list jsstring) (x : jsstring) :
  StringSet.has s x = true <-> In x s.
Proof.
  unfold StringSet.has. rewrite existsb_exists. split.
  - intros (y & Hy & E). apply eqb_eq in E. subst. exact Hy.
  - intros H. exists x. split; [exact H | apply eqb_refl].
Qed.

(** Adding the elements of [l] to a set [acc] adds [length l] elements
    exactly when they are pairwise distinct and none of them is in [acc]. *)
Lemma fold_add_length (l acc : list jsstring) :
  length (fold_left StringSet.add l acc) <= length acc + length l
  /\ (length (fold_left StringSet.add l acc) = length acc + length l
      <-> NoDup l /\ forall x, In x l -> ~ In x acc).
Proof.
  revert acc. induction l as [|x l IH]; intros acc; simpl.
  - split; [lia|]. split; [intros _; split; [constructor | tauto] | lia].
  - unfold StringSet.add at 2 4. destruct (StringSet.has acc x) eqn:Hx.
    + apply has_In in Hx. destruct (IH acc) as [Hle _].
      split; [lia|]. split; [lia|].
      intros [_ H]. exfalso. apply (H x); auto.
    + assert (Hn : ~ In x acc)
        by (intros H; apply has_In in H; congruence).
      destruct (IH (acc ++ [x])) as [Hle Hiff].
      rewrite length_app in Hle, Hiff. simpl in Hle, Hiff.
      split; [lia|].
      replace (length acc + S (length l)) with (length acc + 1 + length l)
        by lia.
      rewrite Hiff. split.
      * intros [Hnd H]. split.
        -- constructor; [|exact Hnd]. intros Hin.
           apply (H x Hin). apply in_or_app. right. left. reflexivity.
        -- intros y [<- | Hy]; [exact Hn|]. intros Hacc.
           apply (H y Hy). apply in_or_app. left. exact Hacc.
      * intros [Hnd H]. inversion Hnd as [|? ? Hxl Hnd']; subst.
        split; [exact Hnd'|]. intros y Hy Hin.
        apply in_app_or in Hin as [Hin | [<- | []]].
        -- apply (H y); [right; exact Hy | exact Hin].
        -- contradiction.
Qed.

(** [new Set(tags).size === tags.length] holds exactly when no string occurs
    twice in [tags]. *)
Lemma set_size_NoDup (l : list jsstring) :
  (StringSet.size (StringSet.ofList l) =? length l) = true <-> NoDup l.
Proof.
  rewrite Nat.eqb_eq. unfold StringSet.size, StringSet.ofList.
  destruct (fold_add_length l []) as [_ H]. simpl in H. rewrite H.
  split; [tauto | intros Hn; split; [exact Hn | auto]].
Qed.

Lemma tagsSchema_value (g : jsstring) :
  Zod.value (tagsSchema (Some (JString g))) = Some (Validation.splitTags g).
Proof. unfold tagsSchema. rewrite !refine_value. reflexivity. Qed.

Lemma tagsSchema_issues (g : jsstring) :
  let l := Validation.splitTags g in
  Zod.issues (tagsSchema (Some (JString g)))
  = (if (10 <=? length l) && (length l <=? 12) then []
     else [js "Must have between 10 and 12 tags"])
    ++ (if forallb isValidTag l then []
        else [js "Tags must be between 3-30 characters and contain only letters, numbers, spaces, and hyphens"])
    ++ (if StringSet.size (StringSet.ofList l) =? length l then []
        else [js "Tags must be unique"])
    ++ (if negb (existsb (fun tag => 3 <? length (split 32 tag)) l) then []
        else [js "Tags should not be full sentences"])
    ++ (if hasRequiredTagCategories l then []
        else [js "Tags must cover all required categories: product type, design style, occasion, personalization, emotion, target audience, gifting, and Mother's Day"]).
Proof.
  intros l. unfold tagsSchema.
  assert (Hv : Zod.transform Validation.splitTags Zod.string (Some (JString g))
               = Zod.OK l) by reflexivity.
  repeat (erewrite refine_issues;
          [| repeat rewrite refine_value; rewrite Hv; reflexivity]).
  rewrite Hv. cbn [Zod.issues Zod.OK app].
  rewrite <- !app_assoc. reflexivity.
Qed.

Lemma parse_issues {A : Type} (s : Zod.Schema A) (d : option json) :
  Zod.issues (s d) <> [] -> Zod.parse s d = inr (Zod.issues (s d)).
Proof.
  intros H. unfold Zod.parse.
  destruct (Zod.value (s d)); destruct (Zod.issues (s d));
    try reflexivity; congruence.
Qed.

(** C7, as the code has it. The uniqueness rule of the strict schema compares
    the tags as they are written: the violation named [Tags must be unique]
    is reported exactly when some tag occurs twice in the list of trimmed,
    non-empty tags, and then the validation of the record is invalid with
    that violation among its issues. *)
Theorem C7_duplicate_tags_exact (E : Engine) (g : jsstring) :
  (In (js "Tags must be unique") (Zod.issues (tagsSchema (Some (JString g))))
   <-> ~ NoDup (Validation.splitTags g))
  /\ (forall members : list (jsstring * json),
        get members (js "tags") = Some (JString g) ->
        ~ NoDup (Validation.splitTags g) ->
        exists issues,
          Validator.validateContent (Some (JObject members))
          = Validation.invalid
              (js "Content validation failed: " ++ join (js ", ") issues)
          /\ In (js "Tags must be unique") issues).
Proof.
  assert (Hiff : In (js "Tags must be unique")
                   (Zod.issues (tagsSchema (Some (JString g))))
                 <-> ~ NoDup (Validation.splitTags g)).
  { rewrite tagsSchema_issues. cbv zeta.
    rewrite <- set_size_NoDup.
    set (l := Validation.splitTags g).
    destruct (StringSet.size (StringSet.ofList l) =? length l); split.
    - intros H. exfalso.
      repeat (apply in_app_or in H as [H | H]);
        repeat match type of H with
               | In _ (if ?b then _ else _) => destruct b
               end;
        simpl in H; try tauto;
        destruct H as [H | []]; apply eqb_eq in H; vm_compute in H;
        discriminate.
    - intros H. exfalso. apply H. reflexivity.
    - intros _. discriminate.
    - intros _. apply in_or_app. right. apply in_or_app. right.
      apply in_or_app. left. left. reflexivity. }
  split; [exact Hiff|].
  intros members Hg Hdup.
  apply Hiff in Hdup.
  exists (Zod.issues (ContentSchema (Some (JObject members)))).
  assert (Hin : In (js "Tags must be unique")
                  (Zod.issues (ContentSchema (Some (JObject members))))).
  { unfold ContentSchema, Zod.object, Zod.merge3, Zod.field.
    cbn [Zod.issues]. rewrite Hg.
    apply in_or_app. right. apply in_or_app. right. exact Hdup. }
  split; [|exact Hin].
  unfold Validator.validateContent.
  rewrite parse_issues; [reflexivity|].
  intros Hnil. rewrite Hnil in Hin. exact Hin.
Qed.

Lemma C7_duplicate_tags_exact_witness :
  exists issues,
    Validator.validateContent (E := Examples.exampleEngine)
      (Some (JObject [(js "tags", JString (js "gift,gift"))]))
    = Validation.invalid
        (js "Content validation failed: " ++ join (js ", ") issues)
    /\ In (js "Tags must be unique") issues.
Proof.
  apply (proj2 (C7_duplicate_tags_exact Examples.exampleEngine (js "gift,gift"))).
  - vm_compute; reflexivity.
  - vm_compute. intros H. inversion H as [|? ? Hn _]. apply Hn. left. reflexivity.
Defined.

(** Against C7 as stated: the tags [Gift] and [gift] are equal once their
    case is normalized, and the record that holds both passes the whole
    strict schema. *)
Lemma C7_counterexample :
  toLowerCase (js "Gift") = toLowerCase (js "gift")
  /\ In (js "Gift") (Validation.splitTags Examples.giftTags)
  /\ In (js "gift") (Validation.splitTags Examples.giftTags)
  /\ Validator.validateContent (E := Examples.exampleEngine)
       (Some Examples.giftRecord)
     = Validation.valid
         {| title := Examples.giftTitle;
            description := Examples.giftDescription;
            tags := Validation.splitTags Examples.giftTags |}.
Proof.
  split; [vm_compute; reflexivity|].
  split; [vm_compute; tauto|].
  split; [vm_compute; tauto|].
  vm_compute; reflexivity.
Qed.

End TagUniqueness.

(** ** Structural validation, in both directions *)

Section StructuralExact.
Import JS JSON ErrorHandler.

(** Every message that [validateJSON] returns starts with the same prefix. *)
Lemma validateJSON_error_prefix {E : Engine} (input e : jsstring) :
  Validation.validateJSON input = Validation.invalid e ->
  exists m,
    e = js "Content generation failed due to invalid JSON structure: " ++ m.
Proof.
  unfold Validation.validateJSON.
  destruct (negb (startsWith (trim input) (js "{"))
            || negb (endsWith (trim input) (js "}"))).
  - intros H; inversion H; eexists; reflexivity.
  - destruct (JSON.parse (trim input)) as [d|].
    + destruct d; try (intros H; inversion H; eexists; reflexivity).
      destruct (0 <? length _).
      * intros H; inversion H; eexists; reflexivity.
      * discriminate.
    + intros H; inversion H; eexists; reflexivity.
Qed.

Lemma missing_none (members : list (jsstring * json)) :
  (0 <? length (filter (fun field => negb (has members field))
                  Validation.requiredFields)) = false
  <-> has members (js "title") = true
      /\ has members (js "description") = true
      /\ has members (js "tags") = true.
Proof.
  unfold Validation.requiredFields. simpl filter.
  destruct (has members (js "title")), (has members (js "description")),
    (has members (js "tags")); simpl; split; intros H;
    try discriminate; try tauto;
    destruct H as (H1 & H2 & H3); discriminate.
Qed.

Lemma validateJSON_exact {E : Engine} (input : jsstring)
  (d : json) :
  Validation.validateJSON input = Validation.valid d
  <-> exists members,
        JSON.parse (trim input) = Some (JObject members)
        /\ d = JObject members
        /\ has members (js "title") = true
        /\ has members (js "description") = true
        /\ has members (js "tags") = true.
Proof.
  split.
  - unfold Validation.validateJSON.
    destruct (negb (startsWith (trim input) (js "{"))
              || negb (endsWith (trim input) (js "}"))); [discriminate|].
    destruct (JSON.parse (trim input)) as [v|]; [|discriminate].
    destruct v as [| | | | |members]; try discriminate.
    destruct (0 <? length _) eqn:Hm; [discriminate|].
    intros H; inversion H; subst.
    exists members. split; [reflexivity|]. split; [reflexivity|].
    apply missing_none; exact Hm.
  - intros (members & Hp & -> & Hhas).
    destruct (parse_trimmed_object _ Hp) as [Hs He].
    unfold Validation.validateJSON.
    rewrite Hs, He, Hp. cbn [negb orb].
    apply missing_none in Hhas. rewrite Hhas. reflexivity.
Qed.

(** X1. [validateJSON] accepts a text exactly when the text, trimmed of
    surrounding white space, parses as a JSON object that has the three
    keys [title], [description] and [tags]; the data it returns is that
    object. *)
Theorem X1_validateJSON_accepts_exactly (E : Engine) (input : jsstring)
  (d : json) :
  Validation.validateJSON input = Validation.valid d
  <-> exists members,
        JSON.parse (trim input) = Some (JObject members)
        /\ d = JObject members
        /\ has members (js "title") = true
        /\ has members (js "description") = true
        /\ has members (js "tags") = true.
Proof. apply validateJSON_exact. Qed.

End StructuralExact.

(** ** What [validateAndTransform] returns and throws *)

Section TransformOutcome.
Import JS JSON ErrorHandler.

Lemma includes_single (c : N) (s : jsstring) :
  includes s [c] = true <-> In c s.
Proof.
  rewrite includes_iff. split.
  - intros (a & b & ->). apply in_or_app. right. left. reflexivity.
  - intros H. apply in_split in H. destruct H as (a & b & ->).
    exists a, b. reflexivity.
Qed.

Lemma noJsonSyntax_braces (val : jsstring) :
  Validation.noJsonSyntax val = true <-> ~ In 123%N val /\ ~ In 125%N val.
Proof.
  unfold Validation.noJsonSyntax.
  change (js "{") with [123%N]. change (js "}") with [125%N].
  rewrite andb_true_iff, !negb_true_iff.
  split.
  - intros [H1 H2]. split; intros Hin; apply includes_single in Hin; congruence.
  - intros [H1 H2]. split.
    + destruct (includes val [123%N]) eqn:Hi; [|reflexivity].
      apply includes_single in Hi. contradiction.
    + destruct (includes val [125%N]) eqn:Hi; [|reflexivity].
      apply includes_single in Hi. contradiction.
Qed.

(** A refinement that leaves no issue held, and so did what it refines. *)
Lemma refine_clean {A : Type} (ok : A -> bool) (msg : jsstring)
  (s : Zod.Schema A) (v : option json) (x : A) :
  Zod.value (s v) = Some x ->
  Zod.issues (Zod.refine ok msg s v) = [] ->
  ok x = true /\ Zod.issues (s v) = [].
Proof.
  intros Hv Hi. rewrite (refine_issues ok msg s v Hv) in Hi.
  apply app_eq_nil in Hi. destruct Hi as [Hs Hok].
  split; [|exact Hs]. destruct (ok x); [reflexivity|discriminate].
Qed.

Lemma string_value (v : option json) (s : jsstring) :
  Zod.value (Zod.string v) = Some s -> v = Some (JString s).
Proof.
  destruct v as [[| | | | |]|]; simpl; intros H; try discriminate.
  inversion H; reflexivity.
Qed.

Lemma titleSchema_clean (v : option json) (t : jsstring) :
  Zod.value (Validation.titleSchema v) = Some t ->
  Zod.issues (Validation.titleSchema v) = [] ->
  v = Some (JString t)
  /\ 1 <= length t <= 50 /\ Validation.noJsonSyntax t = true.
Proof.
  unfold Validation.titleSchema, Zod.max, Zod.min.
  intros Hv Hi. rewrite !refine_value in Hv.
  pose proof (string_value _ Hv) as ->.
  eapply refine_clean in Hi; [|rewrite !refine_value; exact Hv].
  destruct Hi as [Hj Hi].
  eapply refine_clean in Hi; [|rewrite !refine_value; exact Hv].
  destruct Hi as [Hmax Hi].
  eapply refine_clean in Hi; [|exact Hv].
  destruct Hi as [Hmin _].
  apply Nat.leb_le in Hmax, Hmin.
  unfold Validation.VALIDATION_RULES.title.maxLength,
    Validation.VALIDATION_RULES.title.minLength in *.
  repeat split; auto.
Qed.

Lemma descriptionSchema_clean (v : option json) (d : jsstring) :
  Zod.value (Validation.descriptionSchema v) = Some d ->
  Zod.issues (Validation.descriptionSchema v) = [] ->
  v = Some (JString d)
  /\ 150 <= length d <= 200 /\ Validation.noJsonSyntax d = true.
Proof.
  unfold Validation.descriptionSchema, Zod.max, Zod.min.
  intros Hv Hi. rewrite !refine_value in Hv.
  pose proof (string_value _ Hv) as ->.
  eapply refine_clean in Hi; [|rewrite !refine_value; exact Hv].
  destruct Hi as [Hj Hi].
  eapply refine_clean in Hi; [|rewrite !refine_value; exact Hv].
  destruct Hi as [Hmax Hi].
  eapply refine_clean in Hi; [|exact Hv].
  destruct Hi as [Hmin _].
  apply Nat.leb_le in Hmax, Hmin.
  unfold Validation.VALIDATION_RULES.description.maxLength,
    Validation.VALIDATION_RULES.description.minLength in *.
  repeat split; auto.
Qed.

Lemma tagsSchema_clean (v : option json) (l : list jsstring) :
  Zod.value (Validation.tagsSchema v) = Some l ->
  Zod.issues (Validation.tagsSchema v) = [] ->
  4 <= length l <= 12 /\ Forall (fun tag => trim tag <> []) l.
Proof.
  unfold Validation.tagsSchema.
  intros Hv Hi. rewrite !refine_value in Hv.
  eapply refine_clean in Hi; [|rewrite !refine_value; exact Hv].
  destruct Hi as [Hall Hi].
  eapply refine_clean in Hi; [|exact Hv].
  destruct Hi as [Hcount _].
  apply andb_true_iff in Hcount. destruct Hcount as [Hmin Hmax].
  apply Nat.leb_le in Hmin, Hmax.
  unfold Validation.VALIDATION_RULES.tags.min,
    Validation.VALIDATION_RULES.tags.max in *.
  split; [split; assumption|].
  apply Forall_forall. intros tag Hin.
  rewrite forallb_forall in Hall. specialize (Hall tag Hin).
  apply Nat.ltb_lt in Hall. intros Hnil. rewrite Hnil in Hall.
  simpl in Hall. lia.
Qed.

(** What the schema of services/validation.ts guarantees of a value it
    lets through. *)
Lemma ContentSchema_parsed (d : option json) (v : Validation.ValidatedContent) :
  Zod.parse Validation.ContentSchema d = inl v ->
  exists members,
    d = Some (JObject members)
    /\ get members (js "title") = Some (JString (Validation.title v))
    /\ get members (js "description")
       = Some (JString (Validation.description v))
    /\ 1 <= length (Validation.title v) <= 50
    /\ Validation.noJsonSyntax (Validation.title v) = true
    /\ 150 <= length (Validation.description v) <= 200
    /\ Validation.noJsonSyntax (Validation.description v) = true
    /\ 4 <= length (Validation.tags v) <= 12
    /\ Forall (fun tag => trim tag <> []) (Validation.tags v).
Proof.
  unfold Zod.parse.
  destruct (Zod.value (Validation.ContentSchema d)) as [x|] eqn:Hv;
    [|discriminate].
  destruct (Zod.issues (Validation.ContentSchema d)) eqn:Hi; [|discriminate].
  intros H; inversion H; subst x; clear H.
  destruct d as [[| | | | |members]|]; try discriminate Hv.
  exists members. split; [reflexivity|].
  unfold Validation.ContentSchema, Zod.object, Zod.merge3, Zod.field in Hv, Hi.
  cbn [Zod.value Zod.issues] in Hv, Hi.
  destruct (Zod.value (Validation.titleSchema _)) as [t|] eqn:Ht;
    [|discriminate].
  destruct (Zod.value (Validation.descriptionSchema _)) as [ds|] eqn:Hd;
    [|discriminate].
  destruct (Zod.value (Validation.tagsSchema _)) as [l|] eqn:Hg;
    [|discriminate].
  inversion Hv; subst v; clear Hv. cbn [Validation.title Validation.description Validation.tags].
  apply app_eq_nil in Hi. destruct Hi as [Hit Hi].
  apply app_eq_nil in Hi. destruct Hi as [Hid Hig].
  destruct (titleSchema_clean _ Ht Hit) as (Ht1 & Ht2 & Ht3).
  destruct (descriptionSchema_clean _ Hd Hid) as (Hd1 & Hd2 & Hd3).
  destruct (tagsSchema_clean _ Hg Hig) as (Hg1 & Hg2).
  repeat split; auto; lia.
Qed.

(** X2. Whatever [validateAndTransform] returns satisfies every rule of the
    schema: the title and the description are the members of the object in
    the text, unchanged, within their length bounds and without braces; there
    are between four and twelve tags, none of them blank. *)
Theorem X2_validateAndTransform_result (E : Engine) (input : jsstring)
  (v : Validation.ValidatedContent) :
  Validation.validateAndTransform input = inl v ->
  exists members,
    JSON.parse (trim input) = Some (JObject members)
    /\ get members (js "title") = Some (JString (Validation.title v))
    /\ get members (js "description")
       = Some (JString (Validation.description v))
    /\ 1 <= length (Validation.title v) <= 50
    /\ (~ In 123%N (Validation.title v) /\ ~ In 125%N (Validation.title v))
    /\ 150 <= length (Validation.description v) <= 200
    /\ (~ In 123%N (Validation.description v)
        /\ ~ In 125%N (Validation.description v))
    /\ 4 <= length (Validation.tags v) <= 12
    /\ Forall (fun tag => trim tag <> []) (Validation.tags v).
Proof.
  unfold Validation.validateAndTransform.
  destruct (Validation.validateJSON input) as [d|e] eqn:Hj; [|discriminate].
  apply validateJSON_exact in Hj.
  destruct Hj as (members & Hp & -> & _).
  unfold Validation.validateContent.
  destruct (Zod.parse Validation.ContentSchema (Some (JObject members)))
    as [x|issues] eqn:Hz; [|discriminate].
  intros H; inversion H; subst x; clear H.
  apply ContentSchema_parsed in Hz.
  destruct Hz as (ms & Heq & Ht & Hd & Ht1 & Ht2 & Hd1 & Hd2 & Hg1 & Hg2).
  inversion Heq; subst ms.
  exists members. rewrite <- !noJsonSyntax_braces. repeat split; auto; lia.
Qed.

Lemma X2_validateAndTransform_result_witness :
  let input :=
    Examples.record Examples.giftTitle Examples.giftDescription
      Examples.giftTags in
  let v :=
    {| Validation.title := Examples.giftTitle;
       Validation.description := Examples.giftDescription;
       Validation.tags := Validation.splitTags Examples.giftTags |} in
  exists members,
    JSON.parse (trim input) = Some (JObject members)
    /\ get members (js "title") = Some (JString (Validation.title v))
    /\ get members (js "description")
       = Some (JString (Validation.description v))
    /\ 1 <= length (Validation.title v) <= 50
    /\ (~ In 123%N (Validation.title v) /\ ~ In 125%N (Validation.title v))
    /\ 150 <= length (Validation.description v) <= 200
    /\ (~ In 123%N (Validation.description v)
        /\ ~ In 125%N (Validation.description v))
    /\ 4 <= length (Validation.tags v) <= 12
    /\ Forall (fun tag => trim tag <> []) (Validation.tags v).
Proof.
  intros input v.
  apply (@X2_validateAndTransform_result Examples.exampleEngine input v).
  vm_compute; reflexivity.
Defined.

(** X3. When [validateAndTransform] throws, the error code is
    [VALIDATION_ERROR] exactly when the structural step had accepted the
    text, and [INVALID_JSON] otherwise; no other code is possible, the
    message is never empty, and the context lists of the error stay empty
    whatever failed. *)
Theorem X3_validateAndTransform_errors (E : Engine) (input : jsstring)
  (err : ContentError) :
  Validation.validateAndTransform input = inr err ->
  (code err = INVALID_JSON \/ code err = VALIDATION_ERROR)
  /\ (code err = VALIDATION_ERROR
      <-> exists members,
            JSON.parse (trim input) = Some (JObject members)
            /\ has members (js "title") = true
            /\ has members (js "description") = true
            /\ has members (js "tags") = true)
  /\ message err <> []
  /\ ctxValidationErrors (context err) = []
  /\ ctxMissingFields (context err) = [].
Proof.
  unfold Validation.validateAndTransform.
  destruct (Validation.validateJSON input) as [d|e] eqn:Hj.
  - pose proof Hj as Hex. apply validateJSON_exact in Hex.
    destruct Hex as (members & Hp & -> & Hhas).
    unfold Validation.validateContent.
    destruct (Zod.parse Validation.ContentSchema (Some (JObject members)));
      [discriminate|].
    intros H; inversion H; subst err; clear H. cbn.
    split; [right; reflexivity|].
    split; [split; [intros _; exists members; auto|reflexivity]|].
    split; [discriminate|]. split; reflexivity.
  - intros H; inversion H; subst err; clear H. cbn.
    split; [left; reflexivity|].
    split.
    + split; [discriminate|].
      intros (members & Hp & Hhas).
      assert (Hv : Validation.validateJSON input
                   = Validation.valid (JObject members)).
      { apply validateJSON_exact. exists members. auto. }
      congruence.
    + destruct (validateJSON_error_prefix _ Hj) as (m & ->).
      split; [discriminate|]. split; reflexivity.
Qed.

Lemma X3_validateAndTransform_errors_witness :
  let err :=
    newContentError
      (js "Content validation failed: Description must be at least 150 characters, Must have between 4 and 12 tags")
      VALIDATION_ERROR None in
  Validation.validateAndTransform (E := Examples.exampleEngine)
    Examples.scenario1 = inr err
  /\ (code err = INVALID_JSON \/ code err = VALIDATION_ERROR)
  /\ ctxValidationErrors (context err) = []
  /\ ctxMissingFields (context err) = [].
Proof.
  intros err.
  assert (H : Validation.validateAndTransform (E := Examples.exampleEngine)
                Examples.scenario1 = inr err)
    by (vm_compute; reflexivity).
  split; [exact H|].
  destruct (@X3_validateAndTransform_errors Examples.exampleEngine
              Examples.scenario1 err H) as (H1 & _ & _ & H4 & H5).
  split; [exact H1|]. split; [exact H4 | exact H5].
Defined.

(** Every structural failure mentions JSON in its message. *)
Lemma validateJSON_error_mentions_JSON {E : Engine} (input e : jsstring) :
  Validation.validateJSON input = Validation.invalid e ->
  includes (Validation.orText e (js "Invalid JSON structure")) (js "JSON")
  = true.
Proof.
  intros H. destruct (validateJSON_error_prefix _ H) as (m & ->).
  change (Validation.orText
            (js "Content generation failed due to invalid JSON structure: "
               ++ m) (js "Invalid JSON structure"))
    with (js "Content generation failed due to invalid JSON structure: " ++ m).
  apply includes_app_r. vm_compute; reflexivity.
Qed.

(** X4. [validateAndTransform] of services/validation/validator.ts throws a
    plain [Error]; when the structural step is what failed, whatever the
    cause, missing keys included, [handleContentError] turns that error into
    an [INVALID_JSON] error with a fixed message, never into
    [MISSING_INPUT]. *)
Theorem X4_structural_failure_handled (E : Engine) (input e : jsstring) :
  Validation.validateJSON input = Validation.invalid e ->
  exists thrown,
    Validator.validateAndTransform input = inr thrown
    /\ handleContentError (ThrownError thrown)
       = newContentError (js "Invalid JSON structure detected") INVALID_JSON
           None.
Proof.
  intros H. unfold Validator.validateAndTransform, Validator.validateJSON.
  rewrite H. eexists. split; [reflexivity|].
  unfold handleContentError.
  rewrite (validateJSON_error_mentions_JSON _ H). reflexivity.
Qed.

Lemma X4_structural_failure_handled_witness :
  exists thrown,
    Validator.validateAndTransform (E := Examples.exampleEngine)
      Examples.titleOnly = inr thrown
    /\ handleContentError (ThrownError thrown)
       = newContentError (js "Invalid JSON structure detected") INVALID_JSON
           None.
Proof.
  apply (@X4_structural_failure_handled Examples.exampleEngine
           Examples.titleOnly
           (js "Content generation failed due to invalid JSON structure: Missing required fields: description, tags")).
  vm_compute; reflexivity.
Defined.

End TransformOutcome.

(** ** What the social-content validator lets through *)

Section SocialBounds.
Import JS JSON SocialContent.

Lemma default_description_length (platform : Platform) :
  MIN_DESCRIPTION_LENGTH <= length (description (DEFAULT_CONTENT platform))
  <= MAX_DESCRIPTION_LENGTH.
Proof. destruct platform; vm_compute; lia. Qed.

Lemma validateContent_bounds {E : Engine} (content : jsstring)
  (platform : Platform) (r : Content) :
  validateContent content platform = Some r ->
  1 <= length (title r) <= MAX_TITLE_LENGTH
  /\ MIN_DESCRIPTION_LENGTH <= length (description r) <= MAX_DESCRIPTION_LENGTH
  /\ tags r <> [].
Proof.
  unfold validateContent.
  destruct (parsedObject content) as [parsed|]; [|discriminate].
  destruct (optionalTrim (get parsed (js "title"))) as [[[|c t]|]|];
    try discriminate.
  destruct (optionalTrim (get parsed (js "description"))) as [[[|c' d]|]|];
    try discriminate.
  destruct (tagText (get parsed (js "tags"))) as [text|]; [|discriminate].
  assert (Ht : 1 <= length (c :: t)) by (simpl; lia).
  assert (Hd : 1 <= length (c' :: d)) by (simpl; lia).
  remember (c :: t) as formattedTitle eqn:E1.
  remember (c' :: d) as formattedDescription eqn:E2.
  clear E1 E2.
  intros H; injection H as <-.
  cbn [title description tags].
  unfold MAX_TITLE_LENGTH, MIN_DESCRIPTION_LENGTH, MAX_DESCRIPTION_LENGTH in *.
  split; [|split].
  - destruct (Nat.ltb_spec 40 (length formattedTitle)) as [Hl|Hl].
    + rewrite length_truncate by lia. lia.
    + lia.
  - destruct (Nat.ltb_spec (length formattedDescription) 100) as [Hl|Hl].
    + apply default_description_length.
    + destruct (Nat.ltb_spec 1000 (length formattedDescription)) as [Hm|Hm].
      * rewrite length_truncate by lia. lia.
      * lia.
  - destruct (trim text) as [|x u]; cbn [truthy negb].
    + destruct platform; discriminate.
    + discriminate.
Qed.

(** X5. Every record that [validateContent] of services/socialContent.ts
    returns has a title of 1 to 40 code units, a description of 100 to 1000
    code units and a tag string that is not empty, whatever the text and the
    platform. *)
Theorem X5_validateContent_bounds (E : Engine) (content : jsstring)
  (platform : Platform) (r : Content) :
  validateContent content platform = Some r ->
  1 <= length (title r) <= MAX_TITLE_LENGTH
  /\ MIN_DESCRIPTION_LENGTH <= length (description r) <= MAX_DESCRIPTION_LENGTH
  /\ tags r <> [].
Proof. apply validateContent_bounds. Qed.

Lemma X5_validateContent_bounds_witness :
  1 <= length (title Examples.mugContent) <= MAX_TITLE_LENGTH
  /\ MIN_DESCRIPTION_LENGTH <= length (description Examples.mugContent)
     <= MAX_DESCRIPTION_LENGTH
  /\ tags Examples.mugContent <> [].
Proof.
  apply (@X5_validateContent_bounds Examples.exampleEngine Examples.mugText
           Pinterest Examples.mugContent).
  vm_compute; reflexivity.
Defined.

Lemma callToAction_length (platform : Platform) :
  length (callToAction platform) <= 26.
Proof. destruct platform; vm_compute; lia. Qed.

(** X6. Whatever text the model answers, the description that the last two
    steps of [generateSocialContent] produce has between 100 and 1028 code
    units: the validated or default description, of at most 1000, and at
    most two line feeds and a call to action after it. *)
Theorem X6_processResponse_description_length (E : Engine)
  (response : jsstring) (platform : Platform) :
  MIN_DESCRIPTION_LENGTH
  <= length (sc_description (processResponse response platform))
  <= MAX_DESCRIPTION_LENGTH + 2 + 26.
Proof.
  unfold processResponse.
  destruct (validateContent response platform) as [r|] eqn:Hv.
  - apply validateContent_bounds in Hv. destruct Hv as (_ & Hd & _).
    cbn [formatContent sc_description].
    pose proof (callToAction_length platform) as Hc.
    destruct (negb _ && negb _).
    + rewrite !length_app. cbn [length]. lia.
    + lia.
  - cbn [formatContent sc_description].
    pose proof (default_description_length platform). lia.
Qed.

Lemma startsWith_head_In (s : jsstring) (c : N) :
  startsWith s [c] = true -> In c s.
Proof.
  destruct s as [|x s]; simpl; [discriminate|].
  rewrite andb_true_r. intros H. apply N.eqb_eq in H. left. congruence.
Qed.

Lemma fromFirst_notin (c : N) (s : jsstring) :
  ~ In c s -> fromFirst c s = [].
Proof.
  induction s as [|x s IH]; [reflexivity|]. intros H. simpl.
  destruct (N.eqb_spec x c) as [->|_].
  - exfalso. apply H. left. reflexivity.
  - apply IH. intros Hin. apply H. right. exact Hin.
Qed.

Lemma fromFirst_incl (c x : N) (s : jsstring) :
  In x (fromFirst c s) -> In x s.
Proof.
  induction s as [|y s IH]; [intros []|]. simpl.
  destruct (y =? c)%N; [trivial|]. intros H. right. apply IH, H.
Qed.

Lemma stripNonJSON_incl (x : N) (content : jsstring) :
  In x (stripNonJSON content) -> In x content.
Proof.
  unfold stripNonJSON, uptoLast.
  destruct (rev (fromFirst 125 (rev (fromFirst 123 content)))) as [|c m] eqn:Hr;
    [trivial|].
  rewrite <- Hr. intros H.
  apply in_rev, fromFirst_incl, in_rev, fromFirst_incl in H. exact H.
Qed.

(** A text without an opening brace, or without a closing one, is not
    parsed at all. *)
Lemma parsedObject_needs_braces (content : jsstring) :
  ~ In 123%N content \/ ~ In 125%N content -> parsedObject content = None.
Proof.
  intros H. unfold parsedObject.
  destruct (startsWith (trim (stripNonJSON content)) (js "{")) eqn:Hs;
    [|reflexivity].
  destruct (endsWith (trim (stripNonJSON content)) (js "}")) eqn:He;
    [|reflexivity].
  exfalso.
  apply startsWith_head_In in Hs.
  apply endsWith_iff in He. destruct He as (u & Hu).
  assert (Hc : In 125%N (trim (stripNonJSON content))).
  { rewrite Hu. apply in_or_app. right. left. reflexivity. }
  apply trim_In, stripNonJSON_incl in Hs.
  apply trim_In, stripNonJSON_incl in Hc.
  destruct H as [H|H]; contradiction.
Qed.

(** X7. When the answer of the model holds no opening brace, or no closing
    brace, [validateContent] returns [null] and [generateSocialContent]
    falls back to the default description and the default tag string of the
    platform, the latter without hash signs on every platform. *)
Theorem X7_no_braces_gives_defaults (E : Engine) (response : jsstring)
  (platform : Platform) :
  ~ In 123%N response \/ ~ In 125%N response ->
  validateContent response platform = None
  /\ processResponse response platform
     = {| sc_description := description (DEFAULT_CONTENT platform);
          hashtags := tags (DEFAULT_CONTENT platform) |}.
Proof.
  intros H. apply parsedObject_needs_braces in H.
  assert (Hv : validateContent response platform = None).
  { unfold validateContent. rewrite H. reflexivity. }
  split; [exact Hv|]. unfold processResponse. rewrite Hv. reflexivity.
Qed.

Lemma X7_no_braces_gives_defaults_witness :
  validateContent (E := Examples.exampleEngine)
    (js "Sorry, I cannot help with that.") Instagram = None
  /\ processResponse (E := Examples.exampleEngine)
       (js "Sorry, I cannot help with that.") Instagram
     = {| sc_description := description (DEFAULT_CONTENT Instagram);
          hashtags := tags (DEFAULT_CONTENT Instagram) |}.
Proof.
  apply (@X7_no_braces_gives_defaults Examples.exampleEngine
           (js "Sorry, I cannot help with that.") Instagram).
  left. vm_compute. intuition discriminate.
Defined.

End SocialBounds.

(** ** What the Instagram validators return *)

Section InstagramResults.
Import JS InstagramContent.
Import INSTAGRAM_CONSTRAINTS.

Ltac has_element :=
  first
    [ assumption
    | apply hasAny_app_r; has_element
    | apply hasAny_app_l; has_element
    | vm_compute; reflexivity ].

Ltac has_pictograph :=
  first
    [ assumption
    | apply includes_app_r; has_pictograph
    | apply includes_app_l; has_pictograph
    | vm_compute; reflexivity ].

Ltac lengths :=
  rewrite ?length_app;
  repeat match goal with
         | |- context [length (js ?s)] =>
             let n := eval vm_compute in (length (js s)) in
             change (length (js s)) with n
         end;
  try change (length sparkles) with 1;
  try change (length glowingStar) with 2;
  try change (length palette) with 2;
  lia.

Lemma truncated_length (trimmed : jsstring) :
  length (if description.maxLength <? length trimmed
          then substring trimmed 0 (description.maxLength - 3) ++ js "..."
          else trimmed) <= description.maxLength.
Proof.
  unfold description.maxLength.
  destruct (Nat.ltb_spec 150 (length trimmed)) as [H|H]; [|exact H].
  rewrite substring_0, length_app, firstn_length_le by lia.
  simpl. lia.
Qed.

(** What [validateDescription] returns has a word of each required group
    and one of the two pictographs, and at most 248 code units. *)
Lemma validateDescription_result (d : jsstring) :
  match validateDescription d with
  | inl r => Spec.repaired r
  | inr _ => d = []
  end.
Proof.
  unfold validateDescription.
  destruct d as [|c0 d0]; [reflexivity|].
  cbn [truthy negb].
  remember (c0 :: d0) as d eqn:Hd. clear Hd.
  pose proof (truncated_length (trim d)) as Hlen.
  remember (if description.maxLength <? length (trim d)
            then substring (trim d) 0 (description.maxLength - 3) ++ js "..."
            else trim d) as truncated eqn:Ht.
  clear Ht. unfold description.maxLength in Hlen.
  destruct (hasAny description.requiredElements.emotional truncated) eqn:He;
    destruct (hasAny description.requiredElements.personalization truncated)
      eqn:Hp;
    destruct (hasAny description.requiredElements.benefits truncated) eqn:Hb;
    destruct (hasAny description.requiredElements.cta truncated) eqn:Hc;
    cbv beta iota delta [negb orb andb];
    match goal with
    | |- context [includes ?w sparkles] =>
        destruct (includes w sparkles) eqn:H1;
        [|destruct (includes w glowingStar) eqn:H2];
        cbv beta iota;
        try (exfalso;
             first
               [ assert (Hs : includes w sparkles = true)
                   by has_pictograph; congruence
               | assert (Hs : includes w glowingStar = true)
                   by has_pictograph; congruence ])
    end;
    unfold Spec.repaired;
    (split; [has_element|]);
    (split; [has_element|]);
    (split; [has_element|]);
    (split; [has_element|]);
    (split;
     [ first [left; has_pictograph | right; has_pictograph] | lengths ]).
Qed.

(** X8. Whatever non-empty description [validateDescription] is given, the
    description it returns holds a word of each of the four groups of
    required elements and one of the two pictographs; it has at most 248
    code units, 98 more than the limit the function enforces. *)
Theorem X8_validateDescription_complete (d r : jsstring) :
  validateDescription d = inl r ->
  hasAny description.requiredElements.emotional r = true
  /\ hasAny description.requiredElements.personalization r = true
  /\ hasAny description.requiredElements.benefits r = true
  /\ hasAny description.requiredElements.cta r = true
  /\ (includes r sparkles = true \/ includes r glowingStar = true)
  /\ length r <= 248.
Proof.
  intros H. pose proof (validateDescription_result d) as Hr.
  rewrite H in Hr. exact Hr.
Qed.

Lemma X8_validateDescription_complete_witness :
  let r :=
    js "Hand-painted mug Make your space special with a personalized touch! "
      ++ sparkles ++ js " Premium quality guaranteed. " ++ glowingStar
      ++ js " Order now! " ++ palette in
  hasAny description.requiredElements.emotional r = true
  /\ hasAny description.requiredElements.personalization r = true
  /\ hasAny description.requiredElements.benefits r = true
  /\ hasAny description.requiredElements.cta r = true
  /\ (includes r sparkles = true \/ includes r glowingStar = true)
  /\ length r <= 248.
Proof.
  intros r.
  apply (@X8_validateDescription_complete (js "  Hand-painted mug ") r).
  vm_compute; reflexivity.
Defined.

End InstagramResults.

(** ** The hashtags of Instagram *)

Section InstagramHashtags.
Import JS InstagramContent.
Import INSTAGRAM_CONSTRAINTS.

Lemma trim_fixed (t : jsstring) : trim t = t <-> headOk t /\ lastOk t.
Proof.
  split.
  - intros H. rewrite <- H. split; [apply trim_headOk | apply trim_lastOk].
  - intros [H1 H2]. apply trim_id; assumption.
Qed.

Lemma startsWith_hash_nonempty (t : jsstring) :
  startsWith t (js "#") = true -> t <> [].
Proof. destruct t; [discriminate|discriminate]. Qed.

(** A hashtag as the validators write it: it starts with the hash sign and
    has no white space around it. *)
Lemma hashPrefix_clean (t : jsstring) :
  t <> [] -> trim t = t ->
  startsWith (SocialContent.hashPrefix t) (js "#") = true
  /\ trim (SocialContent.hashPrefix t) = SocialContent.hashPrefix t.
Proof.
  intros Hne Ht. unfold SocialContent.hashPrefix.
  destruct (startsWith t (js "#")) eqn:Hs; [split; assumption|].
  split; [reflexivity|].
  apply trim_fixed in Ht. destruct Ht as [_ Hl].
  apply trim_fixed. split; [reflexivity|].
  apply lastOk_app; assumption.
Qed.

Lemma cleaned_clean (tags : list jsstring) :
  Forall (fun t => startsWith t (js "#") = true /\ trim t = t)
    (map SocialContent.hashPrefix (filter truthy (map trim tags))).
Proof.
  apply Forall_forall. intros e He.
  apply in_map_iff in He. destruct He as (t & <- & Ht).
  apply filter_In in Ht. destruct Ht as [Ht Hne].
  apply in_map_iff in Ht. destruct Ht as (u & <- & _).
  apply hashPrefix_clean.
  - destruct (trim u); [discriminate|discriminate].
  - apply trim_idempotent.
Qed.

Lemma cleaned_fixed (l : list jsstring) :
  Forall (fun t => startsWith t (js "#") = true /\ trim t = t) l ->
  map SocialContent.hashPrefix (filter truthy (map trim l)) = l.
Proof.
  induction 1 as [|t l [Hs Ht] _ IH]; [reflexivity|].
  cbn [map]. rewrite Ht.
  pose proof (startsWith_hash_nonempty Hs) as Hne.
  destruct t as [|c t]; [congruence|].
  cbn [filter truthy map]. rewrite IH.
  unfold SocialContent.hashPrefix. rewrite Hs. reflexivity.
Qed.

Lemma Forall_firstn {A : Type} (P : A -> Prop) (n : nat) (l : list A) :
  Forall P l -> Forall P (firstn n l).
Proof.
  intros H. apply Forall_forall. intros x Hx.
  rewrite Forall_forall in H. apply H.
  rewrite <- (firstn_skipn n l). apply in_or_app. left. exact Hx.
Qed.

Lemma validateHashtags_result (tags : list jsstring) :
  match validateHashtags tags with
  | inl r =>
      hashtags.min <= length r <= hashtags.max
      /\ Forall (fun t => startsWith t (js "#") = true /\ trim t = t) r
      /\ (length (filter truthy (map trim tags)) <= hashtags.max ->
          r = map SocialContent.hashPrefix (filter truthy (map trim tags))
          /\ validateHashtags r = inl r)
  | inr _ => True
  end.
Proof.
  unfold validateHashtags.
  change (fun tag : jsstring =>
            if startsWith tag (js "#") then tag else js "#" ++ tag)
    with SocialContent.hashPrefix.
  pose proof (cleaned_clean tags) as Hclean.
  pose proof (cleaned_fixed Hclean) as Hfix.
  assert (Hlen : length (map SocialContent.hashPrefix
                           (filter truthy (map trim tags)))
                 = length (filter truthy (map trim tags)))
    by apply length_map.
  remember (map SocialContent.hashPrefix (filter truthy (map trim tags)))
    as cleaned eqn:Hc.
  remember (filter truthy (map trim tags)) as kept eqn:Hk.
  clear Hc Hk.
  unfold hashtags.min, hashtags.max.
  destruct (Nat.ltb_spec (length cleaned) 10) as [Hmin|Hmin]; [exact I|].
  destruct (0 <? length _) eqn:Hmiss; [exact I|].
  destruct (Nat.ltb_spec 15 (length cleaned)) as [Hmax|Hmax].
  - split; [rewrite length_firstn; lia|].
    split; [apply Forall_firstn, Hclean|].
    intros Hk. lia.
  - split; [lia|]. split; [exact Hclean|].
    intros _. split; [reflexivity|].
    rewrite Hfix.
    destruct (Nat.ltb_spec (length cleaned) 10) as [Hmin'|_]; [lia|].
    rewrite Hmiss.
    destruct (Nat.ltb_spec 15 (length cleaned)) as [Hmax'|_]; [lia|].
    reflexivity.
Qed.

(** X9. Whatever [validateHashtags] returns has between 10 and 15 hashtags,
    each starting with the hash sign and free of surrounding white space.
    When the list held at most 15 tags that are not blank, the result is all
    of them, and validating the result again returns it unchanged. *)
Theorem X9_validateHashtags_result (tags r : list jsstring) :
  validateHashtags tags = inl r ->
  hashtags.min <= length r <= hashtags.max
  /\ Forall (fun t => startsWith t (js "#") = true /\ trim t = t) r
  /\ (length (filter truthy (map trim tags)) <= hashtags.max ->
      r = map SocialContent.hashPrefix (filter truthy (map trim tags))
      /\ validateHashtags r = inl r).
Proof.
  intros H. pose proof (validateHashtags_result tags) as Hr.
  rewrite H in Hr. exact Hr.
Qed.

Lemma X9_validateHashtags_result_witness :
  let tags :=
    [js " easter "; js "#gift"; js "custom"; js "  "; js "handmade"; js "mug";
     js "mom"; js "spring"; js "decor"; js "unique"; js "quality"] in
  let r :=
    [js "#easter"; js "#gift"; js "#custom"; js "#handmade"; js "#mug";
     js "#mom"; js "#spring"; js "#decor"; js "#unique"; js "#quality"] in
  hashtags.min <= length r <= hashtags.max
  /\ Forall (fun t => startsWith t (js "#") = true /\ trim t = t) r
  /\ (length (filter truthy (map trim tags)) <= hashtags.max ->
      r = map SocialContent.hashPrefix (filter truthy (map trim tags))
      /\ validateHashtags r = inl r).
Proof.
  intros tags r.
  apply (@X9_validateHashtags_result tags r).
  vm_compute; reflexivity.
Defined.

End InstagramHashtags.

(** ** From the marketplace tags to the hashtags of Instagram *)

Section InstagramGenerated.
Import JS InstagramContent Spec.
Import INSTAGRAM_CONSTRAINTS.

Lemma splitCommaWhitespaceFrom_cons (b : bool) (s : jsstring) :
  exists p ps, splitCommaWhitespaceFrom b s = p :: ps.
Proof.
  revert b. induction s as [|c s IH]; intros b; simpl.
  - eexists; eexists; reflexivity.
  - destruct ((c =? 44)%N || isWhiteSpace c).
    + destruct b; [apply IH | eexists; eexists; reflexivity].
    + destruct (IH false) as (p & ps & ->). eexists; eexists; reflexivity.
Qed.









Lemma split_pieces_clean (s : jsstring) (b : bool) (p : jsstring) :
  In p (splitCommaWhitespaceFrom b s) ->
  forall c, In c p -> (c =? 44)%N || isWhiteSpace c = false.
Proof.
  revert b p. induction s as [|c s IH]; intros b p; simpl.
  - intros [<-|[]] x [].
  - destruct ((c =? 44)%N || isWhiteSpace c) eqn:Hc.
    + destruct b; [apply IH|].
      intros [<-|Hp]; [intros x []|]. revert Hp. apply IH.
    + destruct (splitCommaWhitespaceFrom_cons false s) as (q & qs & Hs).
      rewrite Hs. intros [<-|Hp] x Hx.
      * destruct Hx as [<-|Hx]; [exact Hc|].
        apply (IH false q); [rewrite Hs; left; reflexivity | exact Hx].
      * apply (IH false p); [rewrite Hs; right; exact Hp | exact Hx].
Qed.

Lemma trim_no_space (p : jsstring) :
  (forall c, In c p -> isWhiteSpace c = false) -> trim p = p.
Proof.
  intros H. apply trim_id.
  - destruct p as [|c p]; [exact I|]. simpl. apply H. left. reflexivity.
  - unfold lastOk. destruct (rev p) as [|c r] eqn:Hr; [exact I|].
    simpl. apply H. apply in_rev. rewrite Hr. left. reflexivity.
Qed.





End InstagramGenerated.

(** ** Tag strings, split and joined again *)

Section TagStrings.
Import JS JSON.

Lemma split_app_sep (sep : N) (u v : jsstring) :
  ~ In sep u -> split sep (u ++ sep :: v) = u :: split sep v.
Proof.
  induction u as [|c u IH]; intros Hu; simpl.
  - rewrite N.eqb_refl. reflexivity.
  - destruct (N.eqb_spec c sep) as [->|_].
    + exfalso. apply Hu. left. reflexivity.
    + rewrite IH; [reflexivity|]. intros H. apply Hu. right. exact H.
Qed.

Lemma blank_no_comma (w : jsstring) :
  forallb isWhiteSpace w = true -> ~ In 44%N w.
Proof.
  intros H Hin. rewrite forallb_forall in H. specialize (H _ Hin).
  discriminate.
Qed.

Lemma trim_app_blank (w t : jsstring) :
  forallb isWhiteSpace w = true -> trim (w ++ t) = trim t.
Proof.
  intros H. unfold trim. rewrite trimStart_app_blank by exact H. reflexivity.
Qed.

(** Trimmed tags without commas, joined by a comma and any white space, are
    found again by splitting at the commas and trimming. *)
Lemma split_join (w w0 : jsstring) (l : list jsstring) :
  forallb isWhiteSpace w = true ->
  forallb isWhiteSpace w0 = true ->
  Forall (fun t => trim t = t /\ ~ In 44%N t) l ->
  l <> [] ->
  map trim (split 44 (w0 ++ join (44%N :: w) l)) = l.
Proof.
  intros Hw Hw0 Hl. revert w0 Hw0.
  induction Hl as [|t l [Ht Hc] Hl IH]; intros w0 Hw0 Hne; [congruence|].
  destruct l as [|t' l].
  - cbn [join]. rewrite split_no_sep.
    + cbn [map]. rewrite trim_app_blank, Ht by exact Hw0. reflexivity.
    + intros Hin. apply in_app_or in Hin. destruct Hin as [Hin|Hin].
      * revert Hin. apply blank_no_comma, Hw0.
      * contradiction.
  - change (join (44%N :: w) (t :: t' :: l))
      with (t ++ 44%N :: (w ++ join (44%N :: w) (t' :: l))).
    rewrite app_assoc, split_app_sep.
    + cbn [map]. rewrite trim_app_blank, Ht by exact Hw0.
      rewrite IH; [reflexivity | exact Hw | discriminate].
    + intros Hin. apply in_app_or in Hin. destruct Hin as [Hin|Hin].
      * revert Hin. apply blank_no_comma, Hw0.
      * contradiction.
Qed.

Lemma splitTags_clean (s : jsstring) :
  Forall (fun t => t <> [] /\ trim t = t /\ ~ In 44%N t)
    (Validation.splitTags s).
Proof.
  apply Forall_forall. intros t Ht. unfold Validation.splitTags in Ht.
  apply filter_In in Ht. destruct Ht as [Hin Hne].
  apply in_map_iff in Hin. destruct Hin as (p & <- & Hp).
  split; [destruct (trim p); [discriminate|discriminate]|].
  split; [apply trim_idempotent|].
  intros Hc. apply trim_In in Hc. revert Hc. apply (split_pieces _ _ _ Hp).
Qed.

Lemma filter_truthy_clean (l : list jsstring) :
  Forall (fun t => t <> [] /\ trim t = t /\ ~ In 44%N t) l ->
  filter truthy l = l.
Proof.
  induction 1 as [|t l [Hne _] _ IH]; [reflexivity|].
  destruct t; [congruence|]. cbn [filter truthy]. rewrite IH. reflexivity.
Qed.

Lemma splitTags_join (w : jsstring) (l : list jsstring) :
  forallb isWhiteSpace w = true ->
  Forall (fun t => t <> [] /\ trim t = t /\ ~ In 44%N t) l ->
  Validation.splitTags (join (44%N :: w) l) = l.
Proof.
  intros Hw Hl. destruct l as [|t l]; [reflexivity|].
  unfold Validation.splitTags.
  assert (Hs : map trim (split 44 ([] ++ join (44%N :: w) (t :: l)))
               = t :: l).
  { apply split_join; [exact Hw | reflexivity | | discriminate].
    revert Hl. apply Forall_impl. tauto. }
  cbn [app] in Hs. rewrite Hs. apply filter_truthy_clean, Hl.
Qed.

(** X11. The tags that the schemas read from a tag string are never empty,
    have no white space around them and no comma; joined again by a comma,
    or by a comma and a space, and split again, they are the same tags in
    the same order. *)
Theorem X11_splitTags_round_trip (s : jsstring) :
  Forall (fun t => t <> [] /\ trim t = t /\ ~ In 44%N t)
    (Validation.splitTags s)
  /\ Validation.splitTags (join (js ",") (Validation.splitTags s))
     = Validation.splitTags s
  /\ Validation.splitTags (join (js ", ") (Validation.splitTags s))
     = Validation.splitTags s.
Proof.
  pose proof (splitTags_clean s) as H.
  split; [exact H|]. split.
  - apply (@splitTags_join [] _ eq_refl H).
  - apply (@splitTags_join [32%N] _ eq_refl H).
Qed.

(** X12. When the tags of an object are given as a string, the refinement
    'Tags cannot be empty' of the schema of services/validation.ts cannot
    fail: the only issue the tags can raise is their count. *)
Theorem X12_string_tags_issue (g : jsstring) :
  Zod.value (Validation.tagsSchema (Some (JString g)))
  = Some (Validation.splitTags g)
  /\ Zod.issues (Validation.tagsSchema (Some (JString g)))
     = if (4 <=? length (Validation.splitTags g))
          && (length (Validation.splitTags g) <=? 12)
       then []
       else [js "Must have between 4 and 12 tags"].
Proof.
  assert (Hv : Zod.value (Validation.tagsSchema (Some (JString g)))
               = Some (Validation.splitTags g)).
  { unfold Validation.tagsSchema. rewrite !refine_value. reflexivity. }
  split; [exact Hv|].
  assert (Hall : forallb (fun tag => 0 <? length (trim tag))
                   (Validation.splitTags g) = true).
  { apply forallb_forall. intros t Ht.
    pose proof (splitTags_clean g) as H. rewrite Forall_forall in H.
    destruct (H t Ht) as (Hne & Htrim & _). rewrite Htrim.
    destruct t; [congruence|reflexivity]. }
  unfold Validation.tagsSchema in *. rewrite refine_value in Hv.
  rewrite (refine_issues _ _ _ _ Hv). rewrite Hall, app_nil_r.
  rewrite refine_value in Hv.
  rewrite (refine_issues _ _ _ _ Hv).
  reflexivity.
Qed.

(** The tags that the marketplace record keeps are clean, and each has two
    to five words. *)
Lemma longTailTags_clean (g : jsstring) :
  Forall (fun t => t <> [] /\ trim t = t /\ ~ In 44%N t)
    (OpenAI.longTailTags g).
Proof.
  apply Forall_forall. intros t Ht. unfold OpenAI.longTailTags in Ht.
  apply filter_In in Ht. destruct Ht as [Hin Hf].
  apply andb_true_iff in Hf. destruct Hf as [Hf _].
  apply andb_true_iff in Hf. destruct Hf as [Hne _].
  apply in_map_iff in Hin. destruct Hin as (p & <- & Hp).
  split; [destruct (trim p); [discriminate|discriminate]|].
  split; [apply trim_idempotent|].
  intros Hc. apply trim_In in Hc. revert Hc. apply (split_pieces _ _ _ Hp).
Qed.

Lemma longTailTags_join (g : jsstring) :
  OpenAI.longTailTags g <> [] ->
  OpenAI.longTailTags (join (js ", ") (OpenAI.longTailTags g))
  = OpenAI.longTailTags g.
Proof.
  intros Hne. unfold OpenAI.longTailTags at 1.
  assert (Hs : map trim
                 (split 44 ([] ++ join (44%N :: [32%N]) (OpenAI.longTailTags g)))
               = OpenAI.longTailTags g).
  { apply split_join; [reflexivity | reflexivity | | exact Hne].
    generalize (longTailTags_clean g). apply Forall_impl. tauto. }
  cbn [app] in Hs. change (js ", ") with (44%N :: [32%N]). rewrite Hs.
  apply forallb_filter_id. apply forallb_forall. intros t Ht.
  unfold OpenAI.longTailTags in Ht. apply filter_In in Ht. tauto.
Qed.

(** X13. The tag string of the marketplace record is a fixed point of the
    step that makes it: split at its commas it gives back the tags that
    were kept, ten at least and each of two to five words, and processed
    again it comes back unchanged. *)
Theorem X13_marketplaceTags_fixed (g out : jsstring) :
  OpenAI.marketplaceTags g = inl out ->
  Validation.splitTags out = OpenAI.longTailTags g
  /\ 10 <= length (OpenAI.longTailTags g)
  /\ Forall (fun t => 2 <= length (splitWhitespace t) <= 5)
       (OpenAI.longTailTags g)
  /\ OpenAI.marketplaceTags out = inl out.
Proof.
  unfold OpenAI.marketplaceTags.
  destruct (Nat.ltb_spec (length (OpenAI.longTailTags g)) 10) as [H|H];
    [discriminate|].
  intros Ho. assert (Hout : out = join (js ", ") (OpenAI.longTailTags g))
    by congruence.
  clear Ho. subst out.
  split; [apply (@splitTags_join [32%N] _ eq_refl (longTailTags_clean g))|].
  split; [exact H|]. split.
  - apply Forall_forall. intros t Ht. unfold OpenAI.longTailTags in Ht.
    apply filter_In in Ht. destruct Ht as [_ Hf].
    apply andb_true_iff in Hf. destruct Hf as [Hf H5].
    apply andb_true_iff in Hf. destruct Hf as [_ H2].
    apply Nat.leb_le in H2, H5. lia.
  - rewrite longTailTags_join.
    + destruct (Nat.ltb_spec (length (OpenAI.longTailTags g)) 10); [lia|].
      reflexivity.
    + intros E. rewrite E in H. simpl in H. lia.
Qed.

Lemma X13_marketplaceTags_fixed_witness :
  let tags :=
    js "custom mug, gift idea, easter gift, handmade decor, mom gift, coffee mug, tea cup, spring gift, unique design, premium quality" in
  Validation.splitTags tags = OpenAI.longTailTags tags
  /\ 10 <= length (OpenAI.longTailTags tags)
  /\ Forall (fun t => 2 <= length (splitWhitespace t) <= 5)
       (OpenAI.longTailTags tags)
  /\ OpenAI.marketplaceTags tags = inl tags.
Proof.
  intros tags.
  apply (@X13_marketplaceTags_fixed tags tags).
  vm_compute; reflexivity.
Defined.

End TagStrings.

(** ** The output check of services/validation/index.ts *)

Section OutputCheck.
Import JS JSON.

Lemma has_get (members : list (jsstring * json)) (k : jsstring) :
  has members k = true <-> exists v, get members k = Some v.
Proof.
  unfold has. destruct (get members k) as [v|].
  - split; [intros _; exists v; reflexivity | reflexivity].
  - split; [discriminate | intros (v & H); discriminate].
Qed.

Lemma validateOutput_object (members : list (jsstring * json)) :
  ValidationIndex.validateOutput (Some (JObject members)) = Validation.valid tt
  <-> exists t d items,
        get members (js "title") = Some (JString t)
        /\ 1 <= length t <= 50
        /\ get members (js "description") = Some (JString d)
        /\ 150 <= length d <= 200
        /\ get members (js "tags") = Some (JArray items)
        /\ 10 <= length items <= 12
        /\ Forall (fun tag => exists s, tag = JString s) items.
Proof.
  cbn [ValidationIndex.validateOutput].
  unfold ValidationIndex.VALIDATION_RULES.output.title.maxLength,
    ValidationIndex.VALIDATION_RULES.output.description.minLength,
    ValidationIndex.VALIDATION_RULES.output.description.maxLength,
    ValidationIndex.VALIDATION_RULES.output.tags.min,
    ValidationIndex.VALIDATION_RULES.output.tags.max.
  split.
  - destruct (0 <? length _); [discriminate|].
    destruct (get members (js "title")) as [[| | |t| |]|]; try discriminate.
    destruct (Nat.eqb_spec (length t) 0) as [|Ht0]; [discriminate|].
    destruct (Nat.ltb_spec 50 (length t)) as [|Ht]; [discriminate|].
    cbn [orb].
    destruct (get members (js "description")) as [[| | |d| |]|];
      try discriminate.
    destruct (Nat.ltb_spec (length d) 150) as [|Hd0]; [discriminate|].
    destruct (Nat.ltb_spec 200 (length d)) as [|Hd]; [discriminate|].
    cbn [orb].
    destruct (get members (js "tags")) as [[| | | |items|]|]; try discriminate.
    destruct (Nat.ltb_spec (length items) 10) as [|Hg0]; [discriminate|].
    destruct (Nat.ltb_spec 12 (length items)) as [|Hg]; [discriminate|].
    cbn [orb].
    destruct (forallb _ items) eqn:Hall; [|discriminate].
    intros _. exists t, d, items.
    repeat split; try lia.
    apply Forall_forall. intros tag Hin.
    rewrite forallb_forall in Hall. specialize (Hall tag Hin).
    destruct tag; try discriminate. eexists; reflexivity.
  - intros (t & d & items & Ht & Htl & Hd & Hdl & Hg & Hgl & Hall).
    assert (Hm : (0 <? length (filter (fun field => negb (has members field))
                                 Validation.requiredFields)) = false).
    { apply missing_none. rewrite !has_get. repeat split; eexists; eassumption. }
    rewrite Hm, Ht, Hd, Hg.
    destruct (Nat.eqb_spec (length t) 0); [lia|].
    destruct (Nat.ltb_spec 50 (length t)); [lia|].
    destruct (Nat.ltb_spec (length d) 150); [lia|].
    destruct (Nat.ltb_spec 200 (length d)); [lia|].
    destruct (Nat.ltb_spec (length items) 10); [lia|].
    destruct (Nat.ltb_spec 12 (length items)); [lia|].
    cbn [orb].
    assert (Hf : forallb (fun tag => ValidationIndex.isString (Some tag)) items
                 = true).
    { apply forallb_forall. intros tag Hin.
      rewrite Forall_forall in Hall. destruct (Hall tag Hin) as (s & ->).
      reflexivity. }
    rewrite Hf. reflexivity.
Qed.

(** X14. [Validator.validateOutput] of services/validation/index.ts accepts
    an object exactly when its title is a string of 1 to 50 code units, its
    description a string of 150 to 200 code units and its tags an array of
    10 to 12 strings. *)
Theorem X14_validateOutput_accepts_exactly
  (members : list (jsstring * json)) :
  ValidationIndex.validateOutput (Some (JObject members)) = Validation.valid tt
  <-> exists t d items,
        get members (js "title") = Some (JString t)
        /\ 1 <= length t <= 50
        /\ get members (js "description") = Some (JString d)
        /\ 150 <= length d <= 200
        /\ get members (js "tags") = Some (JArray items)
        /\ 10 <= length items <= 12
        /\ Forall (fun tag => exists s, tag = JString s) items.
Proof. apply validateOutput_object. Qed.

Lemma strict_schema_needs_string_tags (members : list (jsstring * json))
  (items : list json) :
  get members (js "tags") = Some (JArray items) ->
  exists issues,
    Zod.parse Schema.ContentSchema (Some (JObject members)) = inr issues.
Proof.
  intros Hg.
  assert (Hv : Zod.value (Schema.ContentSchema (Some (JObject members)))
               = None).
  { unfold Schema.ContentSchema, Zod.object, Zod.merge3, Zod.field.
    cbn [Zod.value]. rewrite Hg.
    assert (Ht : Zod.value (Schema.tagsSchema (Some (JArray items))) = None).
    { unfold Schema.tagsSchema. rewrite !refine_value. reflexivity. }
    rewrite Ht.
    destruct (Zod.value (Schema.titleSchema (get members (js "title"))));
      destruct (Zod.value
                  (Schema.descriptionSchema (get members (js "description"))));
      reflexivity. }
  unfold Zod.parse. rewrite Hv. eexists; reflexivity.
Qed.

(** X15. No content passes both the output check of
    services/validation/index.ts and the content validation of
    services/validation/validator.ts: the former wants the tags as an array,
    the schema of the latter as a string. *)
Theorem X15_output_check_excludes_strict_schema (E : Engine)
  (content : option json) :
  ValidationIndex.validateOutput content = Validation.valid tt ->
  exists e, Validator.validateContent content = Validation.invalid e.
Proof.
  intros H.
  assert (Hobj : forall members,
            ValidationIndex.validateOutput (Some (JObject members))
            = Validation.valid tt ->
            exists issues,
              Zod.parse Schema.ContentSchema (Some (JObject members))
              = inr issues).
  { intros members Hm. apply validateOutput_object in Hm.
    destruct Hm as (t & d & items & _ & _ & _ & _ & Hg & _).
    apply (strict_schema_needs_string_tags _ Hg). }
  unfold Validator.validateContent.
  destruct content as [[| | |s| |members]|]; try discriminate H.
  - unfold ValidationIndex.validateOutput in H.
    destruct (JSON.parse s) as [[| | | | |members]|]; try discriminate H.
    destruct (Hobj members H) as (issues & ->). eexists; reflexivity.
  - destruct (Hobj members H) as (issues & ->). eexists; reflexivity.
Qed.

Lemma X15_output_check_excludes_strict_schema_witness :
  exists e,
    Validator.validateContent (E := Examples.exampleEngine)
      (Some (JObject [(js "title", JString Examples.giftTitle);
                      (js "description", JString Examples.giftDescription);
                      (js "tags", JArray (repeat (JString (js "gift")) 10))]))
    = Validation.invalid e.
Proof.
  apply (@X15_output_check_excludes_strict_schema Examples.exampleEngine).
  vm_compute; reflexivity.
Defined.

End OutputCheck.

(** ** The word tests of the strict schema *)

Section WordTests.
Import JS Schema Spec.

Lemma includes_trans (s p q : jsstring) :
  includes s p = true -> includes p q = true -> includes s q = true.
Proof.
  rewrite !includes_iff. intros (a & b & ->) (c & d & ->).
  exists (a ++ c), (d ++ b). rewrite <- !app_assoc. reflexivity.
Qed.

Lemma testAnyCI_intro (words : list jsstring) (text w : jsstring) :
  In w words -> includes (foldCase text) (foldCase w) = true ->
  testAnyCI words text = true.
Proof.
  intros Hin H. unfold testAnyCI, includesAny.
  apply existsb_exists. exists (foldCase w). split; [|exact H].
  apply in_map, Hin.
Qed.

Lemma testAnyCI_elim (words : list jsstring) (text : jsstring) :
  testAnyCI words text = true ->
  exists w, In w words /\ includes (foldCase text) (foldCase w) = true.
Proof.
  unfold testAnyCI, includesAny. intros H.
  apply existsb_exists in H. destruct H as (x & Hx & Hi).
  apply in_map_iff in Hx. destruct Hx as (w & <- & Hw).
  exists w. split; assumption.
Qed.

Lemma testAnyCI_none (words : list jsstring) (text w : jsstring) :
  testAnyCI words text = false -> In w words ->
  includes (foldCase text) (foldCase w) = false.
Proof.
  intros H Hin.
  destruct (includes (foldCase text) (foldCase w)) eqn:Hi; [|reflexivity].
  rewrite (testAnyCI_intro _ _ _ Hin Hi) in H. discriminate.
Qed.

Lemma plainWord_tail (c : N) (r : jsstring) :
  plainWord (c :: r) = true -> plainWord r = true.
Proof.
  destruct r as [|d r]; [reflexivity|]. cbn [plainWord].
  intros H. apply andb_true_iff in H. tauto.
Qed.

Lemma plainWord_head (c : N) (r : jsstring) :
  plainWord (c :: r) = true -> c <> 107%N /\ c <> 0x307%N.
Proof.
  destruct r as [|d r]; cbn [plainWord]; intros H.
  - apply negb_true_iff in H. apply orb_false_iff in H. destruct H as [H H3].
    apply orb_false_iff in H. destruct H as [_ H2].
    apply N.eqb_neq in H2, H3. tauto.
  - apply andb_true_iff in H. destruct H as [H _].
    apply negb_true_iff in H. apply orb_false_iff in H.
    destruct H as [H2 H3]. apply N.eqb_neq in H2, H3. tauto.
Qed.

Lemma lowerUnit_idempotent (c : N) : lowerUnit (lowerUnit c) = lowerUnit c.
Proof.
  unfold lowerUnit.
  destruct ((65 <=? c)%N && (c <=? 90)%N) eqn:H; [|rewrite H; reflexivity].
  apply andb_true_iff in H. destruct H as [H1 H2].
  apply N.leb_le in H1, H2.
  destruct ((65 <=? c + 32)%N && (c + 32 <=? 90)%N) eqn:H'; [|reflexivity].
  apply andb_true_iff in H'. destruct H' as [_ H']. apply N.leb_le in H'. lia.
Qed.

Lemma lowerUnit_special (c : N) :
  (lowerUnit c = 0x212A%N -> c = 0x212A%N)
  /\ (lowerUnit c = 0x130%N -> c = 0x130%N).
Proof.
  unfold lowerUnit.
  destruct ((65 <=? c)%N && (c <=? 90)%N) eqn:H; [|tauto].
  apply andb_true_iff in H. destruct H as [H1 H2].
  apply N.leb_le in H1, H2. split; intros E; lia.
Qed.

(** A plain word that starts the lower case of a text starts the text
    itself, read without regard to the case of its ASCII letters. *)
Lemma startsWith_plain (s w : jsstring) :
  plainWord w = true ->
  startsWith (foldCase (toLowerCase s)) w = true ->
  startsWith (foldCase s) w = true.
Proof.
  revert w. induction s as [|c s IH]; intros w Hw; [trivial|].
  destruct w as [|x w]; [reflexivity|].
  pose proof (plainWord_head _ _ Hw) as [Hk Hd].
  cbn [toLowerCase flat_map]. fold (toLowerCase s).
  unfold lowerUnits.
  destruct (N.eqb_spec c 0x212A) as [->|Hc1].
  - cbn. intros H. apply andb_true_iff in H. destruct H as [H _].
    apply N.eqb_eq in H. congruence.
  - destruct (N.eqb_spec c 0x130) as [->|Hc2].
    + cbn [app foldCase map startsWith].
      change (lowerUnit 105) with 105%N. change (lowerUnit 775) with 775%N.
      intros H. apply andb_true_iff in H. destruct H as [Hx H].
      apply N.eqb_eq in Hx. subst x.
      destruct w as [|y w].
      * cbn [plainWord] in Hw. discriminate.
      * pose proof (plainWord_head _ _ (plainWord_tail _ _ Hw)) as [_ Hy].
        cbn [startsWith] in H. apply andb_true_iff in H.
        destruct H as [H _]. apply N.eqb_eq in H. congruence.
    + cbn [app foldCase map startsWith]. fold (foldCase (toLowerCase s)).
      fold (foldCase s). rewrite lowerUnit_idempotent.
      intros H. apply andb_true_iff in H. destruct H as [Hx H].
      rewrite Hx. cbn [andb]. apply IH; [|exact H].
      apply (plainWord_tail _ _ Hw).
Qed.

Lemma includes_plain (s w : jsstring) :
  plainWord w = true ->
  includes (foldCase (toLowerCase s)) w = true ->
  includes (foldCase s) w = true.
Proof.
  intros Hw. destruct w as [|x w].
  { intros _. destruct (foldCase s); reflexivity. }
  pose proof (plainWord_head _ _ Hw) as [Hk Hd].
  induction s as [|c s IH]; [trivial|].
  intros H.
  rewrite (includes_unfold (foldCase (c :: s))).
  destruct (startsWith (foldCase (c :: s)) (x :: w)) eqn:Hs; [reflexivity|].
  cbn [orb foldCase map]. fold (foldCase s). apply IH.
  assert (Hn : startsWith (foldCase (toLowerCase (c :: s))) (x :: w) = false).
  { destruct (startsWith (foldCase (toLowerCase (c :: s))) (x :: w)) eqn:E;
      [|reflexivity].
    rewrite (startsWith_plain _ _ Hw E) in Hs. discriminate. }
  revert H Hn. cbn [toLowerCase flat_map]. fold (toLowerCase s).
  unfold lowerUnits.
  destruct (c =? 0x212A)%N; [|destruct (c =? 0x130)%N].
  - cbn [app foldCase map]. fold (foldCase (toLowerCase s)).
    intros H Hn. rewrite includes_unfold, Hn in H. exact H.
  - cbn [app foldCase map]. fold (foldCase (toLowerCase s)).
    intros H Hn. rewrite includes_unfold, Hn in H. cbn [orb] in H.
    rewrite includes_unfold in H.
    change (lowerUnit 775) with 775%N in H.
    cbn [startsWith] in H.
    destruct (N.eqb_spec x 775) as [->|_]; [congruence|].
    exact H.
  - cbn [app foldCase map]. fold (foldCase (toLowerCase s)).
    intros H Hn. rewrite includes_unfold, Hn in H. exact H.
Qed.

Lemma foldCase_toLowerCase (s : jsstring) :
  foldCase (toLowerCase s) = toLowerCase s.
Proof.
  induction s as [|c s IH]; [reflexivity|].
  cbn [toLowerCase flat_map]. fold (toLowerCase s).
  unfold foldCase in *. rewrite map_app, IH. f_equal.
  unfold lowerUnits.
  destruct (c =? 0x212A)%N; [reflexivity|].
  destruct (c =? 0x130)%N; [reflexivity|].
  cbn [map]. rewrite lowerUnit_idempotent. reflexivity.
Qed.

Ltac first_match H :=
  repeat match type of H with
         | (if ?b then _ else _) = _ =>
             destruct b eqn:?; [try (vm_compute in H; discriminate H)|]
         end;
  try (vm_compute in H; discriminate H).

(** X16. Two of the tag categories have alternatives that an earlier
    category always takes first. A tag is put in [mothers_day] only for the
    word [maternal]: a tag with [mothers day gift] is an occasion and one
    with [mom present] is for the target audience. And a tag that
    [isValidTag] accepts is put in [gifting] only for [gift idea] or
    [thoughtful present]: [perfect gift] holds a promotional word. *)
Theorem X16_categorizeTag_shadowed :
  (forall tag : jsstring,
     categorizeTag tag = js "mothers_day" ->
     includes (foldCase (toLowerCase tag)) (js "maternal") = true)
  /\ (forall tag : jsstring,
        isValidTag tag = true ->
        categorizeTag tag = js "gifting" ->
        includes (foldCase tag) (js "gift idea") = true
        \/ includes (foldCase tag) (js "thoughtful present") = true).
Proof.
  split.
  - intros tag H. unfold categorizeTag in H. cbv zeta in H.
    first_match H.
    match goal with
    | H8 : testAnyCI [js "mothers day gift"; _; _] _ = true,
      H3 : testAnyCI [js "mothers day"; _; _] _ = false,
      H6 : testAnyCI [js "mom"; _; _; _] _ = false |- _ =>
        apply testAnyCI_elim in H8; destruct H8 as (w & Hin & Hi);
        pose proof (testAnyCI_none _ _ (js "mothers day") H3
                      ltac:(left; reflexivity)) as N3;
        pose proof (testAnyCI_none _ _ (js "mom") H6
                      ltac:(left; reflexivity)) as N6
    end.
    destruct Hin as [<-|[<-|[<-|[]]]].
    + assert (Hq : includes (foldCase (toLowerCase tag))
                     (foldCase (js "mothers day")) = true)
        by (eapply includes_trans; [exact Hi | vm_compute; reflexivity]).
      congruence.
    + assert (Hq : includes (foldCase (toLowerCase tag))
                     (foldCase (js "mom")) = true)
        by (eapply includes_trans; [exact Hi | vm_compute; reflexivity]).
      congruence.
    + exact Hi.
  - intros tag Hv H.
    assert (Hp : testAnyCI [js "best"; js "amazing"; js "awesome";
                            js "incredible"; js "perfect"] tag = false).
    { unfold isValidTag in Hv.
      destruct (_ || _ || _ || _ || _); [discriminate|].
      destruct (3 <? _); [discriminate|].
      destruct (testAnyCI _ tag); [discriminate|reflexivity]. }
    pose proof (testAnyCI_none _ _ (js "perfect") Hp
                  ltac:(do 4 right; left; reflexivity)) as Np.
    unfold categorizeTag in H. cbv zeta in H.
    first_match H.
    match goal with
    | H7 : testAnyCI [js "gift idea"; _; _] _ = true |- _ =>
        apply testAnyCI_elim in H7; destruct H7 as (w & Hin & Hi)
    end.
    destruct Hin as [<-|[<-|[<-|[]]]].
    + left. apply includes_plain; [reflexivity | exact Hi].
    + exfalso.
      assert (Hq : includes (foldCase (toLowerCase tag)) (js "perfect")
                   = true)
        by (eapply includes_trans; [exact Hi | vm_compute; reflexivity]).
      apply includes_plain in Hq; [|reflexivity].
      change (foldCase (js "perfect")) with (js "perfect") in Np.
      congruence.
    + right. apply includes_plain; [reflexivity | exact Hi].
Qed.

Lemma X16_categorizeTag_shadowed_witness :
  includes (foldCase (toLowerCase (js "Maternal love"))) (js "maternal") = true.
Proof.
  apply (proj1 X16_categorizeTag_shadowed (js "Maternal love")).
  vm_compute; reflexivity.
Defined.

(** One alternative of a phrase group, found in the lower case of a
    text, makes a word test of the description rule succeed when it holds a
    plain word of that test. *)
Lemma phrase_gives_word (text phrase word : jsstring)
  (words : list jsstring) :
  includes (toLowerCase text) phrase = true ->
  includes phrase word = true ->
  plainWord word = true ->
  In word (map foldCase words) ->
  testAnyCI words text = true.
Proof.
  intros Hi Hsub Hplain Hin.
  unfold testAnyCI, includesAny. apply existsb_exists.
  exists word. split; [exact Hin|].
  apply includes_plain; [exact Hplain|].
  rewrite foldCase_toLowerCase.
  apply (includes_trans _ _ _ Hi Hsub).
Qed.

Ltac by_phrase word :=
  eapply (@phrase_gives_word _ _ word);
  [ eassumption
  | vm_compute; reflexivity
  | vm_compute; reflexivity
  | vm_compute; tauto ].

(** X17. A description that has a phrase of each of the seven required
    groups passes five of the eight word tests of [hasValidDescription]
    already: benefits, personalization, emotional appeal, Mother's Day value
    and call to action. Only the tests for product features, practical uses
    and gifting value can still fail. *)
Theorem X17_required_phrases_imply_tests (text : jsstring) :
  hasRequiredPhrases text VALIDATION_RULES.description.requiredPhrases = true ->
  hasValidDescription text
  = testAnyCI [js "features"; js "includes"; js "designed"; js "made with";
               js "crafted"; js "created"] text
    && testAnyCI [js "coffee"; js "tea"; js "drink"; js "beverage";
                  js "morning"] text
    && testAnyCI [js "perfect gift"; js "ideal present"; js "thoughtful gift";
                  js "special gift"] text.
Proof.
  intros H. unfold hasRequiredPhrases in H. cbv zeta in H.
  unfold VALIDATION_RULES.description.requiredPhrases in H.
  cbn [forallb existsb] in H.
  repeat match type of H with
         | _ && _ = true =>
             let Hl := fresh "G" in
             apply andb_true_iff in H; destruct H as [Hl H]
         end.
  clear H.
  assert (HB : testAnyCI [js "perfect for"; js "celebrate"; js "cherish";
                          js "treasure"; js "create"] text = true).
  { rewrite !orb_false_r in G2.
    apply orb_true_iff in G2. destruct G2 as [G2|G2];
      [|apply orb_true_iff in G2; destruct G2 as [G2|G2]].
    - by_phrase (js "celebrate").
    - by_phrase (js "cherish").
    - by_phrase (js "treasure"). }
  assert (HP : testAnyCI [js "customize"; js "personalize"; js "your";
                          js "name"; js "text"] text = true).
  { rewrite !orb_false_r in G0.
    apply orb_true_iff in G0. destruct G0 as [G0|G0];
      [|apply orb_true_iff in G0; destruct G0 as [G0|G0]].
    - by_phrase (js "customize").
    - by_phrase (js "personalize").
    - by_phrase (js "your"). }
  assert (HE : testAnyCI [js "special"; js "meaningful"; js "memorable";
                          js "unique"; js "cherished"] text = true).
  { rewrite !orb_false_r in G3.
    apply orb_true_iff in G3. destruct G3 as [G3|G3];
      [|apply orb_true_iff in G3; destruct G3 as [G3|G3]].
    - by_phrase (js "special").
    - by_phrase (js "meaningful").
    - by_phrase (js "memorable"). }
  assert (HM : testAnyCI [js "mother"; js "mom"; js "mama"; js "mother's day";
                          js "maternal"] text = true).
  { rewrite !orb_false_r in G4.
    apply orb_true_iff in G4. destruct G4 as [G4|G4];
      [|apply orb_true_iff in G4; destruct G4 as [G4|G4]].
    - by_phrase (js "mom").
    - by_phrase (js "mother").
    - by_phrase (js "mama"). }
  assert (HC : testAnyCI [js "order"; js "shop"; js "get yours";
                          js "make it yours"] text = true).
  { rewrite !orb_false_r in G1.
    apply orb_true_iff in G1. destruct G1 as [G1|G1];
      [|apply orb_true_iff in G1; destruct G1 as [G1|G1]].
    - by_phrase (js "order").
    - by_phrase (js "shop").
    - by_phrase (js "get yours"). }
  unfold hasValidDescription. cbv zeta.
  rewrite HB, HP, HE, HM, HC. rewrite !andb_true_r. reflexivity.
Qed.

Lemma X17_required_phrases_imply_tests_witness :
  hasValidDescription Examples.giftDescription
  = testAnyCI [js "features"; js "includes"; js "designed"; js "made with";
               js "crafted"; js "created"] Examples.giftDescription
    && testAnyCI [js "coffee"; js "tea"; js "drink"; js "beverage";
                  js "morning"] Examples.giftDescription
    && testAnyCI [js "perfect gift"; js "ideal present"; js "thoughtful gift";
                  js "special gift"] Examples.giftDescription.
Proof.
  apply (@X17_required_phrases_imply_tests Examples.giftDescription).
  vm_compute; reflexivity.
Defined.

End WordTests.

(** ** The logger *)

Section LoggerFacts.
Import JS Logger.

Lemma slice_last {A : Type} (n : Z) (l : list A) :
  (0 < n)%Z -> slice (- n) l = skipn (length l - Z.to_nat n) l.
Proof.
  intros Hn. unfold slice.
  destruct (Z.ltb_spec (- n) 0) as [H|H]; [|lia].
  f_equal. lia.
Qed.

(** X18. [getRecentLogs(count)] returns the last [count] entries of the
    log, in their order, and all of them when there are fewer; without
    argument it returns the last ten. With a count of zero it returns the
    whole log, not an empty list, and with a negative count it drops that
    many entries from the front. *)
Theorem X18_getRecentLogs (l : Logger) (count : Z) :
  (0 < count ->
   getRecentLogs (Some count) l
   = skipn (length (logs l) - Z.to_nat count) (logs l)
   /\ length (getRecentLogs (Some count) l)
      = Nat.min (Z.to_nat count) (length (logs l)))%Z
  /\ getRecentLogs (Some 0%Z) l = logs l
  /\ (count < 0 ->
      getRecentLogs (Some count) l = skipn (Z.to_nat (- count)) (logs l))%Z
  /\ getRecentLogs None l = skipn (length (logs l) - 10) (logs l).
Proof.
  unfold getRecentLogs. split; [|split; [|split]].
  - intros Hc. rewrite slice_last by lia. split; [reflexivity|].
    rewrite length_skipn. lia.
  - unfold slice. change (- 0)%Z with 0%Z. cbv beta iota zeta.
    change (0 <? 0)%Z with false. cbv iota.
    rewrite Z.min_l by lia. reflexivity.
  - intros Hc. unfold slice.
    destruct (Z.ltb_spec (- count) 0) as [H|H]; [lia|].
    destruct (Z.min_spec (- count) (Z.of_nat (length (logs l))))
      as [[Hlt ->]|[Hge ->]]; [reflexivity|].
    rewrite Nat2Z.id, skipn_all.
    symmetry. apply skipn_all2. lia.
  - rewrite (@slice_last _ 10%Z) by lia. reflexivity.
Qed.

Lemma X18_getRecentLogs_witness :
  let l := info 3 (js "App") (js "third") None
             (info 2 (js "App") (js "second") None
                (info 1 (js "App") (js "first") None instance)) in
  getRecentLogs (Some 2%Z) l
  = skipn (length (logs l) - Z.to_nat 2) (logs l)
  /\ length (getRecentLogs (Some 2%Z) l)
     = Nat.min (Z.to_nat 2) (length (logs l)).
Proof.
  intros l. apply (proj1 (X18_getRecentLogs l 2)). reflexivity.
Defined.

Lemma call_keeps_debug_out (c : Call) (l : Logger) :
  (forall now, c <> CallEnableDebug now) ->
  debugMode l = false ->
  Forall (fun e => level e <> Debug) (logs l) ->
  debugMode (call c l) = false
  /\ Forall (fun e => level e <> Debug) (logs (call c l)).
Proof.
  intros Hc Hd Hl.
  destruct c; cbn [call];
    unfold debug, info, warn, error, disableDebug, clearLogs, debug, addEntry;
    rewrite ?Hd; cbn [logs debugMode];
    try (split; [reflexivity || exact Hd|]);
    try exact Hl;
    try (apply Forall_app; split; [exact Hl|];
         constructor; [cbn; discriminate | constructor]).
  - exfalso. apply (Hc now). reflexivity.
  - constructor.
Qed.

(** X19. As long as [enableDebug] is never called, the logger stays out of
    debug mode and its log holds no entry of level [debug], whatever else
    is called and in whatever order: calls of [debug] leave no trace. *)
Theorem X19_no_debug_entries (calls : list Call) :
  Forall (fun c => forall now, c <> CallEnableDebug now) calls ->
  debugMode (run calls instance) = false
  /\ Forall (fun e => level e <> Debug) (logs (run calls instance)).
Proof.
  unfold run.
  assert (H : forall l,
            debugMode l = false ->
            Forall (fun e => level e <> Debug) (logs l) ->
            Forall (fun c => forall now, c <> CallEnableDebug now) calls ->
            debugMode (fold_left (fun st c => call c st) calls l) = false
            /\ Forall (fun e => level e <> Debug)
                 (logs (fold_left (fun st c => call c st) calls l))).
  { induction calls as [|c calls IH]; intros l Hd Hl Hc; [split; assumption|].
    inversion Hc as [|? ? Hc1 Hc2]; subst.
    destruct (call_keeps_debug_out l Hc1 Hd Hl) as [Hd' Hl'].
    cbn [fold_left]. apply IH; assumption. }
  apply H; [reflexivity | constructor].
Qed.

Lemma X19_no_debug_entries_witness :
  debugMode
    (run [CallDebug 1 (js "Validator") (js "Validating content") None;
          CallError 2 (js "Validator") (js "Output validation failed") None;
          CallDisableDebug 3] instance) = false
  /\ Forall (fun e => level e <> Debug)
       (logs
          (run [CallDebug 1 (js "Validator") (js "Validating content") None;
                CallError 2 (js "Validator") (js "Output validation failed")
                  None;
                CallDisableDebug 3] instance)).
Proof.
  apply X19_no_debug_entries.
  repeat constructor; discriminate.
Defined.

End LoggerFacts.

(** ** services/instagram.ts *)

Section InstagramService.
Import JS Instagram.
Import INSTAGRAM_CONSTRAINTS.

Lemma lower_app_r (a b w : jsstring) :
  includes (toLowerCase a) w = true ->
  includes (toLowerCase (a ++ b)) w = true.
Proof. intros H. rewrite toLowerCase_app. apply includes_app_r, H. Qed.

Lemma lower_app_l (a b w : jsstring) :
  includes (toLowerCase b) w = true ->
  includes (toLowerCase (a ++ b)) w = true.
Proof. intros H. rewrite toLowerCase_app. apply includes_app_l, H. Qed.

Ltac has_word :=
  first
    [ assumption
    | apply lower_app_r; has_word
    | apply lower_app_l; has_word
    | vm_compute; reflexivity ].




Lemma splitFrom_cons (x : N) (s : jsstring) (b : bool) :
  (x =? 44)%N || isWhiteSpace x = false ->
  splitCommaWhitespaceFrom b (x :: s)
  = match splitCommaWhitespaceFrom false s with
    | p :: ps => (x :: p) :: ps
    | [] => [[x]]
    end.
Proof. intros H. simpl. rewrite H. reflexivity. Qed.

Lemma splitFrom_word (u : jsstring) (b : bool) :
  (forall c, In c u -> (c =? 44)%N || isWhiteSpace c = false) ->
  u <> [] -> splitCommaWhitespaceFrom b u = [u].
Proof.
  revert b. induction u as [|x u IH]; intros b Hu Hne; [congruence|].
  rewrite splitFrom_cons by (apply Hu; left; reflexivity).
  destruct u as [|y u]; [reflexivity|].
  rewrite (IH false); [reflexivity | | discriminate].
  intros c Hc. apply Hu. right. exact Hc.
Qed.

Lemma splitFrom_word_sep (u v : jsstring) (c : N) :
  (forall x, In x u -> (x =? 44)%N || isWhiteSpace x = false) ->
  (c =? 44)%N || isWhiteSpace c = true ->
  splitCommaWhitespaceFrom false (u ++ c :: v)
  = u :: splitCommaWhitespaceFrom true v.
Proof.
  intros Hu Hc. induction u as [|x u IH].
  - simpl. rewrite Hc. reflexivity.
  - simpl app. rewrite splitFrom_cons by (apply Hu; left; reflexivity).
    rewrite IH; [reflexivity|]. intros y Hy. apply Hu. right. exact Hy.
Qed.

Lemma splitFrom_flag (x : N) (s : jsstring) (b : bool) :
  (x =? 44)%N || isWhiteSpace x = false ->
  splitCommaWhitespaceFrom b (x :: s) = splitCommaWhitespaceFrom false (x :: s).
Proof. intros H. rewrite !splitFrom_cons by exact H. reflexivity. Qed.

(** Words joined by single spaces are found again by the split at commas
    and white space. *)
Lemma split_join_words (hs : list jsstring) :
  Forall (fun h => h <> []
                   /\ forall c, In c h -> (c =? 44)%N || isWhiteSpace c = false)
    hs ->
  hs <> [] ->
  splitCommaWhitespaceFrom false (join (js " ") hs) = hs.
Proof.
  induction 1 as [|h hs [Hne Hh] Hhs IH]; intros Hnil;
    [exfalso; apply Hnil; reflexivity|].
  destruct hs as [|h' hs].
  - cbn [join]. apply splitFrom_word; assumption.
  - change (join (js " ") (h :: h' :: hs))
      with (h ++ 32%N :: join (js " ") (h' :: hs)).
    rewrite splitFrom_word_sep by (assumption || reflexivity).
    f_equal.
    inversion Hhs as [|? ? [Hne' Hh'] _]; subst.
    destruct h' as [|x h']; [congruence|].
    assert (Hj : exists rest, join (js " ") ((x :: h') :: hs) = x :: rest).
    { destruct hs; cbn [join]; eexists; reflexivity. }
    destruct Hj as (rest & Hj). rewrite Hj in *.
    rewrite splitFrom_flag by (apply Hh'; left; reflexivity).
    apply IH. discriminate.
Qed.

Lemma hashtagList_clean (tags : jsstring) :
  Forall (fun h => startsWith h (js "#") = true
                   /\ forall c, In c h -> (c =? 44)%N || isWhiteSpace c = false)
    (map SocialContent.hashPrefix
       (filter truthy (map trim (splitCommaWhitespace tags)))).
Proof.
  apply Forall_forall. intros h Hh.
  apply in_map_iff in Hh. destruct Hh as (t & <- & Ht).
  apply filter_In in Ht. destruct Ht as [Ht Hne].
  apply in_map_iff in Ht. destruct Ht as (p & <- & Hp).
  assert (Hclean : forall c, In c p -> (c =? 44)%N || isWhiteSpace c = false)
    by apply (split_pieces_clean _ _ _ Hp).
  assert (Htrim : trim p = p).
  { apply trim_no_space. intros c Hc. specialize (Hclean c Hc).
    apply orb_false_iff in Hclean. tauto. }
  rewrite Htrim in *. unfold SocialContent.hashPrefix.
  destruct (startsWith p (js "#")) eqn:Hs; [split; assumption|].
  split; [reflexivity|].
  intros c [<-|Hc]; [reflexivity | apply Hclean, Hc].
Qed.

Lemma hashtags_fixed (hs : list jsstring) :
  Forall (fun h => startsWith h (js "#") = true
                   /\ forall c, In c h -> (c =? 44)%N || isWhiteSpace c = false)
    hs ->
  hs <> [] ->
  map SocialContent.hashPrefix
    (filter truthy (map trim (splitCommaWhitespace (join (js " ") hs))))
  = hs.
Proof.
  intros H Hne. unfold splitCommaWhitespace. rewrite split_join_words.
  - induction H as [|h hs [Hs Hc] _ IH]; [reflexivity|].
    cbn [map]. rewrite trim_no_space.
    + destruct h as [|x h]; [discriminate|]. cbn [filter truthy map].
      unfold SocialContent.hashPrefix at 1. rewrite Hs. f_equal.
      destruct hs as [|h' hs]; [reflexivity|]. apply IH. discriminate.
    + intros c Hin. specialize (Hc c Hin). apply orb_false_iff in Hc. tauto.
  - revert H. apply Forall_impl. intros h [Hs Hc]. split; [|exact Hc].
    intros ->. discriminate.
  - exact Hne.
Qed.

Lemma lowerUnits_blank (c : N) : isWhiteSpace c = true -> lowerUnits c = [c].
Proof.
  intros H. unfold lowerUnits, lowerUnit.
  destruct (N.eqb_spec c 0x212A) as [->|_]; [discriminate|].
  destruct (N.eqb_spec c 0x130) as [->|_]; [discriminate|].
  destruct ((65 <=? c)%N && (c <=? 90)%N) eqn:Hr; [|reflexivity].
  exfalso. apply andb_true_iff in Hr. destruct Hr as [H1 H2].
  apply N.leb_le in H1, H2. unfold isWhiteSpace in H.
  repeat match type of H with
         | _ || _ = true => apply orb_true_iff in H; destruct H as [H|H]
         | _ && _ = true => apply andb_true_iff in H; destruct H as [? H]
         end;
    repeat match goal with
           | E : (_ <=? _)%N = true |- _ => apply N.leb_le in E
           | E : (_ =? _)%N = true |- _ => apply N.eqb_eq in E
           end; lia.
Qed.

Lemma toLowerCase_blank (w : jsstring) :
  forallb isWhiteSpace w = true -> toLowerCase w = w.
Proof.
  induction w as [|c w IH]; [reflexivity|]. cbn [forallb].
  intros H. apply andb_true_iff in H. destruct H as [Hc Hw].
  cbn [toLowerCase flat_map]. fold (toLowerCase w).
  rewrite lowerUnits_blank, IH by assumption. reflexivity.
Qed.

Lemma includes_skip_blank (y x w : jsstring) (c : N) :
  isWhiteSpace c = false ->
  forallb isWhiteSpace y = true ->
  includes (y ++ x) (c :: w) = includes x (c :: w).
Proof.
  intros Hc. induction y as [|b y IH]; [reflexivity|]. cbn [forallb].
  intros H. apply andb_true_iff in H. destruct H as [Hb Hy].
  simpl app. rewrite includes_unfold. cbn [startsWith].
  destruct (N.eqb_spec c b) as [->|_]; [congruence|].
  cbn [andb orb]. apply IH, Hy.
Qed.

(** A word without white space that the lower case of a text holds is
    still there when the text is trimmed. *)
Lemma includes_lower_trim (s w : jsstring) :
  w <> [] -> forallb (fun c => negb (isWhiteSpace c)) w = true ->
  includes (toLowerCase s) w = true ->
  includes (toLowerCase (trim s)) w = true.
Proof.
  intros Hne Hw H.
  destruct (trim_decomp s) as (w1 & w2 & Hs & H1 & H2).
  rewrite Hs, !toLowerCase_app in H.
  rewrite (toLowerCase_blank _ H1), (toLowerCase_blank _ H2) in H.
  destruct w as [|c w]; [congruence|].
  cbn [forallb] in Hw. apply andb_true_iff in Hw. destruct Hw as [Hc Hw].
  apply negb_true_iff in Hc.
  rewrite includes_skip_blank in H by assumption.
  rewrite includes_app_disjoint in H; [exact H | | discriminate].
  intros x Hx Hin.
  rewrite forallb_forall in H2. specialize (H2 x Hin).
  destruct Hx as [<-|Hx]; [congruence|].
  rewrite forallb_forall in Hw. specialize (Hw x Hx).
  rewrite H2 in Hw. discriminate.
Qed.

Lemma validate_tags_fixed (c : GeneratedContent) (hs : list jsstring) :
  tags c = join (js " ") hs ->
  Forall (fun h => startsWith h (js "#") = true
                   /\ forall x, In x h -> (x =? 44)%N || isWhiteSpace x = false)
    hs ->
  content.minHashtags <= length hs <= content.maxHashtags ->
  exists r', validateInstagramContent c = inl r' /\ tags r' = tags c.
Proof.
  unfold content.minHashtags, content.maxHashtags.
  intros Ht Hhs Hlen. unfold validateInstagramContent.
  change (fun tag : jsstring =>
            if startsWith tag (js "#") then tag else js "#" ++ tag)
    with SocialContent.hashPrefix.
  rewrite Ht, hashtags_fixed; [|exact Hhs|intros ->; simpl in Hlen; lia].
  unfold content.minHashtags, content.maxHashtags.
  destruct (Nat.ltb_spec (length hs) 10) as [H|_]; [lia|].
  destruct (Nat.ltb_spec 15 (length hs)) as [H|_]; [lia|].
  eexists. split; reflexivity.
Qed.

Lemma validateInstagramContent_result (c : GeneratedContent) :
  match validateInstagramContent c with
  | inl r =>
      title r = title c
      /\ keywords r = keywords c
      /\ includes (toLowerCase (description r)) (js "order now") = true
      /\ (includes (toLowerCase (description r)) (js "special") = true
          \/ includes (toLowerCase (description r)) (js "unique") = true)
      /\ (exists hs,
            tags r = join (js " ") hs
            /\ content.minHashtags <= length hs <= content.maxHashtags
            /\ Forall (fun h => startsWith h (js "#") = true
                                /\ forall x, In x h ->
                                     (x =? 44)%N || isWhiteSpace x = false)
                 hs)
      /\ (exists r', validateInstagramContent r = inl r' /\ tags r' = tags r)
  | inr _ => True
  end.
Proof.
  unfold validateInstagramContent at 1.
  change (fun tag : jsstring =>
            if startsWith tag (js "#") then tag else js "#" ++ tag)
    with SocialContent.hashPrefix.
  pose proof (hashtagList_clean (tags c)) as Hclean.
  remember (map SocialContent.hashPrefix
              (filter truthy (map trim (splitCommaWhitespace (tags c)))))
    as hashtagList eqn:E.
  clear E.
  unfold content.minHashtags, content.maxHashtags,
    content.maxDescriptionLength.
  destruct (Nat.ltb_spec (length hashtagList) 10) as [_|Hmin]; [exact I|].
  assert (Hhs : exists hs,
            (if 15 <? length hashtagList then firstn 15 hashtagList
             else hashtagList) = hs
            /\ 10 <= length hs <= 15
            /\ Forall (fun h => startsWith h (js "#") = true
                                /\ forall x, In x h ->
                                     (x =? 44)%N || isWhiteSpace x = false)
                 hs).
  { eexists. split; [reflexivity|].
    destruct (Nat.ltb_spec 15 (length hashtagList)) as [H|H].
    - split; [rewrite length_firstn; lia|]. apply Forall_firstn, Hclean.
    - split; [lia | exact Hclean]. }
  destruct Hhs as (hs & -> & Hlen & Hfor).
  remember (if 150 <? length (description c)
            then substring (description c) 0 (150 - 3) ++ js "..."
            else description c) as truncated eqn:E.
  clear E.
  split; [reflexivity|]. split; [reflexivity|].
  cbn [description tags].
  assert (Hd :
    forall d3,
      d3 = (let withAppeal :=
              if negb (includes (toLowerCase truncated) (js "special"))
                 && negb (includes (toLowerCase truncated) (js "unique"))
              then trim truncated ++ newlines ++ js "Make it special! "
                     ++ sparkles
              else truncated in
            if negb (includes (toLowerCase withAppeal) (js "order now"))
            then trim withAppeal ++ newlines
                   ++ js "Order now for a personal touch! " ++ palette
            else withAppeal) ->
      includes (toLowerCase d3) (js "order now") = true
      /\ (includes (toLowerCase d3) (js "special") = true
          \/ includes (toLowerCase d3) (js "unique") = true)).
  { intros d3 ->. cbv zeta.
    destruct (includes (toLowerCase truncated) (js "special")) eqn:A1;
      [|destruct (includes (toLowerCase truncated) (js "unique")) eqn:A2];
      cbn [negb andb];
      match goal with
      | |- context [if negb (includes (toLowerCase ?w) (js "order now"))
                    then _ else _] =>
          destruct (includes (toLowerCase w) (js "order now")) eqn:C1
      end;
      cbn [negb];
      (split; [has_word|]);
      first
        [ left; has_word
        | right; has_word
        | left; apply lower_app_r, includes_lower_trim;
          [discriminate | reflexivity | has_word]
        | right; apply lower_app_r, includes_lower_trim;
          [discriminate | reflexivity | has_word] ]. }
  destruct (Hd _ eq_refl) as [Ho Hs].
  split; [exact Ho|]. split; [exact Hs|].
  split; [exists hs; split; [reflexivity|]; split; assumption|].
  match goal with
  | |- exists r', validateInstagramContent ?x = _ /\ _ =>
      apply (@validate_tags_fixed x hs);
      [reflexivity | exact Hfor | exact Hlen]
  end.
Qed.

(** X21. What [validateInstagramContent] returns keeps the title and the
    keywords; its description holds the call to action and an emotional
    word; its tags are between 10 and 15 hashtags, each starting with the
    hash sign, joined by single spaces; and validated again it is accepted
    with the same tags. *)
Theorem X21_validateInstagramContent_result (c r : GeneratedContent) :
  validateInstagramContent c = inl r ->
  title r = title c
  /\ keywords r = keywords c
  /\ includes (toLowerCase (description r)) (js "order now") = true
  /\ (includes (toLowerCase (description r)) (js "special") = true
      \/ includes (toLowerCase (description r)) (js "unique") = true)
  /\ (exists hs,
        tags r = join (js " ") hs
        /\ content.minHashtags <= length hs <= content.maxHashtags
        /\ Forall (fun h => startsWith h (js "#") = true
                            /\ forall x, In x h ->
                                 (x =? 44)%N || isWhiteSpace x = false)
             hs)
  /\ (exists r', validateInstagramContent r = inl r' /\ tags r' = tags r).
Proof.
  intros H. pose proof (validateInstagramContent_result c) as Hr.
  rewrite H in Hr. exact Hr.
Qed.

Lemma X21_validateInstagramContent_result_witness :
  let c :=
    {| title := js "Mug";
       description := js "Hand-painted mug";
       tags := js "custom mug, gift idea, easter gift, handmade decor, mom gift";
       keywords := [js "mug"] |} in
  let r :=
    {| title := js "Mug";
       description :=
         js "Hand-painted mug" ++ newlines ++ js "Make it special! "
           ++ sparkles ++ newlines ++ js "Order now for a personal touch! "
           ++ palette;
       tags := js "#custom #mug #gift #idea #easter #gift #handmade #decor #mom #gift";
       keywords := [js "mug"] |} in
  title r = title c
  /\ keywords r = keywords c
  /\ includes (toLowerCase (description r)) (js "order now") = true
  /\ (includes (toLowerCase (description r)) (js "special") = true
      \/ includes (toLowerCase (description r)) (js "unique") = true)
  /\ (exists hs,
        tags r = join (js " ") hs
        /\ content.minHashtags <= length hs <= content.maxHashtags
        /\ Forall (fun h => startsWith h (js "#") = true
                            /\ forall x, In x h ->
                                 (x =? 44)%N || isWhiteSpace x = false)
             hs)
  /\ (exists r', validateInstagramContent r = inl r' /\ tags r' = tags r).
Proof.
  intros c r.
  apply (@X21_validateInstagramContent_result c r).
  vm_compute; reflexivity.
Defined.

End InstagramService.

(** ** The messages of a request *)

Section RequestMessages.
Import JS JSON Spec.

Lemma forEach_passes {A : Type} (body : A -> option (option jsstring))
  (l : list A) :
  Validation.forEach body l = Some None
  <-> Forall (fun x => body x = Some None) l.
Proof.
  induction l as [|x l IH]; simpl.
  - split; [constructor | reflexivity].
  - destruct (body x) as [[e|]|] eqn:Hx.
    + split; [discriminate|]. intros H. inversion H. congruence.
    + rewrite IH. split.
      * intros H. constructor; [exact Hx | exact H].
      * intros H. inversion H. assumption.
    + split; [discriminate|]. intros H. inversion H. congruence.
Qed.

Lemma strictEquals_iff (v : option json) (s : jsstring) :
  Validation.strictEquals v s = true <-> v = Some (JString s).
Proof.
  destruct v as [[| | |x| |]|]; simpl;
    try (split; [discriminate | intros H; inversion H; fail]);
    try (split; [discriminate | discriminate]).
  rewrite eqb_eq. split; [intros ->; reflexivity | intros H; inversion H; reflexivity].
Qed.

Lemma isStringValue_iff (v : option json) :
  Validation.isStringValue v = true <-> exists s, v = Some (JString s).
Proof.
  destruct v as [[| | |x| |]|]; simpl;
    try (split; [discriminate | intros (s & H); inversion H; fail]);
    try (split; [discriminate | intros (s & H); discriminate]).
  split; [intros _; eexists; reflexivity | reflexivity].
Qed.

Lemma checkItem_passes {E : Engine} (item : json) :
  Validation.checkItem item = Some None <-> acceptedItem item.
Proof.
  unfold acceptedItem.
  destruct (Validation.strictEquals (Validation.read item (js "type"))
              (js "text")) eqn:Ht.
  - pose proof (proj1 (strictEquals_iff _ _) Ht) as Htype.
    assert (Hi : Validation.strictEquals (Validation.read item (js "type"))
                   (js "image_url") = false).
    { rewrite Htype. reflexivity. }
    destruct (Validation.isStringValue (Validation.read item (js "text")))
      eqn:Hs.
    + pose proof (proj1 (isStringValue_iff _) Hs) as (s & Htext).
      split.
      * intros _. split; [intros ->; discriminate|].
        split; [intros _; exists s; exact Htext|].
        rewrite Htype. discriminate.
      * intros _. unfold Validation.checkItem. rewrite Ht, Hs, Hi.
        destruct item; try reflexivity. discriminate.
    + split.
      * unfold Validation.checkItem. rewrite Ht, Hs.
        destruct item; discriminate.
      * intros (_ & H & _). apply isStringValue_iff in H; [|exact Htype].
        congruence.
  - assert (Hnt : Validation.read item (js "type") <> Some (JString (js "text"))).
    { intros H. apply strictEquals_iff in H. congruence. }
    destruct (Validation.strictEquals (Validation.read item (js "type"))
                (js "image_url")) eqn:Hi.
    + pose proof (proj1 (strictEquals_iff _ _) Hi) as Htype.
      assert (Hobj : exists ms, item = JObject ms).
      { destruct item; try discriminate Htype. eexists; reflexivity. }
      destruct Hobj as (ms & ->).
      unfold Validation.checkItem. rewrite Ht, Hi. cbn [andb].
      destruct (Validation.read (JObject ms) (js "image_url")) as [u|] eqn:Hu.
      * destruct (Validation.isStringValue (Validation.read u (js "url")))
          eqn:Hs.
        -- pose proof (proj1 (isStringValue_iff _) Hs) as (s & Hurl).
           assert (Htruthy : toBoolean (Some u) = true).
           { destruct u; try discriminate Hurl. reflexivity. }
           rewrite Htruthy. cbn [negb orb andb].
           split; [|reflexivity]. intros _.
           split; [discriminate|]. split; [intros H; contradiction|].
           intros _. exists u, s. split; [reflexivity | exact Hurl].
        -- rewrite orb_true_r. split; [discriminate|].
           intros (_ & _ & H). destruct (H Htype) as (u' & s & Hu' & Hurl).
           inversion Hu'; subst u'.
           rewrite Hurl in Hs. discriminate.
      * cbn [toBoolean negb orb]. split; [discriminate|].
        intros (_ & _ & H). destruct (H Htype) as (u' & s & Hu' & _).
        discriminate.
    + assert (Hni : Validation.read item (js "type")
                    <> Some (JString (js "image_url"))).
      { intros H. apply strictEquals_iff in H. congruence. }
      unfold Validation.checkItem. rewrite Ht, Hi. cbn [andb].
      split.
      * intros H. split; [intros ->; discriminate|].
        split; intros H'; contradiction.
      * intros (Hn & _). destruct item; try reflexivity. congruence.
Qed.

Lemma checkMessage_passes {E : Engine} (message : json) :
  Validation.checkMessage message = Some None <-> acceptedMessage message.
Proof.
  unfold acceptedMessage. split.
  - unfold Validation.checkMessage.
    destruct message as [| | | | |ms]; try discriminate;
      try (cbn [Validation.read existsb Validation.strictEquals orb negb];
           rewrite orb_true_r; discriminate).
    destruct (Validation.read (JObject ms) (js "role")) as [role|] eqn:Hr;
      [|discriminate].
    destruct (existsb (Validation.strictEquals (Some role)) _) eqn:Hex;
      [|rewrite orb_true_r; discriminate].
    apply existsb_exists in Hex. destruct Hex as (r & Hin & Heq).
    apply strictEquals_iff in Heq. inversion Heq; subst role.
    assert (Htr : toBoolean (Some (JString r)) = true).
    { destruct Hin as [<-|[<-|[<-|[]]]]; reflexivity. }
    rewrite Htr. cbn [negb orb].
    destruct (Validation.read (JObject ms) (js "content")) as [[| | | |items|]|]
      eqn:Hc;
      try (cbn [Validation.isArray negb]; rewrite orb_true_r; discriminate);
      try discriminate.
    cbn [toBoolean Validation.isArray negb orb].
    intros H. apply forEach_passes in H.
    exists r, items. repeat split; try assumption.
    revert H. apply Forall_impl. intros item. apply checkItem_passes.
  - intros (role & items & Hr & Hin & Hc & Hitems).
    assert (Hobj : exists ms, message = JObject ms).
    { destruct message; try discriminate Hr. eexists; reflexivity. }
    destruct Hobj as (ms & ->).
    unfold Validation.checkMessage. rewrite Hr, Hc.
    assert (Htr : toBoolean (Some (JString role)) = true).
    { destruct Hin as [<-|[<-|[<-|[]]]]; reflexivity. }
    assert (Hex : existsb (Validation.strictEquals (Some (JString role)))
                    [js "system"; js "user"; js "assistant"] = true).
    { apply existsb_exists. exists role. split; [exact Hin|].
      apply strictEquals_iff. reflexivity. }
    rewrite Htr, Hex. cbn [negb orb toBoolean Validation.isArray].
    apply forEach_passes. revert Hitems. apply Forall_impl.
    intros item. apply checkItem_passes.
Qed.

Lemma validateMessages_accepts {E : Engine} (messages : option json) :
  Validation.validateMessages messages = Some (Validation.valid tt)
  <-> exists m ms,
        messages = Some (JArray (m :: ms))
        /\ Forall acceptedMessage (m :: ms).
Proof.
  split.
  - unfold Validation.validateMessages.
    destruct messages as [[| | | |[|m ms]|]|]; try discriminate.
    destruct (Validation.forEach Validation.checkMessage (m :: ms))
      as [[e|]|] eqn:H; try discriminate.
    intros _. exists m, ms. split; [reflexivity|].
    apply forEach_passes in H. revert H. apply Forall_impl.
    intros x. apply checkMessage_passes.
  - intros (m & ms & -> & H). unfold Validation.validateMessages.
    assert (Hf : Validation.forEach Validation.checkMessage (m :: ms)
                 = Some None).
    { apply forEach_passes. revert H. apply Forall_impl.
      intros x. apply checkMessage_passes. }
    rewrite Hf. reflexivity.
Qed.

(** X22. [Validator.validateMessages] accepts a value exactly when it is an
    array, not empty, of messages whose role is [system], [user] or
    [assistant] and whose content is an array; a content item may be any
    value but [null], and only an item of type [text] or [image_url] must
    have its string text or its image object with a string url. *)
Theorem X22_validateMessages_accepts_exactly (E : Engine)
  (messages : option json) :
  Validation.validateMessages messages = Some (Validation.valid tt)
  <-> exists m ms,
        messages = Some (JArray (m :: ms))
        /\ Forall acceptedMessage (m :: ms).
Proof. apply validateMessages_accepts. Qed.

End RequestMessages.
